(** * SafeAI backend: detection, anonymisation and policy pipeline

    A shallow embedding of the text-inspection core of the backend:

    - [analyzer]       (Detector)       analyzeText and its scanners
    - [anonymizer]     (Anonymizer)     anonymizeText
    - [policyEngine]   (Policy Engine)  makeDecision
    - [outputFilter]   (Output Filter)  scanOutput
    - [TelemetryService.buildEntityMap] (Entity Mapper)

    JavaScript strings are sequences of UTF-16 code units, so a string is a
    [list N] and every offset counts code units.  Regular expressions are a
    small syntax tree interpreted by a backtracking matcher that enumerates
    the possible ends of a match in the priority order of the ECMAScript
    matcher; the first one is the match [exec] reports. *)

From Stdlib Require Import List NArith ZArith Arith Bool Lia String Ascii.
From Stdlib Require Import DecimalString DecimalNat Permutation Sorted.
Import ListNotations.

Set Implicit Arguments.

(* ===================================================================== *)
(** ** JavaScript strings *)
(* ===================================================================== *)

Definition jsstring := list N.

(** An ASCII literal of the source as a JavaScript string. *)
Definition js (s : string) : jsstring :=
  map N_of_ascii (list_ascii_of_string s).

Definition cu (a : ascii) : N := N_of_ascii a.
Arguments cu a%_char_scope.

Fixpoint str_eqb (a b : jsstring) : bool :=
  match a, b with
  | [], [] => true
  | x :: a', y :: b' => N.eqb x y && str_eqb a' b'
  | _, _ => false
  end.

(** [String.prototype.startsWith], used to build [includes]. *)
Fixpoint startsWith (s p : jsstring) : bool :=
  match p, s with
  | [], _ => true
  | _ :: _, [] => false
  | y :: p', x :: s' => N.eqb x y && startsWith s' p'
  end.

(** [String.prototype.includes]. *)
Fixpoint includes (s p : jsstring) : bool :=
  startsWith s p ||
  match s with
  | [] => false
  | _ :: s' => includes s' p
  end.

(** [String.prototype.indexOf]; [None] stands for -1. *)
Fixpoint indexOf (s p : jsstring) : option nat :=
  if startsWith s p then Some 0
  else match s with
       | [] => None
       | _ :: s' => option_map S (indexOf s' p)
       end.

(** [s.substring(a, b)] for [a <= b]; both ends are clamped to the length. *)
Definition substring (s : jsstring) (a b : nat) : jsstring :=
  firstn (b - a) (skipn a s).

(** [s.substring(a)]. *)
Definition substring_from (s : jsstring) (a : nat) : jsstring := skipn a s.

(** [s.split(sep)] for a separator of one code unit. *)
Fixpoint split_on (sep : N) (s : jsstring) : list jsstring :=
  match s with
  | [] => [[]]
  | x :: s' =>
      if N.eqb x sep then [] :: split_on sep s'
      else match split_on sep s' with
           | [] => [[x]]
           | p :: ps => (x :: p) :: ps
           end
  end.

(** Decimal text of a number, as in a template literal. *)
Definition nat_to_js (n : nat) : jsstring :=
  js (NilEmpty.string_of_uint (Nat.to_uint n)).

(* ===================================================================== *)
(** ** Character classes of ECMAScript regular expressions (no [u] flag) *)
(* ===================================================================== *)

Definition in_range (lo hi c : N) : bool := N.leb lo c && N.leb c hi.

Definition is_digit (c : N) : bool := in_range 48 57 c.

(** [\w]: [A-Za-z0-9_]. *)
Definition is_word_char (c : N) : bool :=
  in_range 65 90 c || in_range 97 122 c || in_range 48 57 c || N.eqb c 95.

(** Line terminators: LF, CR, LS, PS. *)
Definition is_line_terminator (c : N) : bool :=
  N.eqb c 10 || N.eqb c 13 || N.eqb c 8232 || N.eqb c 8233.

(** [\s]: white space and line terminators. *)
Definition is_space (c : N) : bool :=
  in_range 9 13 c || N.eqb c 32 || N.eqb c 160 || N.eqb c 5760 ||
  in_range 8192 8202 c || N.eqb c 8232 || N.eqb c 8233 || N.eqb c 8239 ||
  N.eqb c 8287 || N.eqb c 12288 || N.eqb c 65279.

(** Canonicalize of a code unit under the [i] flag.  The patterns of this
    program contain ASCII and Hebrew characters only; a code unit above 127
    never canonicalizes to an ASCII one and Hebrew letters have no case, so
    comparing ASCII-upper-cased code units decides the same matches. *)
Definition canonicalize (c : N) : N :=
  if in_range 97 122 c then (c - 32)%N else c.

(** The other ASCII case of a letter, the code unit itself otherwise. *)
Definition swap_case (c : N) : N :=
  if in_range 97 122 c then (c - 32)%N
  else if in_range 65 90 c then (c + 32)%N else c.

Definition char_eq (ic : bool) (p c : N) : bool :=
  if ic then N.eqb (canonicalize p) (canonicalize c) else N.eqb p c.

Inductive citem : Type :=
| CChar (c : N)            (* a single character *)
| CRange (lo hi : N)       (* lo-hi *)
| CDigit                   (* \d *)
| CWord                    (* \w *)
| CSpace                   (* \s *)
| CNotSpace.               (* \S *)

Definition item_plain (it : citem) (c : N) : bool :=
  match it with
  | CChar p => N.eqb p c
  | CRange lo hi => in_range lo hi c
  | CDigit => is_digit c
  | CWord => is_word_char c
  | CSpace => is_space c
  | CNotSpace => negb (is_space c)
  end.

(** Under [i] a class member matches when some character of the member has
    the canonical form of the input character. *)
Definition item_matches (ic : bool) (it : citem) (c : N) : bool :=
  item_plain it c || (ic && item_plain it (swap_case c)).

Definition rng (a b : ascii) : citem := CRange (cu a) (cu b).
Arguments rng (a b)%_char_scope.

Definition chars (s : string) : list citem := map CChar (js s).

(* ===================================================================== *)
(** ** Regular expressions *)
(* ===================================================================== *)

Inductive regex : Type :=
| Empty
| Lit (l : jsstring)                       (* literal characters *)
| Dot                                      (* . *)
| Class (neg : bool) (items : list citem)  (* [...] and [^...] *)
| WordB                                    (* \b *)
| Seq (r1 r2 : regex)
| Alt (r1 r2 : regex)
| Rep (r : regex) (mn : nat) (mx : option nat) (greedy : bool).

(** Groups only delimit: no pattern of the program uses a back-reference and
    no caller reads a capture, so [( )] and [(?: )] are plain nesting. *)

Definition lit (s : string) : regex := Lit (js s).
Definition cat (rs : list regex) : regex := fold_right Seq Empty rs.
Fixpoint alts (rs : list regex) : regex :=
  match rs with
  | [] => Empty
  | [r] => r
  | r :: rs' => Alt r (alts rs')
  end.
Definition cls (items : list citem) : regex := Class false items.
Definition ncls (items : list citem) : regex := Class true items.
Definition digit : regex := cls [CDigit].
Definition space : regex := cls [CSpace].
Definition wordc : regex := cls [CWord].
Definition opt (r : regex) : regex := Rep r 0 (Some 1) true.    (* r?  *)
Definition star (r : regex) : regex := Rep r 0 None true.       (* r*  *)
Definition plus (r : regex) : regex := Rep r 1 None true.       (* r+  *)
Definition lazy_star (r : regex) : regex := Rep r 0 None false. (* r*? *)
Definition exactly (n : nat) (r : regex) : regex := Rep r n (Some n) true.
Definition times (a b : nat) (r : regex) : regex := Rep r a (Some b) true.
Definition at_least (n : nat) (r : regex) : regex := Rep r n None true.

(* ===================================================================== *)
(** ** The matcher *)
(* ===================================================================== *)

(** RepeatMatcher: [step] enumerates the ends of one iteration; an iteration
    that consumes nothing is rejected once the minimum is reached.  Every
    level either lowers [mn] or moves the position forward, so
    [mn + length text + 1] levels of [fuel] are never used up. *)
Fixpoint rep (step : nat -> list nat) (greedy : bool)
    (fuel mn : nat) (mx : option nat) (i : nat) : list nat :=
  match mx with
  | Some 0 => [i]
  | _ =>
      match fuel with
      | 0 => []
      | S fuel' =>
          let more :=
            flat_map
              (fun j =>
                 if (mn =? 0) && (j =? i) then []
                 else rep step greedy fuel' (pred mn) (option_map pred mx) j)
              (step i) in
          if negb (mn =? 0) then more
          else if greedy then more ++ [i] else i :: more
      end
  end.

Section Matcher.
Variable ic : bool.        (* the i flag *)
Variable s : jsstring.     (* the subject *)

Definition char_at (i : nat) : option N := nth_error s i.

Definition word_at (i : nat) : bool :=
  match char_at i with
  | Some c => is_word_char c
  | None => false
  end.

(** [\b] at position [i]: exactly one side is a word character. *)
Definition is_word_boundary (i : nat) : bool :=
  let before := match i with 0 => false | S k => word_at k end in
  xorb before (word_at i).

Fixpoint lit_at (l : jsstring) (i : nat) : bool :=
  match l with
  | [] => true
  | p :: l' =>
      match char_at i with
      | Some c => char_eq ic p c && lit_at l' (S i)
      | None => false
      end
  end.

(** Ends of the matches of [r] that start at [i], best first. *)
Fixpoint m (r : regex) (i : nat) : list nat :=
  match r with
  | Empty => [i]
  | Lit l => if lit_at l i then [i + List.length l] else []
  | Dot =>
      match char_at i with
      | Some c => if is_line_terminator c then [] else [S i]
      | None => []
      end
  | Class neg items =>
      match char_at i with
      | Some c =>
          if xorb neg (existsb (fun it => item_matches ic it c) items)
          then [S i] else []
      | None => []
      end
  | WordB => if is_word_boundary i then [i] else []
  | Seq r1 r2 => flat_map (m r2) (m r1 i)
  | Alt r1 r2 => m r1 i ++ m r2 i
  | Rep r' mn mx greedy =>
      rep (m r') greedy (mn + List.length s + 1) mn mx i
  end.

(** The match found when scanning forward from [i]: start and end. *)
Fixpoint search (r : regex) (fuel i : nat) : option (nat * nat) :=
  match fuel with
  | 0 => None
  | S fuel' =>
      match m r i with
      | e :: _ => Some (i, e)
      | [] => search r fuel' (S i)
      end
  end.

(** Positions [i .. length s] are the candidates. *)
Definition search_from (r : regex) (i : nat) : option (nat * nat) :=
  search r (S (List.length s) - i) i.
End Matcher.

(* ===================================================================== *)
(** ** RegExp objects: a pattern, its flags, and the mutable lastIndex *)
(* ===================================================================== *)

Record RegExp : Type := mkRegExp {
  source : regex;
  ignoreCase : bool;
  lastIndex : nat
}.

(** A regular expression literal with the [g] flag (and [i] when [ic]). *)
Definition regexp_g (ic : bool) (r : regex) : RegExp := mkRegExp r ic 0.

Definition set_lastIndex (p : RegExp) (i : nat) : RegExp :=
  mkRegExp (source p) (ignoreCase p) i.

(** [pattern.exec(text)] of a global RegExp: the search starts at lastIndex;
    a match leaves lastIndex at its end, a failure resets it to 0. *)
Definition exec (p : RegExp) (text : jsstring)
  : option (nat * nat) * RegExp :=
  match search_from (ignoreCase p) text (source p) (lastIndex p) with
  | Some (i, e) => (Some (i, e), set_lastIndex p e)
  | None => (None, set_lastIndex p 0)
  end.

(** [pattern.test(text)]: [exec] that only reports whether it matched. *)
Definition test (p : RegExp) (text : jsstring) : bool * RegExp :=
  match exec p text with
  | (Some _, p') => (true, p')
  | (None, p') => (false, p')
  end.


(* ===================================================================== *)
(** ** analyzer: the pattern tables *)
(* ===================================================================== *)

Definition sp : regex := plus space.                     (* \s+ *)
(** A single or a double quote (code units 39 and 34). *)
Definition quote : regex := cls [CChar 39; CChar 34].
Definition alnum : list citem := [rng "A" "Z"; rng "a" "z"; rng "0" "9"].
Definition upnum : list citem := [rng "A" "Z"; rng "0" "9"].
Definition upper : regex := cls [rng "A" "Z"].
Definition sep_dash : regex := cls (chars "-." ++ [CSpace]).     (* [-.\s] *)
Definition sep_label : regex := cls (CSpace :: chars ":#-").     (* [\s:#-] *)
Definition sep_assign : regex := cls (CSpace :: chars ":=").     (* [\s:=] *)
Definition key_body : regex :=                            (* [A-Za-z0-9_\-]{20,} *)
  at_least 20 (cls (alnum ++ chars "_-")).
Definition words (ws : list string) : regex := alts (map lit ws).

Definition street_kinds : list string :=
  ["Street"; "St"; "Avenue"; "Ave"; "Road"; "Rd"; "Boulevard"; "Blvd";
   "Lane"; "Ln"; "Drive"; "Dr"; "Court"; "Ct"; "Parkway"; "Pkwy"; "Place";
   "Pl"; "Square"; "Sq"; "Trail"; "Trl"; "Circle"; "Cir"]%string.

Definition re_EMAIL : regex :=
  cat [WordB; plus (cls (alnum ++ chars "._%+-")); lit "@";
       plus (cls (alnum ++ chars ".-")); lit ".";
       at_least 2 (cls [rng "A" "Z"; rng "a" "z"]); WordB].
Definition re_PHONE : regex :=
  cat [WordB;
       opt (cat [opt (lit "+"); times 1 3 digit; opt sep_dash]);
       opt (lit "("); exactly 3 digit; opt (lit ")"); opt sep_dash;
       exactly 3 digit; opt sep_dash; exactly 4 digit; WordB].
Definition re_SSN : regex :=
  cat [WordB; exactly 3 digit; opt (lit "-"); exactly 2 digit;
       opt (lit "-"); exactly 4 digit; WordB].
Definition re_CREDIT_CARD : regex :=
  Alt (cat [WordB;
            exactly 3 (cat [exactly 4 digit; opt (cls (chars "-" ++ [CSpace]))]);
            exactly 4 digit; WordB])
      (cat [WordB; exactly 16 digit; WordB]).
Definition re_ID_NUMBER : regex := cat [WordB; exactly 9 digit; WordB].
Definition re_IBAN : regex :=
  cat [WordB; exactly 2 upper; exactly 2 digit; exactly 4 (cls upnum);
       exactly 7 digit; times 0 16 (opt (cls upnum)); WordB].
Definition re_ADDRESS : regex :=
  cat [WordB; plus digit; sp; plus (cls [rng "A" "Z"; rng "a" "z"]); sp;
       words street_kinds; WordB].
Definition re_PASSPORT : regex :=
  cat [WordB; times 1 2 upper; times 6 9 digit; WordB].
Definition re_DRIVERS_LICENSE : regex :=
  cat [WordB; times 1 2 upper; times 5 8 digit; WordB].
Definition re_MEDICAL_ID : regex :=
  cat [WordB; words ["MRN"; "Medical Record"; "Patient ID"]%string;
       star sep_label; times 6 10 digit; WordB].
Definition re_TAX_ID : regex :=
  cat [WordB; exactly 2 digit; opt (lit "-"); exactly 7 digit; WordB].
Definition re_VAT_NUMBER : regex :=
  cat [WordB; words ["VAT"; "Tax ID"]%string; star sep_label;
       exactly 2 upper; times 8 12 digit; WordB].
Definition re_API_KEY_OPENAI : regex :=
  cat [WordB; lit "sk-"; exactly 48 (cls alnum); WordB].
Definition re_API_KEY_AWS : regex :=
  cat [WordB; words ["AKIA"; "ASIA"]%string; exactly 16 (cls upnum); WordB].
Definition re_API_KEY_GENERIC : regex :=
  cat [WordB;
       alts [cat [lit "api"; opt (cls (chars "_-")); lit "key"];
             lit "apikey";
             cat [lit "api"; opt (cls (chars "_-")); lit "secret"]];
       plus sep_assign; opt quote; key_body; opt quote; WordB].
Definition re_SECRET_KEY : regex :=
  cat [WordB;
       alts [cat [lit "secret"; opt (cls (chars "_-")); lit "key"];
             cat [lit "private"; opt (cls (chars "_-")); lit "key"];
             cat [lit "access"; opt (cls (chars "_-")); lit "token"]];
       plus sep_assign; opt quote; key_body; opt quote; WordB].
(** The two Hebrew keywords, by code unit. *)
Definition kw_he1 : jsstring := [1514; 1497; 1511; 32; 1502; 1505]%N.
Definition kw_he2 : jsstring :=
  [1502; 1505; 1508; 1512; 32; 1514; 1497; 1511]%N.
Definition re_KEYWORDS : regex :=
  cat [WordB;
       alts [lit "client name"; lit "customer name"; Lit kw_he1; Lit kw_he2;
             lit "salary list"; lit "client list"; lit "customer list";
             lit "employee list"; lit "confidential"; lit "proprietary"];
       WordB].

(** [PII_PATTERNS], in the key order [Object.entries] enumerates. *)
Definition PII_PATTERNS : list (jsstring * RegExp) :=
  [ (js "EMAIL", regexp_g false re_EMAIL);
    (js "PHONE", regexp_g false re_PHONE);
    (js "SSN", regexp_g false re_SSN);
    (js "CREDIT_CARD", regexp_g false re_CREDIT_CARD);
    (js "ID_NUMBER", regexp_g false re_ID_NUMBER);
    (js "IBAN", regexp_g false re_IBAN);
    (js "ADDRESS", regexp_g true re_ADDRESS);
    (js "PASSPORT", regexp_g false re_PASSPORT);
    (js "DRIVERS_LICENSE", regexp_g false re_DRIVERS_LICENSE);
    (js "MEDICAL_ID", regexp_g true re_MEDICAL_ID);
    (js "TAX_ID", regexp_g false re_TAX_ID);
    (js "VAT_NUMBER", regexp_g true re_VAT_NUMBER);
    (js "API_KEY_OPENAI", regexp_g false re_API_KEY_OPENAI);
    (js "API_KEY_AWS", regexp_g false re_API_KEY_AWS);
    (js "API_KEY_GENERIC", regexp_g true re_API_KEY_GENERIC);
    (js "SECRET_KEY", regexp_g true re_SECRET_KEY);
    (js "KEYWORDS", regexp_g true re_KEYWORDS) ].

(** [\bA\b.*\bB\b] *)
Definition kw_then (a b : string) : regex :=
  cat [WordB; lit a; WordB; star Dot; WordB; lit b; WordB].

Definition SQL_INJECTION_PATTERNS : list RegExp :=
  [ regexp_g true (kw_then "UNION" "SELECT");
    regexp_g true (kw_then "DROP" "TABLE");
    regexp_g true (cat [WordB; lit "INSERT"; WordB; star Dot; WordB;
                        lit "INTO"; WordB; star Dot; WordB; lit "VALUES";
                        WordB]);
    regexp_g true (kw_then "DELETE" "FROM");
    regexp_g true (kw_then "UPDATE" "SET");
    regexp_g true (cat [lit ";"; star Dot; WordB; lit "DROP"; WordB]);
    regexp_g true (cat [lit "'"; star Dot; lit "OR"; star Dot; lit "'";
                        star Dot; lit "="; star Dot; lit "'"]);
    regexp_g false (alts [lit "--"; lit "#";
                          cat [lit "/*"; star Dot; lit "*/"]]);
    regexp_g true (Alt (cat [WordB; lit "EXEC"; WordB])
                       (cat [WordB; lit "EXECUTE"; WordB]));
    regexp_g true (cat [WordB; lit "xp_cmdshell"; WordB]) ].

(** [<tag\b[^>]*>] *)
Definition open_tag (t : string) : regex :=
  cat [lit t; WordB; star (ncls (chars ">")); lit ">"].

Definition XSS_PATTERNS : list RegExp :=
  [ regexp_g true (cat [lit "<script"; WordB; star (ncls (chars ">"));
                        lit ">"; lazy_star (cls [CSpace; CNotSpace]);
                        lit "</script>"]);
    regexp_g true (open_tag "<iframe");
    regexp_g true (lit "javascript:");
    regexp_g true (cat [lit "on";
                        alts [lit "load"; lit "error"; lit "click";
                              cat [lit "mouse"; plus wordc];
                              lit "focus"; lit "blur"];
                        star space; lit "="]);
    regexp_g true (cat [lit "<img"; plus (ncls (chars ">")); lit "src";
                        star space; lit "="; star space;
                        opt (cls [CChar 34; CChar 39]); lit "javascript:"]);
    regexp_g true (open_tag "<object");
    regexp_g true (open_tag "<embed");
    regexp_g true (cat [lit "eval"; star space; lit "("]);
    regexp_g true (cat [lit "expression"; star space; lit "("]);
    regexp_g true (lit "vbscript:") ].

Definition optw (w : string) : regex := opt (cat [lit w; sp]).  (* (w\s+)? *)
Definition earlier : regex := words ["previous"; "prior"; "above"]%string.
Definition instructions : regex := cat [lit "instruction"; opt (lit "s")].
Definition guards : regex :=
  words ["safety"; "security"; "filter"; "protection"]%string.
Definition prompt_or_instructions : regex := Alt (lit "prompt") instructions.
Definition records : regex :=
  alts [cat [lit "client"; opt (lit "s")]; cat [lit "customer"; opt (lit "s")];
        cat [lit "user"; opt (lit "s")]; lit "data"].

Definition JAILBREAK_PATTERNS : list RegExp :=
  map (regexp_g true)
  [ (* direct instruction manipulation *)
    cat [lit "ignore"; sp; optw "all"; earlier; sp; instructions];
    cat [lit "disregard"; sp; optw "all"; earlier; sp;
         Alt instructions (cat [lit "rule"; opt (lit "s")])];
    cat [lit "forget"; sp; optw "all"; earlier; sp; instructions];
    (* bypass attempts *)
    cat [lit "bypass"; sp; guards];
    cat [lit "disable"; sp; guards];
    cat [lit "override"; sp; guards];
    (* role manipulation *)
    cat [lit "you"; sp; lit "are"; sp; lit "now"; sp;
         Alt (lit "a") (lit "an"); sp; plus wordc];
    cat [lit "act"; sp; lit "as"; sp; Alt (lit "if") (lit "though"); sp;
         lit "you"; sp; Alt (lit "are") (lit "were")];
    cat [lit "pretend"; sp;
         Alt (cat [lit "you"; sp; lit "are"]) (cat [lit "to"; sp; lit "be"])];
    (* system prompt extraction *)
    cat [lit "reveal"; sp; optw "your"; optw "system"; prompt_or_instructions];
    cat [lit "show"; sp; optw "me"; optw "your"; optw "system";
         prompt_or_instructions];
    cat [lit "what"; sp; Alt (lit "are") (lit "is"); sp; lit "your"; sp;
         optw "system"; prompt_or_instructions];
    (* data exfiltration *)
    cat [lit "print"; sp; lit "all"; sp; records];
    cat [lit "show"; sp; lit "all"; sp; records];
    cat [lit "list"; sp; lit "all"; sp; records];
    cat [lit "reveal"; sp; optw "all";
         words ["hidden"; "secret"; "private"]%string; sp; lit "data"];
    cat [lit "export"; sp; lit "all"; sp; lit "data"];
    (* DAN variants *)
    cat [WordB; lit "DAN"; sp; lit "mode"; WordB];
    cat [lit "do"; sp; lit "anything"; sp; lit "now"];
    cat [lit "developer"; sp; lit "mode"];
    (* prompt injection markers *)
    lit "[SYSTEM]";
    lit "[ADMIN]";
    lit "[ROOT]";
    cat [lit "sudo"; sp] ].

(** The module-level RegExp objects: the state every scanner shares. *)
Record Patterns : Type := mkPatterns {
  pii : list (jsstring * RegExp);
  sql : list RegExp;
  xss : list RegExp;
  jailbreak : list RegExp
}.

(** The objects as the module creates them when it is loaded. *)
Definition loaded : Patterns :=
  mkPatterns PII_PATTERNS SQL_INJECTION_PATTERNS XSS_PATTERNS
             JAILBREAK_PATTERNS.

(* ===================================================================== *)
(** ** analyzer: findings and scanners *)
(* ===================================================================== *)

(** A finding object.  A property the code did not set is [None]
    ([undefined]); [details] holds [details.rowCount]. *)
Record Finding : Type := mkFinding {
  type : jsstring;
  offsetStart : nat;
  offsetEnd : nat;
  value : option jsstring;
  details : option nat;
  category : option jsstring
}.

Inductive RiskLevel : Type := LOW | MEDIUM | HIGH.

Record Analysis : Type := mkAnalysis {
  riskLevel : RiskLevel;
  findings : list Finding;
  anomalyScore : nat
}.

(** [type === 'T'] *)
Definition type_is (type : jsstring) (t : string) : bool :=
  str_eqb type (js t).

(** [{ type, offsetStart: 0, offsetEnd: text.length }] *)
Definition whole_text_finding (ty : jsstring) (text : jsstring) : Finding :=
  mkFinding ty 0 (List.length text) None None None.

(** [String.prototype.split] with a RegExp separator without groups: [p] is
    the end of the previous separator, [q] the position tried.  A step
    either moves [q] forward or makes [p] equal to [q], so
    [2 * length + 1] steps are never used up. *)
Fixpoint split_re_loop (r : regex) (s : jsstring) (fuel p q : nat)
  : list jsstring :=
  match fuel with
  | 0 => [substring s p (List.length s)]
  | S fuel' =>
      if q <? List.length s then
        match m false s r q with
        | e0 :: _ =>
            let e := Nat.min e0 (List.length s) in
            if e =? p then split_re_loop r s fuel' p (S q)
            else substring s p q :: split_re_loop r s fuel' e e
        | [] => split_re_loop r s fuel' p (S q)
        end
      else [substring s p (List.length s)]
  end.

Definition split_re (r : regex) (s : jsstring) : list jsstring :=
  match s with
  | [] => match m false s r 0 with _ :: _ => [] | [] => [s] end
  | _ => split_re_loop r s (2 * List.length s + 1) 0 0
  end.

(** [s.match(/r/g)] is not [null]. *)
Definition has_match (r : regex) (s : jsstring) : bool :=
  match search_from false s r 0 with Some _ => true | None => false end.

Definition spaces2 : regex := at_least 2 space.     (* \s{2,} *)

(** The filter of [detectBulkData]: a line that looks like a table row. *)
Definition looks_like_row (line : jsstring) : bool :=
  (includes line (js ",") && (3 <? List.length (split_on (cu ",") line))) ||
  (includes line [9%N] && (3 <? List.length (split_on 9%N line))) ||
  (has_match spaces2 line && (3 <? List.length (split_re spaces2 line))).

Definition bulkIndicators : list jsstring :=
  [js "list of"; js "all clients"; js "all customers"; js "full list"].

Record BulkData : Type := mkBulk { isBulk : bool; rowCount : nat }.

Definition highRiskTypes : list jsstring :=
  [js "SQL_INJECTION"; js "XSS_ATTEMPT"; js "JAILBREAK_PATTERN";
   js "API_KEY_OPENAI"; js "API_KEY_AWS";
   js "SSN"; js "CREDIT_CARD"; js "PASSPORT"; js "DRIVERS_LICENSE";
   js "MEDICAL_ID"; js "IBAN"].

(** [Array.prototype.includes] on an array of strings. *)
Definition arr_includes (l : list jsstring) (x : jsstring) : bool :=
  existsb (str_eqb x) l.

(** [new Set(xs)]: the distinct elements in order of first occurrence. *)
Fixpoint set_of (xs : list jsstring) (seen : list jsstring) : list jsstring :=
  match xs with
  | [] => seen
  | x :: xs' =>
      if arr_includes seen x then set_of xs' seen
      else set_of xs' (seen ++ [x])
  end.

Definition calculateAnomalyScore (findings : list Finding) (text : jsstring)
  : nat :=
  let score := 0 in
  let score := score + Nat.min (List.length findings * 5) 30 in
  let highRiskCount :=
    List.length (filter (fun f => arr_includes highRiskTypes (type f)) findings) in
  let score := score + highRiskCount * 25 in
  let uniqueTypes := set_of (map type findings) [] in
  let score := if 3 <? List.length uniqueTypes then score + 15 else score in
  let score :=
    if (1000 <? List.length text) && (5 <? List.length findings)
    then score + 10 else score in
  Nat.min score 100.

(** The [while ((match = pattern.exec(text)) !== null)] loop of detectPII.
    It runs for ever on a pattern that keeps matching the empty string at
    the same place; [None] is the loop not ending within [fuel] rounds. *)
Fixpoint exec_loop (fuel : nat) (ty : jsstring) (pattern : RegExp)
    (text : jsstring) (findings : list Finding)
  : option (list Finding * RegExp) :=
  match fuel with
  | 0 => None
  | S fuel' =>
      match exec pattern text with
      | (Some (index, e), pattern') =>
          let match0 := substring text index e in
          exec_loop fuel' ty pattern' text
            (findings ++
             [mkFinding ty index (index + List.length match0) (Some match0)
                        None None])
      | (None, pattern') => Some (findings, pattern')
      end
  end.

(** The [for ... of Object.entries(PII_PATTERNS)] loop of detectPII. *)
Fixpoint detectPII_loop (entries : list (jsstring * RegExp))
    (text : jsstring) (findings : list Finding)
  : option (list Finding * list (jsstring * RegExp)) :=
  match entries with
  | [] => Some (findings, [])
  | (ty, pattern) :: rest =>
      match exec_loop (S (List.length text)) ty (set_lastIndex pattern 0)
                      text findings with
      | None => None
      | Some (findings', pattern') =>
          match detectPII_loop rest text findings' with
          | None => None
          | Some (fs, rest') => Some (fs, (ty, pattern') :: rest')
          end
      end
  end.

Definition detectPII (text : jsstring) (entries : list (jsstring * RegExp))
  : option (list Finding * list (jsstring * RegExp)) :=
  detectPII_loop entries text [].

(** The loop shared by the three injection scanners: reset lastIndex, test,
    push one finding and [break] at the first pattern that matches. *)
Fixpoint scan_family (ty : jsstring) (text : jsstring)
    (patterns : list RegExp) (findings : list Finding)
  : list Finding * list RegExp :=
  match patterns with
  | [] => (findings, [])
  | pattern :: rest =>
      match test (set_lastIndex pattern 0) text with
      | (true, pattern') =>
          (findings ++ [whole_text_finding ty text], pattern' :: rest)
      | (false, pattern') =>
          let (fs, rest') := scan_family ty text rest findings in
          (fs, pattern' :: rest')
      end
  end.

Definition detectSQLInjection (text : jsstring) (patterns : list RegExp) :=
  scan_family (js "SQL_INJECTION") text patterns [].

Definition detectXSS (text : jsstring) (patterns : list RegExp) :=
  scan_family (js "XSS_ATTEMPT") text patterns [].

Definition detectJailbreak (text : jsstring) (patterns : list RegExp) :=
  scan_family (js "JAILBREAK_PATTERN") text patterns [].

Section Analyzer.
(** [String.prototype.toLowerCase] follows the Unicode case mappings; the
    development holds for whatever function it is. *)
Variable toLowerCase : jsstring -> jsstring.

Definition detectBulkData (text : jsstring) : BulkData :=
  let lines := split_on 10%N text in
  let rowCount := List.length lines in
  let tableRows := List.length (filter looks_like_row lines) in
  if 10 <? tableRows then mkBulk true tableRows
  else
    let hasBulkIndicators :=
      existsb (fun indicator => includes (toLowerCase text) indicator)
              bulkIndicators in
    mkBulk (hasBulkIndicators || (50 <? rowCount)) rowCount.

(** analyzeText, with the RegExp objects it reads and leaves behind. *)
Definition analyzeText (g : Patterns) (text : jsstring)
  : option (Analysis * Patterns) :=
  match detectPII text (pii g) with
  | None => None
  | Some (piiFindings, pii') =>
      let bulkData := detectBulkData text in
      let (sqlFindings, sql') := detectSQLInjection text (sql g) in
      let (xssFindings, xss') := detectXSS text (xss g) in
      let (jailbreakFindings, jb') := detectJailbreak text (jailbreak g) in
      let allFindings :=
        piiFindings ++ sqlFindings ++ xssFindings ++ jailbreakFindings in
      let allFindings :=
        if isBulk bulkData
        then allFindings ++
             [mkFinding (js "BULK_DATA") 0 (List.length text) None
                        (Some (rowCount bulkData)) None]
        else allFindings in
      let anomalyScore := calculateAnomalyScore allFindings text in
      let hasHighRiskFindings :=
        (0 <? List.length sqlFindings) || (0 <? List.length xssFindings) ||
        (0 <? List.length jailbreakFindings) in
      let hasAPIKeys :=
        existsb (fun f => includes (type f) (js "API_KEY") ||
                          includes (type f) (js "SECRET")) allFindings in
      let riskLevel :=
        if hasHighRiskFindings || hasAPIKeys || (70 <=? anomalyScore)
        then HIGH
        else if (0 <? List.length allFindings) || isBulk bulkData ||
                (40 <=? anomalyScore)
        then MEDIUM
        else LOW in
      Some (mkAnalysis riskLevel allFindings anomalyScore,
            mkPatterns pii' sql' xss' jb')
  end.
End Analyzer.

(** ASCII lower-casing: what [toLowerCase] does to an ASCII text. *)
Definition ascii_lower (s : jsstring) : jsstring :=
  map (fun c => if in_range 65 90 c then (c + 32)%N else c) s.


(* ===================================================================== *)
(** ** anonymizer *)
(* ===================================================================== *)

Module Anonymizer.

Record Summary : Type := mkSummary {
  removed : list jsstring;
  bulkDataHandled : bool
}.

Record AnonymizationResult : Type := mkResult {
  sanitizedText : jsstring;
  changed : bool;
  summary : Summary
}.

(** [(a, b) => b.offsetStart - a.offsetStart] *)
Definition compareFn (a b : Finding) : Z :=
  (Z.of_nat (offsetStart b) - Z.of_nat (offsetStart a))%Z.

(** [Array.prototype.sort] is stable: an element goes in front of the
    first one the comparator orders after it. *)
Fixpoint sort_insert (x : Finding) (sorted : list Finding) : list Finding :=
  match sorted with
  | [] => [x]
  | y :: rest =>
      if (0 <? compareFn y x)%Z then x :: y :: rest
      else y :: sort_insert x rest
  end.

Definition array_sort (arr : list Finding) : list Finding :=
  fold_left (fun sorted x => sort_insert x sorted) arr [].

(** [Set.prototype.add] *)
Definition set_add (set : list jsstring) (x : jsstring) : list jsstring :=
  if arr_includes set x then set else set ++ [x].

(** The [switch (type)]: the placeholder and the tag added to
    [removedTypes]. *)
Definition replacement_of (type : jsstring) : jsstring * jsstring :=
  if type_is type "EMAIL" then (js "[EMAIL]", js "EMAIL")
  else if type_is type "PHONE" then (js "[PHONE_NUMBER]", js "PHONE")
  else if type_is type "SSN" then (js "[SSN]", js "SSN")
  else if type_is type "CREDIT_CARD" then (js "[CREDIT_CARD]", js "CREDIT_CARD")
  else if type_is type "ID_NUMBER" then (js "[ID_NUMBER]", js "ID_NUMBER")
  else if type_is type "IBAN" then (js "[IBAN]", js "IBAN")
  else if type_is type "ADDRESS" then (js "[ADDRESS]", js "ADDRESS")
  else if type_is type "PASSPORT" then (js "[PASSPORT]", js "PASSPORT")
  else if type_is type "DRIVERS_LICENSE" then (js "[DL]", js "DRIVERS_LICENSE")
  else if type_is type "MEDICAL_ID" then (js "[MEDICAL_ID]", js "MEDICAL_ID")
  else if type_is type "TAX_ID" then (js "[TAX_ID]", js "TAX_ID")
  else if type_is type "VAT_NUMBER" then (js "[VAT]", js "VAT_NUMBER")
  else if type_is type "API_KEY_OPENAI" || type_is type "API_KEY_AWS" ||
          type_is type "API_KEY_GENERIC" || type_is type "SECRET_KEY"
       then (js "[API_KEY]", js "API_KEY")
  else (js "[" ++ type ++ js "]", type).

(** The variables the loop over the sorted findings updates. *)
Record LoopState : Type := mkState {
  st_sanitizedText : jsstring;
  st_changed : bool;
  st_removedTypes : list jsstring;
  st_bulkDataHandled : bool
}.

Definition is_security_type (type : jsstring) : bool :=
  str_eqb type (js "EXFIL_ATTEMPT") || str_eqb type (js "JAILBREAK_PATTERN") ||
  str_eqb type (js "SQL_INJECTION") || str_eqb type (js "XSS_ATTEMPT").

(** One round of the [for (const finding of sortedFindings)] loop.  The
    offsets of a finding are numbers, so the [!== undefined] tests hold. *)
Definition anonymize_step (st : LoopState) (finding : Finding) : LoopState :=
  if str_eqb (type finding) (js "BULK_DATA") then
    mkState (st_sanitizedText st) (st_changed st) (st_removedTypes st) true
  else if is_security_type (type finding) then st
  else
    let (replacement, tag) := replacement_of (type finding) in
    let removedTypes := set_add (st_removedTypes st) tag in
    match replacement with
    | [] => mkState (st_sanitizedText st) (st_changed st) removedTypes
                    (st_bulkDataHandled st)
    | _ =>
        let addSpace :=
          match nth_error (st_sanitizedText st) (offsetEnd finding) with
          | Some afterChar => if is_space afterChar then [] else js " "
          | None => js " "
          end in
        mkState (substring (st_sanitizedText st) 0 (offsetStart finding) ++
                 replacement ++ addSpace ++
                 substring_from (st_sanitizedText st) (offsetEnd finding))
                true removedTypes (st_bulkDataHandled st)
    end.

(** anonymizeText.  [findings] is the caller's array: [sort] reorders it
    in place, so the second component is what that array holds when the
    call returns. *)
Definition anonymizeText (text : jsstring) (findings : list Finding)
  : AnonymizationResult * list Finding :=
  let findings := array_sort findings in      (* findings.sort(...) *)
  let sortedFindings := findings in           (* the same array *)
  let st :=
    fold_left anonymize_step sortedFindings (mkState text false [] false) in
  let bulkDataFinding :=
    find (fun f => str_eqb (type f) (js "BULK_DATA")) findings in
  let bulkDataHandled :=
    match bulkDataFinding with
    | Some f =>
        match details f with
        | Some rowCount => if 10 <? rowCount then true
                           else st_bulkDataHandled st
        | None => st_bulkDataHandled st
        end
    | None => st_bulkDataHandled st
    end in
  (mkResult (st_sanitizedText st) (st_changed st)
            (mkSummary (st_removedTypes st) bulkDataHandled),
   findings).

End Anonymizer.

(* ===================================================================== *)
(** ** policyEngine *)
(* ===================================================================== *)

Module PolicyEngine.

Inductive Decision : Type :=
  ALLOW | WARN_AND_ALLOW | WARN_AND_SANITIZE | BLOCK.

Record PolicyDecision : Type := mkDecision {
  decision : Decision;
  reasonCodes : list jsstring;
  sanitizedText : option jsstring;       (* always null *)
  userMessage : jsstring
}.

(** The [context] argument; [userRole] absent is [None]. *)
Record Context : Type := mkContext { userRole : option jsstring }.

(** The categories [hasPII] looks for. *)
Definition piiTypes : list jsstring :=
  [js "EMAIL"; js "PHONE"; js "SSN"; js "ID_NUMBER"; js "CREDIT_CARD";
   js "IBAN"; js "ADDRESS"].

Definition msg_exfil : jsstring :=
  js "This prompt appears to be attempting data extraction and has been blocked.".
Definition msg_jailbreak : jsstring :=
  js "This prompt contains instructions that attempt to bypass safety measures and has been blocked.".
Definition msg_high : jsstring :=
  js "This content has been blocked due to high security risk.".
Definition msg_bulk : jsstring :=
  js "Large data sets have been blocked for security. Please use the Document Wizard for safe processing.".
Definition msg_pii : jsstring :=
  js "Sensitive information detected. Content will be sanitized before sending.".
Definition msg_low : jsstring := js "Content approved for sending.".
Definition msg_medium : jsstring :=
  js "Content has medium risk factors. Please review before sending.".

Definition is_high (r : RiskLevel) : bool :=
  match r with HIGH => true | _ => false end.
Definition is_low (r : RiskLevel) : bool :=
  match r with LOW => true | _ => false end.

(** The PII branch, written twice in the source. *)
Definition pii_decision (role : jsstring) : PolicyDecision :=
  mkDecision
    (if str_eqb role (js "employee") then WARN_AND_SANITIZE
     else WARN_AND_ALLOW)
    [js "PII_DETECTED"] None msg_pii.

Definition makeDecision (analysis : Analysis) (context : Context)
  : PolicyDecision :=
  let role :=
    match userRole context with Some r => r | None => js "employee" end in
  let findingTypes := map type (findings analysis) in
  let hasPII := existsb (fun t => arr_includes piiTypes t) findingTypes in
  let hasBulkData := arr_includes findingTypes (js "BULK_DATA") in
  let hasExfilAttempt := arr_includes findingTypes (js "EXFIL_ATTEMPT") in
  let hasJailbreakPattern :=
    arr_includes findingTypes (js "JAILBREAK_PATTERN") in
  if is_high (riskLevel analysis) || hasExfilAttempt || hasJailbreakPattern
  then
    mkDecision BLOCK
      [if hasExfilAttempt then js "EXFIL_ATTEMPT"
       else if hasJailbreakPattern then js "JAILBREAK_PATTERN"
       else js "HIGH_RISK"]
      None
      (if hasExfilAttempt then msg_exfil
       else if hasJailbreakPattern then msg_jailbreak else msg_high)
  else if hasBulkData then
    let bulkFinding :=
      find (fun f => str_eqb (type f) (js "BULK_DATA"))
           (findings analysis) in
    let large :=
      match bulkFinding with
      | Some f => match details f with
                  | Some rowCount => 10 <? rowCount
                  | None => false
                  end
      | None => false
      end in
    if large then mkDecision BLOCK [js "BULK_DATA"] None msg_bulk
    else if hasPII then pii_decision role
    else mkDecision ALLOW [] None []
  else if hasPII then pii_decision role
  else if is_low (riskLevel analysis) then mkDecision ALLOW [] None msg_low
  else mkDecision WARN_AND_ALLOW [js "MEDIUM_RISK"] None msg_medium.

End PolicyEngine.

(* ===================================================================== *)
(** ** TelemetryService: the entity mapper *)
(* ===================================================================== *)

Module Telemetry.

(** [{ originalValue, category }] *)
Record Entry : Type := mkEntry {
  originalValue : option jsstring;
  entry_category : jsstring
}.

(** A plain object used as a map: own properties in insertion order. *)
Definition EntityMap := list (jsstring * Entry).

(** What [{}] inherits from [Object.prototype]; reading one of these
    names yields a function or the prototype, never a falsy value. *)
Definition inherited : list jsstring :=
  map js ["constructor"; "__defineGetter__"; "__defineSetter__";
          "hasOwnProperty"; "__lookupGetter__"; "__lookupSetter__";
          "isPrototypeOf"; "propertyIsEnumerable"; "toString"; "valueOf";
          "__proto__"; "toLocaleString"]%string.

Fixpoint own {A : Type} (o : list (jsstring * A)) (k : jsstring) : option A :=
  match o with
  | [] => None
  | (k', v) :: o' => if str_eqb k' k then Some v else own o' k
  end.

(** [o[k] = v] *)
Fixpoint put {A : Type} (o : list (jsstring * A)) (k : jsstring) (v : A)
  : list (jsstring * A) :=
  match o with
  | [] => [(k, v)]
  | (k', v') :: o' =>
      if str_eqb k' k then (k, v) :: o' else (k', v') :: put o' k v
  end.

(** A property key made from a value that may be [undefined]. *)
Definition key_of (v : option jsstring) : jsstring :=
  match v with Some s => s | None => js "undefined" end.

(** [entityMap[k]] is truthy: every own value is an object. *)
Definition truthy_at (entityMap : EntityMap) (k : jsstring) : bool :=
  match own entityMap k with
  | Some _ => true
  | None => arr_includes inherited k
  end.

Definition prefixes : list (jsstring * jsstring) :=
  [ (js "EMAIL", js "EMAIL"); (js "PHONE", js "PHONE"); (js "SSN", js "ID");
    (js "CREDIT_CARD", js "CC"); (js "PASSPORT", js "PASSPORT");
    (js "PII_PERSON", js "CLIENT"); (js "PII_ORG", js "COMPANY");
    (js "FINANCIAL", js "ACCOUNT"); (js "ADDRESS", js "ADDRESS") ].

(** [prefixes[category] || 'DATA'], for a category that is not the name
    of a member of [Object.prototype]. *)
Definition getCategoryPrefix (category : jsstring) : jsstring :=
  match own prefixes category with
  | Some p => p
  | None => js "DATA"
  end.

(** One round of [findings.forEach]. *)
Definition build_step (acc : EntityMap * list (jsstring * nat))
    (finding : Finding) : EntityMap * list (jsstring * nat) :=
  let (entityMap, counters) := acc in
  let category :=
    match category finding with
    | Some (c :: cs) => c :: cs
    | _ => js "PII"
    end in
  let value := value finding in
  if negb (truthy_at entityMap (key_of value)) then
    let prefix := getCategoryPrefix category in
    let n := (match own counters prefix with Some n => n | None => 0 end) + 1 in
    let counters := put counters prefix n in
    let placeholder := prefix ++ js "_" ++ nat_to_js n in
    (put entityMap placeholder (mkEntry value category), counters)
  else (entityMap, counters).

Definition buildEntityMap (findings : list Finding) : EntityMap :=
  fst (fold_left build_step findings ([], [])).

(** The placeholders under which [v] is recorded. *)
Definition placeholders_of (entityMap : EntityMap) (v : jsstring)
  : list jsstring :=
  map fst
    (filter (fun kv => match originalValue (snd kv) with
                       | Some o => str_eqb o v
                       | None => false
                       end) entityMap).

End Telemetry.

(* ===================================================================== *)
(** ** outputFilter *)
(* ===================================================================== *)

Module OutputFilter.

(** What a call ends in: a value, or a thrown exception (for the async
    [scanOutput]: the promise fulfilled, or rejected). *)
Inductive Completion (A : Type) : Type :=
| Normal (a : A)
| Throw (error : jsstring).
Arguments Normal {A} a.
Arguments Throw {A} error.

(** A value of the entity map handed to [scanOutput]: a bare string, or
    the [{ originalValue, category }] object [buildEntityMap] stores. *)
Inductive MapValue : Type :=
| Str (s : jsstring)
| Obj (e : Telemetry.Entry).

Record Attempt : Type := mkAttempt {
  placeholder : jsstring;
  original : jsstring;
  partial : option jsstring;
  attempt_context : jsstring
}.

Record Suspicious : Type := mkSuspicious {
  keyword : jsstring;
  suspicious_context : jsstring;
  reason : jsstring
}.

(** The three shapes of finding [scanOutput] pushes; [type], [severity]
    and [message] are fixed by the shape. *)
Inductive OutputFinding : Type :=
| SENSITIVE_IN_OUTPUT (patterns : list Finding)
| REVERSAL_ATTEMPT (attempts : list Attempt)
| SUSPICIOUS_PATTERN (patterns : list Suspicious).

(** [{ safe: false, findings, originalText, maskedText }] or
    [{ safe: true, text, findings: [] }]. *)
Inductive ScanResult : Type :=
| Unsafe (findings : list OutputFinding) (originalText maskedText : jsstring)
| Safe (text : jsstring).

Definition safe (r : ScanResult) : bool :=
  match r with Safe _ => true | Unsafe _ _ _ => false end.

Definition maskedText (r : ScanResult) : option jsstring :=
  match r with Safe _ => None | Unsafe _ _ mt => Some mt end.

(** The characters [escapeRegex] puts a backslash in front of. *)
Definition is_special (c : N) : bool :=
  existsb (N.eqb c) (js ".*+?^${}()|[]\").

Definition escapeRegex (s : jsstring) : jsstring :=
  flat_map (fun c => if is_special c then [92%N; c] else [c]) s.

Definition anonymizationKeywords : list jsstring :=
  map js ["anonymized"; "placeholder"; "redacted"; "masked";
          "EMAIL_1"; "PHONE_1"; "SSN_1"; "CLIENT_1"]%string.

Definition delimiters : regex := cls (chars "@._-" ++ [CSpace]).

Section Filter.
Variable toLowerCase : jsstring -> jsstring.
(** [subject.replace(new RegExp(pattern, 'gi'), replacement)]: the
    pattern is compiled from text at run time; the development holds
    for whatever the built-in computes. *)
Variable replace_gi : jsstring -> jsstring -> jsstring -> jsstring.

Definition getContext (text match_ : jsstring) (radius : nat) : jsstring :=
  match indexOf (toLowerCase text) (toLowerCase match_) with
  | None => []
  | Some index =>
      let start := index - radius in
      let end_ :=
        Nat.min (List.length text) (index + List.length match_ + radius) in
      js "..." ++ substring text start end_ ++ js "..."
  end.

Definition findPartialMatch (text original : jsstring) : option jsstring :=
  let parts := split_re delimiters original in
  find (fun part => (3 <? List.length part) &&
                    includes (toLowerCase text) (toLowerCase part)) parts.

(** One round of the loop over [Object.entries(entityMap)]: calling
    [toLowerCase] on an entry that is not a string throws. *)
Definition reversal_step (text : jsstring) (attempts : list Attempt)
    (entry : jsstring * MapValue) : Completion (list Attempt) :=
  let (placeholder, original) := entry in
  match original with
  | Obj _ => Throw (js "TypeError: original.toLowerCase is not a function")
  | Str original =>
      let attempts :=
        if includes (toLowerCase text) (toLowerCase original)
        then attempts ++
             [mkAttempt placeholder original None
                        (getContext text original 50)]
        else attempts in
      match findPartialMatch text original with
      | Some (c :: cs) =>
          let partialMatch := c :: cs in
          Normal (attempts ++
                  [mkAttempt placeholder original (Some partialMatch)
                             (getContext text partialMatch 50)])
      | _ => Normal attempts
      end
  end.

Fixpoint reversal_loop (text : jsstring)
    (entries : list (jsstring * MapValue)) (attempts : list Attempt)
  : Completion (list Attempt) :=
  match entries with
  | [] => Normal attempts
  | entry :: rest =>
      match reversal_step text attempts entry with
      | Throw e => Throw e
      | Normal attempts' => reversal_loop text rest attempts'
      end
  end.

Definition detectReversalAttempts (text : jsstring)
    (entityMap : list (jsstring * MapValue)) : Completion (list Attempt) :=
  reversal_loop text entityMap [].

Definition detectSuspiciousPatterns (text : jsstring) : list Suspicious :=
  flat_map
    (fun keyword =>
       if includes (toLowerCase text) (toLowerCase keyword)
       then [mkSuspicious keyword (getContext text keyword 30)
               (js "LLM discussing anonymization process")]
       else [])
    anonymizationKeywords.

Definition redacted : jsstring := js "[REDACTED]".

Definition mask_pattern (masked : jsstring) (pattern : Finding) : jsstring :=
  match value pattern with
  | Some (c :: cs) => replace_gi masked (escapeRegex (c :: cs)) redacted
  | _ => masked
  end.

Definition mask_attempt (masked : jsstring) (attempt : Attempt) : jsstring :=
  let masked :=
    replace_gi masked (escapeRegex (original attempt))
               (placeholder attempt) in
  match partial attempt with
  | Some (c :: cs) => replace_gi masked (escapeRegex (c :: cs)) redacted
  | _ => masked
  end.

Definition mask_finding (masked : jsstring) (finding : OutputFinding)
  : jsstring :=
  match finding with
  | SENSITIVE_IN_OUTPUT patterns => fold_left mask_pattern patterns masked
  | REVERSAL_ATTEMPT attempts => fold_left mask_attempt attempts masked
  | SUSPICIOUS_PATTERN _ => masked
  end.

Definition maskSensitiveContent (text : jsstring)
    (findings : list OutputFinding) : jsstring :=
  fold_left mask_finding findings text.

(** scanOutput.  [None] is the analyzer not returning. *)
Definition scanOutput (g : Patterns) (text : jsstring)
    (originalEntityMap : list (jsstring * MapValue))
  : option (Completion ScanResult * Patterns) :=
  match analyzeText toLowerCase g text with
  | None => None
  | Some (analysis, g') =>
      let findings :=
        if 0 <? List.length (findings analysis)
        then [SENSITIVE_IN_OUTPUT (findings analysis)] else [] in
      match detectReversalAttempts text originalEntityMap with
      | Throw e => Some (Throw e, g')
      | Normal reversalAttempts =>
          let findings :=
            if 0 <? List.length reversalAttempts
            then findings ++ [REVERSAL_ATTEMPT reversalAttempts]
            else findings in
          let suspicious := detectSuspiciousPatterns text in
          let findings :=
            if 0 <? List.length suspicious
            then findings ++ [SUSPICIOUS_PATTERN suspicious]
            else findings in
          if 0 <? List.length findings
          then Some (Normal (Unsafe findings text
                               (maskSensitiveContent text findings)), g')
          else Some (Normal (Safe text), g')
      end
  end.
End Filter.

End OutputFilter.


(* ===================================================================== *)
(** ** api: the simplified anonymizer of the HTTP layer *)
(* ===================================================================== *)

Module Api.

(** [s.replace(/r/g, replacement)] for a replacement text without [$]:
    every match found by repeated [exec] is replaced; after an empty match
    the search moves on by one code unit.  [li] is the lastIndex, [nsp] the
    end of the previous match. *)
Fixpoint replace_loop (ic : bool) (r : regex) (replacement s : jsstring)
    (fuel li nsp : nat) : jsstring :=
  match fuel with
  | 0 => substring_from s nsp
  | S fuel' =>
      match search_from ic s r li with
      | None => substring_from s nsp
      | Some (a, e) =>
          substring s nsp a ++ replacement ++
          replace_loop ic r replacement s fuel'
                       (if e =? a then S e else e) e
      end
  end.

Definition replace_g (ic : bool) (r : regex) (replacement s : jsstring)
  : jsstring :=
  replace_loop ic r replacement s (List.length s + 2) 0 0.

(** [/\b\d{3}-\d{2}-\d{4}\b/g] *)
Definition re_ssn : regex :=
  cat [WordB; exactly 3 digit; lit "-"; exactly 2 digit; lit "-";
       exactly 4 digit; WordB].

(** [/\b[A-Za-z0-9._%+-]+@[A-Za-z0-9.-]+\.[A-Z|a-z]{2,}\b/g] *)
Definition re_email : regex :=
  cat [WordB; plus (cls (alnum ++ chars "._%+-")); lit "@";
       plus (cls (alnum ++ chars ".-")); lit ".";
       at_least 2 (cls ([rng "A" "Z"] ++ chars "|" ++ [rng "a" "z"]));
       WordB].

(** [{ sanitizedText, originalText }] *)
Record Sanitized : Type := mkSanitized {
  sanitizedText : jsstring;
  originalText : jsstring
}.

Definition anonymizeText (text : jsstring) (findings : list Finding)
  : Sanitized :=
  let sanitizedText := text in
  let sanitizedText := replace_g false re_ssn (js "[SSN]") sanitizedText in
  let sanitizedText :=
    replace_g false re_email (js "[EMAIL]") sanitizedText in
  mkSanitized sanitizedText text.

End Api.

(* ===================================================================== *)
(** ** routes: the inline check handler *)
(* ===================================================================== *)

Module InlineCheck.

(** What [policies[category]] can yield: a string stored from a row, or a
    member inherited from [Object.prototype] (a function, or the prototype
    itself for [__proto__]), or [undefined]. *)
Inductive Lookup : Type :=
| Stored (decision : jsstring)
| Inherited
| Undefined.

(** [policies[p.category] = p.decision]: assigning a string to [__proto__]
    changes nothing. *)
Definition store_row (policies : list (jsstring * jsstring))
    (row : jsstring * jsstring) : list (jsstring * jsstring) :=
  if str_eqb (fst row) (js "__proto__") then policies
  else Telemetry.put policies (fst row) (snd row).

(** [policiesResult.rows.forEach(p => { policies[p.category] = p.decision })] *)
Definition build_policies (rows : list (jsstring * jsstring))
  : list (jsstring * jsstring) :=
  fold_left store_row rows [].

Definition lookup (policies : list (jsstring * jsstring))
    (category : jsstring) : Lookup :=
  match Telemetry.own policies category with
  | Some d => Stored d
  | None =>
      if arr_includes Telemetry.inherited category then Inherited
      else Undefined
  end.

(** [policies[category] || 'WARN'] *)
Definition policy_of (policies : list (jsstring * jsstring))
    (category : jsstring) : Lookup :=
  match lookup policies category with
  | Stored [] => Stored (js "WARN")
  | Undefined => Stored (js "WARN")
  | v => v
  end.

Inductive Decision : Type := ALLOW | WARN | BLOCK.

Definition is_stored (v : Lookup) (d : string) : bool :=
  match v with
  | Stored x => str_eqb x (js d)
  | _ => false
  end.

(** The [for (const category of detectedCategories)] loop, with its
    [break] at the first blocked category. *)
Fixpoint decide_loop (policies : list (jsstring * jsstring))
    (categories : list jsstring) (decision : Decision) : Decision :=
  match categories with
  | [] => decision
  | category :: rest =>
      let policyDecision := policy_of policies category in
      if is_stored policyDecision "BLOCK" then BLOCK
      else if is_stored policyDecision "WARN" &&
              match decision with ALLOW => true | _ => false end
      then decide_loop policies rest WARN
      else decide_loop policies rest decision
  end.

(** [[...new Set(analysis.findings.map(f => f.category || 'PII_BASIC'))]] *)
Definition detectedCategories (findings : list Finding) : list jsstring :=
  set_of (map (fun f => match category f with
                        | Some (c :: cs) => c :: cs
                        | _ => js "PII_BASIC"
                        end) findings) [].

(** The part of the response computed from the analysis. *)
Record Response : Type := mkResponse {
  decision : Decision;
  categories : list jsstring;
  sanitizedText : jsstring
}.

(** The handler from the analysis on: decide by category, anonymize
    unless blocked. *)
Definition respond (rows : list (jsstring * jsstring)) (rawText : jsstring)
    (analysis : Analysis) : Response :=
  let policies := build_policies rows in
  let detected := detectedCategories (findings analysis) in
  let decision := decide_loop policies detected ALLOW in
  let sanitizedText :=
    match decision with
    | BLOCK => rawText
    | _ => Anonymizer.sanitizedText
             (fst (Anonymizer.anonymizeText rawText (findings analysis)))
    end in
  mkResponse decision detected sanitizedText.

End InlineCheck.

(* ===================================================================== *)
(** ** Definitions used to state the properties *)
(* ===================================================================== *)

(** A pattern that may match without consuming a character. *)
Fixpoint nullable (r : regex) : bool :=
  match r with
  | Empty => true
  | WordB => true
  | Lit l => match l with [] => true | _ :: _ => false end
  | Dot => false
  | Class _ _ => false
  | Seq r1 r2 => nullable r1 && nullable r2
  | Alt r1 r2 => nullable r1 || nullable r2
  | Rep r' mn mx _ =>
      (mn =? 0) || nullable r' ||
      match mx with Some 0 => true | _ => false end
  end.

(** A RegExp object with its lastIndex forgotten. *)
Definition reset (p : RegExp) : RegExp := set_lastIndex p 0.

Definition reset_entry (e : jsstring * RegExp) : jsstring * RegExp :=
  (fst e, reset (snd e)).

Definition erase (g : Patterns) : Patterns :=
  mkPatterns (map reset_entry (pii g)) (map reset (sql g))
             (map reset (xss g)) (map reset (jailbreak g)).

(** The RegExp objects of the program, whatever their lastIndex. *)
Definition program_state (g : Patterns) : Prop := erase g = loaded.

(** A sequence of calls of analyzeText, each one starting from the objects
    the previous one left. *)
Fixpoint session (toLowerCase : jsstring -> jsstring) (g : Patterns)
    (texts : list jsstring) : option (list Analysis * Patterns) :=
  match texts with
  | [] => Some ([], g)
  | text :: rest =>
      match analyzeText toLowerCase g text with
      | None => None
      | Some (a, g') =>
          match session toLowerCase g' rest with
          | None => None
          | Some (results, g'') => Some (a :: results, g'')
          end
      end
  end.

Definition str_eq_dec : forall a b : jsstring, {a = b} + {a <> b} :=
  list_eq_dec N.eq_dec.

Module Spec.
(** The scoring and classification rules in the words of the
    specification, to be compared with what analyzeText computes. *)

Definition anomalyScore (findingCount highRiskFindingCount
    distinctCategories textLength : nat) : nat :=
  Nat.min 100
    (5 * Nat.min findingCount 6 + 25 * highRiskFindingCount +
     (if 3 <? distinctCategories then 15 else 0) +
     (if (1000 <? textLength) && (5 <? findingCount) then 10 else 0)).

Definition riskLevel (injection keyOrSecret nonEmpty bulk : bool)
    (score : nat) : RiskLevel :=
  if injection || keyOrSecret || (70 <=? score) then HIGH
  else if nonEmpty || bulk || (40 <=? score) then MEDIUM
  else LOW.

Definition injectionTypes : list jsstring :=
  [js "SQL_INJECTION"; js "XSS_ATTEMPT"; js "JAILBREAK_PATTERN"].

Definition keyTypes : list jsstring :=
  [js "API_KEY_OPENAI"; js "API_KEY_AWS"; js "API_KEY_GENERIC";
   js "SECRET_KEY"].

Definition has_type_in (types : list jsstring) (fs : list Finding) : bool :=
  existsb (fun f => arr_includes types (type f)) fs.

Definition highRiskFindingCount (fs : list Finding) : nat :=
  count_occ bool_dec (map (fun f => arr_includes highRiskTypes (type f)) fs)
            true.

Definition distinctCategories (fs : list Finding) : nat :=
  List.length (nodup str_eq_dec (map type fs)).

(** The structured PII categories of the Detector. *)
Definition detectorPiiTypes : list jsstring :=
  map js ["EMAIL"; "PHONE"; "SSN"; "CREDIT_CARD"; "ID_NUMBER"; "IBAN";
          "ADDRESS"; "PASSPORT"; "DRIVERS_LICENSE"; "MEDICAL_ID";
          "TAX_ID"; "VAT_NUMBER"]%string.
End Spec.

Definition no_value (f : Finding) : bool :=
  match value f with None => true | Some _ => false end.

(** The inputs of the worked examples. *)
Definition text_jane : jsstring :=
  js "My email is jane@firm.com and SSN 123-45-6789".
Definition finding_jane_email : Finding :=
  mkFinding (js "EMAIL") 12 25 (Some (js "jane@firm.com")) None None.
Definition finding_jane_ssn : Finding :=
  mkFinding (js "SSN") 34 45 (Some (js "123-45-6789")) None None.
Definition employee : PolicyEngine.Context :=
  PolicyEngine.mkContext (Some (js "employee")).

(** [j] is a position from [i] on that does not leave the subject. *)
Definition within (s : jsstring) (i j : nat) : Prop :=
  i <= j /\ j <= Nat.max i (List.length s).

(** [pattern.lastIndex = 0; pattern.test(text)] *)
Definition matches (p : RegExp) (text : jsstring) : bool :=
  fst (test (set_lastIndex p 0) text).

(** "At most one finding, first match wins": either no pattern of the
    family matches and nothing is reported, or the family splits at its
    first matching pattern, one finding spanning the text is reported, and
    the patterns behind the first match are left as they were. *)
Definition first_match_wins
    (scan : jsstring -> list RegExp -> list Finding * list RegExp)
    (ty : jsstring) : Prop :=
  forall (text : jsstring) (patterns : list RegExp),
    List.length (fst (scan text patterns)) <= 1 /\
    ((forallb (fun p => negb (matches p text)) patterns = true /\
      fst (scan text patterns) = [])
     \/
     (exists before p after,
        patterns = before ++ p :: after /\
        forallb (fun q => negb (matches q text)) before = true /\
        matches p text = true /\
        fst (scan text patterns) =
          [mkFinding ty 0 (List.length text) None None None] /\
        skipn (S (List.length before)) (snd (scan text patterns)) = after)).

(** The findings the Detector reports for a text. *)
Definition detected (toLowerCase : jsstring -> jsstring) (g : Patterns)
    (text : jsstring) : option (list Finding) :=
  option_map (fun r => findings (fst r)) (analyzeText toLowerCase g text).

(** Every category analyzeText can report. *)
Definition knownTypes : list jsstring :=
  map fst PII_PATTERNS ++
  [js "SQL_INJECTION"; js "XSS_ATTEMPT"; js "JAILBREAK_PATTERN";
   js "BULK_DATA"].

Definition is_empty {A : Type} (l : list A) : bool :=
  match l with [] => true | _ :: _ => false end.

(** The analysis analyzeText returns for a text. *)
Definition analysis_of (toLowerCase : jsstring -> jsstring) (g : Patterns)
    (text : jsstring) : option Analysis :=
  option_map fst (analyzeText toLowerCase g text).

(** The place of a category in a list of categories (its length when the
    category is not in it). *)
Fixpoint rank (keys : list jsstring) (t : jsstring) : nat :=
  match keys with
  | [] => 0
  | k :: ks => if str_eqb k t then 0 else S (rank ks t)
  end.

(** Scan order: the PII categories in the order of the pattern table, then
    SQL_INJECTION, XSS_ATTEMPT, JAILBREAK_PATTERN, BULK_DATA. *)
Definition scan_order (a b : Finding) : Prop :=
  rank knownTypes (type a) <= rank knownTypes (type b).

(** Eleven lines "a,b,c,d", each ended by a line feed. *)
Definition table_text : jsstring :=
  List.concat (repeat (js "a,b,c,d" ++ [10%N]) 11).

(** A finding lies inside the text; one with a value carries the text of its
    span, which is not empty. *)
Definition well_formed (text : jsstring) (f : Finding) : Prop :=
  offsetStart f <= offsetEnd f /\ offsetEnd f <= List.length text /\
  match value f with
  | Some v =>
      v = substring text (offsetStart f) (offsetEnd f) /\
      offsetStart f < offsetEnd f
  | None => True
  end.

(** Two findings of one category, in list order: the first ends where the
    second starts, or earlier. *)
Definition apart (a b : Finding) : Prop :=
  type a = type b -> offsetEnd a <= offsetStart b.

(** The findings the anonymizer substitutes: not BULK_DATA, not one of the
    security categories. *)
Definition substituted (f : Finding) : bool :=
  negb (str_eqb (type f) (js "BULK_DATA")) &&
  negb (Anonymizer.is_security_type (type f)).

Definition is_bulk (f : Finding) : bool := str_eqb (type f) (js "BULK_DATA").

(** [a] comes before [b] in descending offsetStart order. *)
Definition starts_not_before (a b : Finding) : Prop :=
  offsetStart b <= offsetStart a.

Definition is_obj (entry : jsstring * OutputFilter.MapValue) : bool :=
  match snd entry with OutputFilter.Obj _ => true | OutputFilter.Str _ => false end.

Definition is_throw {A : Type} (c : OutputFilter.Completion A) : bool :=
  match c with OutputFilter.Throw _ => true | OutputFilter.Normal _ => false end.

(** A value the entity mapper records under a new placeholder whatever the
    map holds: not the name of an inherited member, not shaped like a
    DATA placeholder. *)
Definition fresh_value (f : Finding) : bool :=
  negb (arr_includes Telemetry.inherited (Telemetry.key_of (value f))) &&
  negb (startsWith (Telemetry.key_of (value f)) (js "DATA_")).

Definition has_no_category (f : Finding) : bool :=
  match category f with None => true | Some _ => false end.

(** The entries DATA_(k+1), DATA_(k+2), ... for the findings, in order. *)
Fixpoint numbered (k : nat) (fs : list Finding)
  : list (jsstring * Telemetry.Entry) :=
  match fs with
  | [] => []
  | f :: fs' =>
      (js "DATA_" ++ nat_to_js (S k), Telemetry.mkEntry (value f) (js "PII"))
      :: numbered (S k) fs'
  end.

(* ===================================================================== *)
(** ** Properties of the matcher *)
(* ===================================================================== *)

Section MatcherFacts.
Variable ic : bool.
Variable s : jsstring.

Lemma lit_at_fits : forall l i,
  lit_at ic s l i = true -> within s i (i + List.length l).
Proof.
  unfold within.
  induction l as [|p l IH]; intros i H; simpl in *.
  - lia.
  - unfold char_at in H. destruct (nth_error s i) eqn:E; [|discriminate].
    apply andb_true_iff in H. destruct H as [_ H].
    assert (i < List.length s) by (apply nth_error_Some; congruence).
    specialize (IH (S i) H). lia.
Qed.

Lemma within_trans : forall i k j,
  within s i k -> within s k j -> within s i j.
Proof. unfold within. intros. lia. Qed.

Lemma within_refl : forall i, within s i i.
Proof. unfold within. intros. lia. Qed.

(** Ends of a repetition, given how one iteration moves. *)
Lemma rep_ends : forall (step : nat -> list nat) greedy,
  (forall i j, In j (step i) -> within s i j) ->
  forall fuel mn mx i j,
    In j (rep step greedy fuel mn mx i) -> within s i j.
Proof.
  intros step greedy Hstep.
  induction fuel as [|fuel IH]; intros mn mx i j Hin.
  - simpl in Hin. destruct mx as [[|n]|]; simpl in Hin;
      try contradiction. destruct Hin as [<-|[]]. apply within_refl.
  - assert (Hmore : forall mx',
      In j (flat_map
              (fun k => if (mn =? 0) && (k =? i) then []
                        else rep step greedy fuel (pred mn) mx' k)
              (step i)) -> within s i j).
    { intros mx' H. apply in_flat_map in H. destruct H as [k [Hk Hj]].
      destruct ((mn =? 0) && (k =? i)); [contradiction|].
      apply Hstep in Hk. apply IH in Hj.
      eapply within_trans; eassumption. }
    assert (Hbody : forall mx',
      In j (if negb (mn =? 0)
            then flat_map
                   (fun k => if (mn =? 0) && (k =? i) then []
                             else rep step greedy fuel (pred mn) mx' k)
                   (step i)
            else if greedy
            then flat_map
                   (fun k => if (mn =? 0) && (k =? i) then []
                             else rep step greedy fuel (pred mn) mx' k)
                   (step i) ++ [i]
            else i :: flat_map
                   (fun k => if (mn =? 0) && (k =? i) then []
                             else rep step greedy fuel (pred mn) mx' k)
                   (step i)) -> within s i j).
    { intros mx'. destruct (negb (mn =? 0)); [apply Hmore|].
      destruct greedy.
      - intros H. apply in_app_or in H. destruct H as [H|[<-|[]]].
        + revert H. apply Hmore.
        + apply within_refl.
      - intros [<-|H]; [apply within_refl|]. revert H. apply Hmore. }
    destruct mx as [[|n]|]; cbn [rep option_map] in Hin.
    + destruct Hin as [<-|[]]. apply within_refl.
    + apply Hbody in Hin. exact Hin.
    + apply Hbody in Hin. exact Hin.
Qed.

Lemma rep_moves : forall (step : nat -> list nat) greedy,
  (forall i j, In j (step i) -> i < j /\ within s i j) ->
  forall fuel mn mx i j,
    mn <> 0 -> mx <> Some 0 ->
    In j (rep step greedy fuel mn mx i) -> i < j.
Proof.
  intros step greedy Hstep fuel mn mx i j Hmn Hmx Hin.
  assert (Hweak : forall a b, In b (step a) -> within s a b).
  { intros a b H. apply Hstep in H. tauto. }
  assert (Hn : (mn =? 0) = false) by (apply Nat.eqb_neq; exact Hmn).
  destruct fuel as [|fuel].
  - simpl in Hin. destruct mx as [[|n]|]; simpl in Hin;
      try contradiction; congruence.
  - assert (Hbody : forall mx',
      In j (flat_map (fun k => rep step greedy fuel (pred mn) mx' k)
                     (step i)) -> i < j).
    { intros mx' H. apply in_flat_map in H. destruct H as [k [Hk Hj]].
      apply Hstep in Hk. apply (rep_ends _ _ Hweak) in Hj.
      unfold within in *. lia. }
    destruct mx as [[|n]|]; simpl in Hin.
    + congruence.
    + rewrite Hn in Hin. simpl in Hin. apply Hbody in Hin. exact Hin.
    + rewrite Hn in Hin. simpl in Hin. apply Hbody in Hin. exact Hin.
Qed.

Lemma flat_map_agree : forall (f h : nat -> list nat) l,
  (forall x, In x l -> f x = h x) -> flat_map f l = flat_map h l.
Proof.
  intros f h. induction l as [|x l IH]; intros H; simpl; [reflexivity|].
  rewrite (H x (or_introl eq_refl)), IH; [reflexivity|].
  intros y Hy. apply H. right. exact Hy.
Qed.

(** The repetition never runs out of fuel: beyond [mn + (length - i)]
    levels the amount of fuel makes no difference. *)
Lemma rep_fuel_enough : forall (step : nat -> list nat) greedy,
  (forall i j, In j (step i) -> within s i j) ->
  forall fuel1 fuel2 mn mx i,
    mn + (List.length s - i) < fuel1 ->
    mn + (List.length s - i) < fuel2 ->
    rep step greedy fuel1 mn mx i = rep step greedy fuel2 mn mx i.
Proof.
  intros step greedy Hstep.
  induction fuel1 as [|fuel1 IH]; intros fuel2 mn mx i H1 H2; [lia|].
  destruct fuel2 as [|fuel2]; [lia|].
  assert (Hmore : forall mx',
    flat_map (fun k => if (mn =? 0) && (k =? i) then []
                       else rep step greedy fuel1 (pred mn) mx' k) (step i) =
    flat_map (fun k => if (mn =? 0) && (k =? i) then []
                       else rep step greedy fuel2 (pred mn) mx' k) (step i)).
  { intros mx'. apply flat_map_agree. intros k Hk.
    destruct ((mn =? 0) && (k =? i)) eqn:E; [reflexivity|].
    apply Hstep in Hk. unfold within in Hk.
    apply andb_false_iff in E.
    apply IH.
    - destruct E as [E|E]; [apply Nat.eqb_neq in E|apply Nat.eqb_neq in E];
        lia.
    - destruct E as [E|E]; [apply Nat.eqb_neq in E|apply Nat.eqb_neq in E];
        lia. }
  destruct mx as [[|n]|]; cbn [rep option_map].
  - reflexivity.
  - rewrite Hmore. reflexivity.
  - rewrite Hmore. reflexivity.
Qed.

(** Every end the matcher reports lies between the start and the end of
    the subject, and beyond the start when the pattern is not nullable. *)
Lemma m_ends : forall r i j,
  In j (m ic s r i) ->
  within s i j /\ (nullable r = false -> i < j).
Proof.
  induction r as [|l| |neg items| |r1 IH1 r2 IH2|r1 IH1 r2 IH2
                  |r IH mn mx greedy]; intros i j Hin; simpl in Hin.
  - destruct Hin as [<-|[]]. simpl.
    split; [apply within_refl|discriminate].
  - destruct (lit_at ic s l i) eqn:E; [|contradiction].
    destruct Hin as [<-|[]]. split.
    + apply lit_at_fits. exact E.
    + destruct l; simpl; [discriminate|lia].
  - unfold char_at in Hin. destruct (nth_error s i) eqn:E; [|contradiction].
    assert (i < List.length s) by (apply nth_error_Some; congruence).
    destruct (is_line_terminator n); [contradiction|].
    destruct Hin as [<-|[]]. unfold within. split; lia.
  - unfold char_at in Hin. destruct (nth_error s i) eqn:E; [|contradiction].
    assert (i < List.length s) by (apply nth_error_Some; congruence).
    destruct (xorb neg _); [|contradiction].
    destruct Hin as [<-|[]]. unfold within. split; lia.
  - destruct (is_word_boundary s i); [|contradiction].
    destruct Hin as [<-|[]]. simpl.
    split; [apply within_refl|discriminate].
  - apply in_flat_map in Hin. destruct Hin as [k [Hk Hj]].
    apply IH1 in Hk. apply IH2 in Hj.
    destruct Hk as [Hk1 Hk2]. destruct Hj as [Hj1 Hj2]. split.
    + eapply within_trans; eassumption.
    + simpl. intros Hn. unfold within in *.
      apply andb_false_iff in Hn. destruct Hn as [Hn|Hn].
      * specialize (Hk2 Hn). lia.
      * specialize (Hj2 Hn). lia.
  - apply in_app_or in Hin. simpl.
    destruct Hin as [H|H]; [apply IH1 in H|apply IH2 in H];
      destruct H as [H1 H2]; (split; [exact H1|]);
      intros Hn; apply orb_false_iff in Hn; destruct Hn as [Hn1 Hn2];
      auto.
  - assert (Hweak : forall a b, In b (m ic s r a) -> within s a b).
    { intros a b H. apply IH in H. tauto. }
    split.
    + eapply rep_ends; [exact Hweak|exact Hin].
    + simpl. intros Hn.
      apply orb_false_iff in Hn. destruct Hn as [Hn Hmx].
      apply orb_false_iff in Hn. destruct Hn as [Hmn Hr].
      apply Nat.eqb_neq in Hmn.
      assert (Hstrict : forall a b, In b (m ic s r a) ->
                a < b /\ within s a b).
      { intros a b H. apply IH in H. destruct H as [? H].
        specialize (H Hr). tauto. }
      eapply rep_moves; [exact Hstrict|exact Hmn| |exact Hin].
      destruct mx as [[|n]|]; congruence.
Qed.

(** The fuel the matcher gives a repetition is enough: more changes
    nothing. *)
Lemma m_rep_fuel : forall r mn mx greedy i extra,
  m ic s (Rep r mn mx greedy) i =
  rep (m ic s r) greedy (mn + List.length s + 1 + extra) mn mx i.
Proof.
  intros r mn mx greedy i extra. cbn [m].
  apply rep_fuel_enough; [|lia|lia].
  intros a b H. apply m_ends in H. tauto.
Qed.

Lemma search_found : forall r fuel i a e,
  search ic s r fuel i = Some (a, e) ->
  i <= a < i + fuel /\ In e (m ic s r a).
Proof.
  induction fuel as [|fuel IH]; intros i a e H; simpl in H.
  - discriminate.
  - destruct (m ic s r i) as [|e0 rest] eqn:E.
    + apply IH in H. destruct H as [H1 H2]. split; [lia|exact H2].
    + inversion H; subst. rewrite E. split; [lia|left; reflexivity].
Qed.

(** A match of a pattern that is not nullable ends beyond the lastIndex
    it was searched from, inside the subject. *)
Lemma search_from_moves : forall r i a e,
  nullable r = false ->
  search_from ic s r i = Some (a, e) ->
  i <= a /\ a < e /\ e <= List.length s.
Proof.
  intros r i a e Hn H. unfold search_from in H.
  apply search_found in H. destruct H as [Ha Hin].
  apply m_ends in Hin. destruct Hin as [Hw Hlt].
  specialize (Hlt Hn). unfold within in Hw. lia.
Qed.
End MatcherFacts.

(** The split loop never runs out of fuel either: twice the characters left,
    plus one while a piece is open, bounds the steps still to come. *)
Lemma split_re_fuel_enough : forall r s fuel1 fuel2 p q,
  p <= q ->
  2 * (List.length s - q) + (if p <? q then 1 else 0) <= fuel1 ->
  2 * (List.length s - q) + (if p <? q then 1 else 0) <= fuel2 ->
  split_re_loop r s fuel1 p q = split_re_loop r s fuel2 p q.
Proof.
  intros r s.
  assert (Hdone : forall fuel p q,
            List.length s <= q ->
            split_re_loop r s fuel p q = [substring s p (List.length s)]).
  { intros [|fuel] p q Hq; cbn [split_re_loop]; [reflexivity|].
    assert (E : (q <? List.length s) = false) by (apply Nat.ltb_ge; lia).
    rewrite E. reflexivity. }
  induction fuel1 as [|fuel1 IH]; intros fuel2 p q Hpq H1 H2.
  - rewrite !Hdone; [reflexivity|lia|lia].
  - destruct fuel2 as [|fuel2].
    + rewrite !Hdone; [reflexivity|lia|lia].
    + cbn [split_re_loop].
      destruct (q <? List.length s) eqn:Eq; [|reflexivity].
      apply Nat.ltb_lt in Eq.
      assert (Hnext : split_re_loop r s fuel1 p (S q) =
                      split_re_loop r s fuel2 p (S q)).
      { assert (Hflag : (p <? S q) = true) by (apply Nat.ltb_lt; lia).
        apply IH; [lia| |]; rewrite Hflag;
          destruct (p <? q); lia. }
      destruct (m false s r q) as [|e0 rest] eqn:Em; [exact Hnext|].
      assert (He0 : within s q e0).
      { eapply m_ends. rewrite Em. left. reflexivity. }
      unfold within in He0.
      assert (Hmin : Nat.min e0 (List.length s) = e0) by lia.
      rewrite Hmin.
      destruct (e0 =? p) eqn:Ep; [exact Hnext|].
      apply Nat.eqb_neq in Ep. f_equal.
      assert (Hflag : (e0 <? e0) = false) by apply Nat.ltb_irrefl.
      apply IH; [lia| |]; rewrite Hflag.
      * destruct (p <? q) eqn:Epq;
          [lia|apply Nat.ltb_ge in Epq; lia].
      * destruct (p <? q) eqn:Epq;
          [lia|apply Nat.ltb_ge in Epq; lia].
Qed.

(* ===================================================================== *)
(** ** Properties of the scanners *)
(* ===================================================================== *)

Lemma exec_reset : forall p text, reset (snd (exec p text)) = reset p.
Proof.
  intros p text. unfold exec.
  destruct (search_from (ignoreCase p) text (source p) (lastIndex p))
    as [[i e]|]; reflexivity.
Qed.

Lemma exec_keeps_source : forall p text,
  source (snd (exec p text)) = source p /\
  ignoreCase (snd (exec p text)) = ignoreCase p.
Proof.
  intros p text. unfold exec.
  destruct (search_from (ignoreCase p) text (source p) (lastIndex p))
    as [[i e]|]; split; reflexivity.
Qed.

Lemma test_reset : forall p text, reset (snd (test p text)) = reset p.
Proof.
  intros p text. unfold test.
  pose proof (exec_reset p text) as H.
  destruct (exec p text) as [[r|] p']; exact H.
Qed.

(** The exec loop of detectPII ends on a pattern that is not nullable: the
    lastIndex grows with every match and stays inside the text. *)
Lemma exec_loop_ends : forall text ty fuel p acc,
  nullable (source p) = false ->
  lastIndex p <= List.length text < lastIndex p + fuel ->
  exists new p',
    exec_loop fuel ty p text acc = Some (acc ++ new, p') /\
    reset p' = reset p /\
    Forall (fun f => type f = ty /\ no_value f = false) new.
Proof.
  intros text ty. induction fuel as [|fuel IH]; intros p acc Hn Hfuel.
  - (* no round left: the lastIndex would be beyond the text *)
    exfalso.
    lia.
  - simpl. unfold exec.
    destruct (search_from (ignoreCase p) text (source p) (lastIndex p))
      as [[i e]|] eqn:E.
    + apply search_from_moves in E; [|exact Hn].
      destruct (IH (set_lastIndex p e)
                   (acc ++ [mkFinding ty i
                              (i + List.length (substring text i e))
                              (Some (substring text i e)) None None]))
        as [new [p' [Hrun [Hreset Htypes]]]].
      * exact Hn.
      * simpl. lia.
      * rewrite Hrun, <- app_assoc. eexists _, p'.
        split; [reflexivity|]. split; [exact Hreset|].
        constructor; [split; reflexivity|exact Htypes].
    + exists [], (set_lastIndex p 0). rewrite app_nil_r.
      split; [reflexivity|]. split; [reflexivity|constructor].
Qed.

Lemma exec_loop_keeps : forall text ty fuel p acc fs p',
  exec_loop fuel ty p text acc = Some (fs, p') -> reset p' = reset p.
Proof.
  intros text ty. induction fuel as [|fuel IH]; intros p acc fs p' H.
  - discriminate.
  - cbn [exec_loop] in H. pose proof (exec_reset p text) as Hr.
    destruct (exec p text) as [[[i e]|] q]; simpl in Hr.
    + apply IH in H. congruence.
    + inversion H; subst. exact Hr.
Qed.

Lemma detectPII_loop_keeps : forall text entries acc fs entries',
  detectPII_loop entries text acc = Some (fs, entries') ->
  map reset_entry entries' = map reset_entry entries.
Proof.
  intros text. induction entries as [|[ty p] rest IH];
    intros acc fs entries' H; cbn [detectPII_loop] in H.
  - inversion H. reflexivity.
  - destruct (exec_loop (S (List.length text)) ty (set_lastIndex p 0) text acc)
      as [[fs1 p']|] eqn:El; [|discriminate].
    destruct (detectPII_loop rest text fs1) as [[fs2 rest']|] eqn:Er;
      [|discriminate].
    inversion H; subst. apply exec_loop_keeps in El. apply IH in Er.
    cbn [map]. rewrite Er. unfold reset_entry at 1 3. cbn [fst snd].
    rewrite El. reflexivity.
Qed.

Lemma detectPII_loop_ends : forall text entries acc,
  Forall (fun e => nullable (source (snd e)) = false) entries ->
  exists new entries',
    detectPII_loop entries text acc = Some (acc ++ new, entries') /\
    Forall (fun f => In (type f) (map fst entries) /\ no_value f = false)
           new.
Proof.
  intros text. induction entries as [|[ty p] rest IH]; intros acc Hn.
  - exists [], []. rewrite app_nil_r. split; constructor.
  - inversion Hn as [|? ? Hp Hrest]; subst. cbn [snd] in Hp.
    destruct (exec_loop_ends text ty (S (List.length text))
                (set_lastIndex p 0) acc Hp)
      as [new1 [p' [Hrun [Hreset Htypes]]]]; [simpl; lia|].
    destruct (IH (acc ++ new1) Hrest) as [new2 [rest' [Hloop Hty2]]].
    exists (new1 ++ new2), ((ty, p') :: rest').
    cbn [detectPII_loop]. rewrite Hrun, Hloop, app_assoc.
    split; [reflexivity|].
    apply Forall_app. split.
    + eapply Forall_impl; [|exact Htypes].
      intros f [Hf Hv]. split; [left; symmetry; exact Hf|exact Hv].
    + eapply Forall_impl; [|exact Hty2].
      intros f [Hf Hv]. split; [right; exact Hf|exact Hv].
Qed.

(** detectPII resets every lastIndex before it reads it: it cannot tell
    the objects from their reset copies. *)
Lemma detectPII_loop_reset : forall text entries acc,
  detectPII_loop (map reset_entry entries) text acc =
  detectPII_loop entries text acc.
Proof.
  intros text. induction entries as [|[ty p] rest IH]; intros acc.
  - reflexivity.
  - cbn [map detectPII_loop reset_entry fst snd].
    change (set_lastIndex (reset p) 0) with (set_lastIndex p 0).
    destruct (exec_loop (S (List.length text)) ty (set_lastIndex p 0) text acc)
      as [[fs p']|]; [|reflexivity].
    rewrite IH. reflexivity.
Qed.

(** The result of an injection scanner does not depend on the lastIndex
    values it finds, and it changes nothing but lastIndex values. *)
Lemma scan_family_reset : forall ty text ps acc,
  fst (scan_family ty text (map reset ps) acc) =
  fst (scan_family ty text ps acc) /\
  map reset (snd (scan_family ty text ps acc)) = map reset ps.
Proof.
  intros ty text. induction ps as [|p rest IH]; intros acc.
  - split; reflexivity.
  - cbn [map scan_family].
    change (set_lastIndex (reset p) 0) with (set_lastIndex p 0).
    pose proof (test_reset (set_lastIndex p 0) text) as Ht.
    destruct (test (set_lastIndex p 0) text) as [[|] p'] eqn:E;
      cbn [snd] in Ht.
    + cbn [fst snd map]. split; [reflexivity|]. f_equal. exact Ht.
    + destruct (IH acc) as [IH1 IH2].
      destruct (scan_family ty text (map reset rest) acc) as [fs1 r1].
      destruct (scan_family ty text rest acc) as [fs2 r2].
      cbn [fst snd map] in *. split; [exact IH1|].
      f_equal; [exact Ht|exact IH2].
Qed.

Lemma scan_family_one : forall ty text ps acc,
  fst (scan_family ty text ps acc) = acc \/
  fst (scan_family ty text ps acc) = acc ++ [whole_text_finding ty text].
Proof.
  intros ty text. induction ps as [|p rest IH]; intros acc.
  - left. reflexivity.
  - cbn [scan_family]. destruct (test (set_lastIndex p 0) text) as [[|] p'].
    + right. reflexivity.
    + specialize (IH acc). destruct (scan_family ty text rest acc).
      exact IH.
Qed.

Section AnalyzerFacts.
Variable toLowerCase : jsstring -> jsstring.

Lemma erase_erase : forall g, erase (erase g) = erase g.
Proof.
  intros [p s x j]. unfold erase. simpl.
  rewrite !map_map. f_equal; apply map_ext; intros []; reflexivity.
Qed.

(** analyzeText returns the same analysis from a state and from its reset
    copy. *)
Lemma analyzeText_erase : forall g text,
  option_map fst (analyzeText toLowerCase (erase g) text) =
  option_map fst (analyzeText toLowerCase g text).
Proof.
  intros [p s x j] text. unfold analyzeText, detectPII.
  cbn [erase pii sql xss jailbreak].
  rewrite detectPII_loop_reset.
  destruct (detectPII_loop p text []) as [[piiF p']|]; [|reflexivity].
  unfold detectSQLInjection, detectXSS, detectJailbreak.
  destruct (scan_family_reset (js "SQL_INJECTION") text s []) as [Hs _].
  destruct (scan_family_reset (js "XSS_ATTEMPT") text x []) as [Hx _].
  destruct (scan_family_reset (js "JAILBREAK_PATTERN") text j []) as [Hj _].
  destruct (scan_family (js "SQL_INJECTION") text (map reset s) [])
    as [sf1 s1].
  destruct (scan_family (js "SQL_INJECTION") text s []) as [sf2 s2].
  destruct (scan_family (js "XSS_ATTEMPT") text (map reset x) [])
    as [xf1 x1].
  destruct (scan_family (js "XSS_ATTEMPT") text x []) as [xf2 x2].
  destruct (scan_family (js "JAILBREAK_PATTERN") text (map reset j) [])
    as [jf1 j1].
  destruct (scan_family (js "JAILBREAK_PATTERN") text j []) as [jf2 j2].
  cbn [fst] in Hs, Hx, Hj. subst sf1 xf1 jf1. reflexivity.
Qed.

(** analyzeText changes nothing but lastIndex values. *)
Lemma analyzeText_keeps : forall g text a g',
  analyzeText toLowerCase g text = Some (a, g') -> erase g' = erase g.
Proof.
  intros [p s x j] text a g'. unfold analyzeText, detectPII.
  cbn [pii sql xss jailbreak].
  destruct (detectPII_loop p text []) as [[piiF p']|] eqn:Ep;
    [|discriminate].
  apply detectPII_loop_keeps in Ep.
  unfold detectSQLInjection, detectXSS, detectJailbreak.
  destruct (scan_family_reset (js "SQL_INJECTION") text s []) as [_ Hs].
  destruct (scan_family_reset (js "XSS_ATTEMPT") text x []) as [_ Hx].
  destruct (scan_family_reset (js "JAILBREAK_PATTERN") text j []) as [_ Hj].
  destruct (scan_family (js "SQL_INJECTION") text s []) as [sf2 s2].
  destruct (scan_family (js "XSS_ATTEMPT") text x []) as [xf2 x2].
  destruct (scan_family (js "JAILBREAK_PATTERN") text j []) as [jf2 j2].
  cbn [snd] in Hs, Hx, Hj.
  intros H. inversion H; subst. unfold erase.
  cbn [pii sql xss jailbreak]. congruence.
Qed.

Lemma analyzeText_same : forall g1 g2 text,
  erase g1 = erase g2 ->
  option_map fst (analyzeText toLowerCase g1 text) =
  option_map fst (analyzeText toLowerCase g2 text).
Proof.
  intros g1 g2 text H.
  rewrite <- (analyzeText_erase g1), <- (analyzeText_erase g2), H.
  reflexivity.
Qed.

Lemma pii_patterns_consume :
  Forall (fun e => nullable (source (snd e)) = false) PII_PATTERNS.
Proof.
  apply Forall_forall. intros e He.
  assert (H : forallb (fun e : jsstring * RegExp =>
                         negb (nullable (source (snd e))))
                      PII_PATTERNS = true) by reflexivity.
  rewrite forallb_forall in H. apply H in He.
  apply negb_true_iff in He. exact He.
Qed.

Lemma program_state_pii : forall g,
  program_state g -> map reset_entry (pii g) = PII_PATTERNS.
Proof.
  intros g H. unfold program_state, erase, loaded in H.
  inversion H. reflexivity.
Qed.

(** What analyzeText returns in a state of the program: the findings of
    the scanners in scan order, the score and the level computed from
    them, and a state of the program again. *)
Lemma analyzeText_returns : forall g text,
  program_state g ->
  exists piiF sqlF xssF jbF a g',
    analyzeText toLowerCase g text = Some (a, g') /\
    program_state g' /\
    Forall (fun f => In (type f) (map fst PII_PATTERNS) /\
                     no_value f = false) piiF /\
    (sqlF = [] \/ sqlF = [whole_text_finding (js "SQL_INJECTION") text]) /\
    (xssF = [] \/ xssF = [whole_text_finding (js "XSS_ATTEMPT") text]) /\
    (jbF = [] \/ jbF = [whole_text_finding (js "JAILBREAK_PATTERN") text]) /\
    findings a =
      (piiF ++ sqlF ++ xssF ++ jbF) ++
      (if isBulk (detectBulkData toLowerCase text)
       then [mkFinding (js "BULK_DATA") 0 (List.length text) None
               (Some (rowCount (detectBulkData toLowerCase text))) None]
       else []) /\
    anomalyScore a = calculateAnomalyScore (findings a) text /\
    riskLevel a =
      (if (0 <? List.length sqlF) || (0 <? List.length xssF) ||
          (0 <? List.length jbF) ||
          existsb (fun f => includes (type f) (js "API_KEY") ||
                            includes (type f) (js "SECRET")) (findings a) ||
          (70 <=? anomalyScore a)
       then HIGH
       else if (0 <? List.length (findings a)) ||
               isBulk (detectBulkData toLowerCase text) ||
               (40 <=? anomalyScore a)
       then MEDIUM else LOW).
Proof.
  intros g text Hg.
  destruct (detectPII_loop_ends text [] pii_patterns_consume)
    as [piiF [p' [Hpii Htypes]]].
  rewrite <- (program_state_pii Hg), detectPII_loop_reset in Hpii.
  cbn [app] in Hpii.
  destruct (analyzeText toLowerCase g text) as [[a g']|] eqn:Ha.
  - pose proof (analyzeText_keeps _ _ Ha) as Hkeep.
    revert Ha. unfold analyzeText, detectPII. rewrite Hpii.
    unfold detectSQLInjection, detectXSS, detectJailbreak.
    pose proof (scan_family_one (js "SQL_INJECTION") text (sql g) [])
      as Hs.
    pose proof (scan_family_one (js "XSS_ATTEMPT") text (xss g) []) as Hx.
    pose proof (scan_family_one (js "JAILBREAK_PATTERN") text
                  (jailbreak g) []) as Hj.
    destruct (scan_family (js "SQL_INJECTION") text (sql g) [])
      as [sqlF s'].
    destruct (scan_family (js "XSS_ATTEMPT") text (xss g) []) as [xssF x'].
    destruct (scan_family (js "JAILBREAK_PATTERN") text (jailbreak g) [])
      as [jbF j'].
    cbn [fst app] in Hs, Hx, Hj.
    intros Ha. exists piiF, sqlF, xssF, jbF, a, g'.
    split; [reflexivity|].
    split; [unfold program_state in *; congruence|].
    split; [exact Htypes|].
    split; [exact Hs|]. split; [exact Hx|]. split; [exact Hj|].
    inversion Ha; subst a g'. cbn [findings anomalyScore riskLevel].
    destruct (isBulk (detectBulkData toLowerCase text)).
    + repeat split.
    + rewrite app_nil_r. repeat split.
  - exfalso. revert Ha. unfold analyzeText, detectPII. rewrite Hpii.
    destruct (detectSQLInjection text (sql g)).
    destruct (detectXSS text (xss g)).
    destruct (detectJailbreak text (jailbreak g)). discriminate.
Qed.

(** analyzeText returns in every state of the program. *)
Lemma analyzeText_total : forall g text,
  program_state g ->
  exists a g', analyzeText toLowerCase g text = Some (a, g') /\
               program_state g'.
Proof.
  intros g text Hg.
  destruct (analyzeText_returns text Hg)
    as [_ [_ [_ [_ [a [g' [H [Hg' _]]]]]]]].
  exists a, g'. split; assumption.
Qed.

Lemma session_total : forall texts g,
  program_state g ->
  exists results g', session toLowerCase g texts = Some (results, g') /\
                     program_state g'.
Proof.
  induction texts as [|text rest IH]; intros g Hg.
  - exists [], g. split; [reflexivity|exact Hg].
  - destruct (analyzeText_total text Hg) as [a [g1 [Ha Hg1]]].
    destruct (IH g1 Hg1) as [results [g2 [Hs Hg2]]].
    exists (a :: results), g2. cbn [session]. rewrite Ha, Hs.
    split; [reflexivity|exact Hg2].
Qed.

Lemma session_app : forall before g text results g1 a g2,
  session toLowerCase g before = Some (results, g1) ->
  analyzeText toLowerCase g1 text = Some (a, g2) ->
  session toLowerCase g (before ++ [text]) = Some (results ++ [a], g2).
Proof.
  induction before as [|t rest IH]; intros g text results g1 a g2 Hs Ha;
    cbn [session app] in *.
  - inversion Hs; subst. rewrite Ha. reflexivity.
  - destruct (analyzeText toLowerCase g t) as [[a0 g0]|]; [|discriminate].
    destruct (session toLowerCase g0 rest) as [[rs g3]|] eqn:Er;
      [|discriminate].
    inversion Hs; subst. rewrite (IH _ _ _ _ _ _ Er Ha). reflexivity.
Qed.
End AnalyzerFacts.

(* ===================================================================== *)
(** ** Detector: determinism, first match wins, scoring *)
(* ===================================================================== *)

(** The objects are really left dirty: after a text with a DROP TABLE, the
    second SQL pattern keeps the lastIndex of its match. *)
Example lastIndex_left_behind :
  option_map (fun r => map lastIndex (sql (snd r)))
    (analyzeText ascii_lower loaded (js "DROP TABLE users")) =
  Some [0; 10; 0; 0; 0; 0; 0; 0; 0; 0].
Proof. vm_compute. reflexivity. Qed.

(** C7. analyzeText is deterministic: take any two histories of earlier
    calls on other inputs, [before1] and [before2], run from the freshly
    loaded module; the call on [text] that follows returns in both and
    returns the same analysis (findings, riskLevel and anomalyScore), even
    though the calls share the RegExp objects and their lastIndex. *)
Theorem analyzeText_deterministic :
  forall (toLowerCase : jsstring -> jsstring)
         (before1 before2 : list jsstring) (text : jsstring),
  exists a results1 g1 results2 g2,
    session toLowerCase loaded (before1 ++ [text]) =
      Some (results1 ++ [a], g1) /\
    session toLowerCase loaded (before2 ++ [text]) =
      Some (results2 ++ [a], g2).
Proof.
  intros toLowerCase before1 before2 text.
  assert (H0 : program_state loaded) by reflexivity.
  destruct (session_total toLowerCase before1 H0) as [r1 [h1 [Hs1 Hh1]]].
  destruct (session_total toLowerCase before2 H0) as [r2 [h2 [Hs2 Hh2]]].
  destruct (analyzeText_total toLowerCase text Hh1) as [a1 [g1 [Ha1 _]]].
  destruct (analyzeText_total toLowerCase text Hh2) as [a2 [g2 [Ha2 _]]].
  assert (Hsame : a1 = a2).
  { assert (He : erase h1 = erase h2)
      by (unfold program_state in *; congruence).
    pose proof (@analyzeText_same toLowerCase h1 h2 text He) as H.
    rewrite Ha1, Ha2 in H. simpl in H. congruence. }
  subst a2. exists a1, r1, g1, r2, g2. split.
  - eapply session_app; eassumption.
  - eapply session_app; eassumption.
Qed.

Lemma scan_family_first_match : forall ty, first_match_wins
  (fun text patterns => scan_family ty text patterns []) ty.
Proof.
  intros ty text patterns. split.
  - destruct (scan_family_one ty text patterns []) as [H|H];
      rewrite H; simpl; lia.
  - induction patterns as [|p rest IH].
    + left. split; reflexivity.
    + cbn [scan_family forallb]. unfold matches at 1 3.
      destruct (test (set_lastIndex p 0) text) as [[|] p'] eqn:E;
        cbn [fst negb andb].
      * right. exists [], p, rest. cbn [app forallb List.length skipn snd fst].
        unfold matches. rewrite E.
        repeat split; reflexivity.
      * destruct IH as [[Hnone Hfs]|[before [q [after [Hsplit [Hb [Hq [Hfs Hafter]]]]]]]].
        -- left. split; [exact Hnone|].
           destruct (scan_family ty text rest []). exact Hfs.
        -- right. exists (p :: before), q, after.
           destruct (scan_family ty text rest []) as [fs rest'].
           cbn [fst snd] in *. cbn [forallb List.length skipn app].
           unfold matches at 1. rewrite E. cbn [fst negb andb].
           repeat split; try assumption. rewrite Hsplit. reflexivity.
Qed.

(** C6. Each of the three injection scanners reports at most one finding;
    it comes from the first pattern of the family's list that matches
    (the patterns behind it are not even tested), and it spans the whole
    text: offsets 0 and text.length. *)
Theorem injection_scanners_first_match_wins :
  first_match_wins detectSQLInjection (js "SQL_INJECTION") /\
  first_match_wins detectXSS (js "XSS_ATTEMPT") /\
  first_match_wins detectJailbreak (js "JAILBREAK_PATTERN").
Proof.
  repeat split; apply scan_family_first_match.
Qed.

Lemma str_eqb_eq : forall a b, str_eqb a b = true <-> a = b.
Proof.
  induction a as [|x a IH]; intros [|y b]; simpl; split; intros H;
    try reflexivity; try discriminate.
  - apply andb_true_iff in H. destruct H as [Hx Ha].
    apply N.eqb_eq in Hx. apply IH in Ha. congruence.
  - inversion H; subst. rewrite N.eqb_refl. apply IH. reflexivity.
Qed.

Lemma arr_includes_In : forall l x, arr_includes l x = true <-> In x l.
Proof.
  intros l x. unfold arr_includes. rewrite existsb_exists. split.
  - intros [y [Hy He]]. apply str_eqb_eq in He. subst. exact Hy.
  - intros H. exists x. split; [exact H|]. apply str_eqb_eq. reflexivity.
Qed.

(** [new Set(...)] keeps one copy of every element. *)
Lemma set_of_distinct : forall xs seen,
  NoDup seen ->
  NoDup (set_of xs seen) /\
  (forall x, In x (set_of xs seen) <-> In x seen \/ In x xs).
Proof.
  induction xs as [|x xs IH]; intros seen Hnd; simpl.
  - split; [exact Hnd|]. intros y. tauto.
  - destruct (arr_includes seen x) eqn:E.
    + destruct (IH seen Hnd) as [H1 H2]. split; [exact H1|].
      apply arr_includes_In in E. intros y. rewrite H2.
      split; [tauto|]. intros [H|[H|H]]; subst; tauto.
    + assert (Hx : ~ In x seen).
      { intros H. apply arr_includes_In in H. congruence. }
      assert (Hnd' : NoDup (seen ++ [x])).
      { apply NoDup_app; [exact Hnd|repeat constructor; intros []|].
        intros y Hy [<-|[]]. contradiction. }
      destruct (IH _ Hnd') as [H1 H2]. split; [exact H1|].
      intros y. rewrite H2, in_app_iff. simpl. tauto.
Qed.

Lemma set_of_size : forall xs,
  List.length (set_of xs []) = List.length (nodup str_eq_dec xs).
Proof.
  intros xs. destruct (set_of_distinct xs (seen := [])) as [Hnd Hin].
  { constructor. }
  apply Permutation_length.
  apply NoDup_Permutation; [exact Hnd|apply NoDup_nodup|].
  intros x. rewrite Hin, nodup_In. simpl. tauto.
Qed.

Lemma filter_count : forall (A : Type) (f : A -> bool) l,
  List.length (filter f l) = count_occ bool_dec (map f l) true.
Proof.
  intros A f. induction l as [|x l IH]; simpl; [reflexivity|].
  destruct (f x); simpl.
  - destruct (bool_dec true true); [|congruence]. rewrite IH. reflexivity.
  - destruct (bool_dec false true); [discriminate|]. exact IH.
Qed.

(** The score analyzeText computes is the score of the specification. *)
Lemma calculateAnomalyScore_spec : forall fs text,
  calculateAnomalyScore fs text =
  Spec.anomalyScore (List.length fs) (Spec.highRiskFindingCount fs)
                    (Spec.distinctCategories fs) (List.length text).
Proof.
  intros fs text. unfold calculateAnomalyScore, Spec.anomalyScore,
    Spec.highRiskFindingCount, Spec.distinctCategories.
  rewrite set_of_size, filter_count. cbv zeta.
  destruct (3 <? _); destruct ((1000 <? _) && (5 <? _)); lia.
Qed.

(** On the categories the Detector reports, "the name contains API_KEY or
    SECRET" picks the four key and secret categories, and none of the PII
    categories is an injection category. *)
Lemma known_types_keys : forall t,
  In t knownTypes ->
  includes t (js "API_KEY") || includes t (js "SECRET") =
  arr_includes Spec.keyTypes t.
Proof.
  assert (H : forallb (fun t => Bool.eqb
                (includes t (js "API_KEY") || includes t (js "SECRET"))
                (arr_includes Spec.keyTypes t)) knownTypes = true)
    by (vm_compute; reflexivity).
  intros t Ht. rewrite forallb_forall in H. apply H in Ht.
  apply Bool.eqb_prop in Ht. exact Ht.
Qed.

Lemma pii_types_not_injection : forall t,
  In t (map fst PII_PATTERNS) ->
  arr_includes Spec.injectionTypes t = false.
Proof.
  assert (H : forallb (fun t => negb (arr_includes Spec.injectionTypes t))
                      (map fst PII_PATTERNS) = true)
    by (vm_compute; reflexivity).
  intros t Ht. rewrite forallb_forall in H. apply H in Ht.
  apply negb_true_iff in Ht. exact Ht.
Qed.

Lemma existsb_agree : forall (A : Type) (f g : A -> bool) l,
  Forall (fun x => f x = g x) l -> existsb f l = existsb g l.
Proof.
  intros A f g l H. induction H as [|x l Hx _ IH]; simpl;
    [reflexivity|]. rewrite Hx, IH. reflexivity.
Qed.

(** C5. In every state of the program analyzeText returns an analysis whose
    anomalyScore is min(100, 5*min(findingCount,6) + 25*highRiskFindingCount
    + 15 when there are more than 3 distinct categories + 10 when the text
    is longer than 1000 and there are more than 5 findings), and whose
    riskLevel is HIGH iff a SQL/XSS/jailbreak finding or a key/secret
    finding is present or the score is at least 70, MEDIUM iff it is not
    HIGH and the findings are non-empty or bulk was detected or the score
    is at least 40, and LOW otherwise. *)
Theorem analyzeText_scoring :
  forall (toLowerCase : jsstring -> jsstring) (g : Patterns) (text : jsstring),
    program_state g ->
    exists a g',
      analyzeText toLowerCase g text = Some (a, g') /\
      anomalyScore a =
        Spec.anomalyScore (List.length (findings a))
          (Spec.highRiskFindingCount (findings a))
          (Spec.distinctCategories (findings a)) (List.length text) /\
      riskLevel a =
        Spec.riskLevel
          (Spec.has_type_in Spec.injectionTypes (findings a))
          (Spec.has_type_in Spec.keyTypes (findings a))
          (negb (is_empty (findings a)))
          (isBulk (detectBulkData toLowerCase text))
          (anomalyScore a).
Proof.
  intros toLowerCase g text Hg.
  destruct (analyzeText_returns toLowerCase text Hg)
    as [piiF [sqlF [xssF [jbF [a [g' [Ha [_ [Hpii [Hs [Hx [Hj
        [Hfs [Hscore Hrisk]]]]]]]]]]]]]].
  exists a, g'. split; [exact Ha|]. split.
  - rewrite Hscore. apply calculateAnomalyScore_spec.
  - rewrite Hrisk. unfold Spec.riskLevel.
    assert (Hknown : Forall (fun f => In (type f) knownTypes) (findings a)).
    { assert (Hin : forall t,
        In t [js "SQL_INJECTION"; js "XSS_ATTEMPT"; js "JAILBREAK_PATTERN";
              js "BULK_DATA"] -> In t knownTypes).
      { intros t Ht. apply in_or_app. right. exact Ht. }
      rewrite Hfs.
      apply Forall_app; split; [apply Forall_app; split|].
      - eapply Forall_impl; [|exact Hpii]. intros f [Hf _].
        apply in_or_app. left. exact Hf.
      - apply Forall_app; split; [|apply Forall_app; split].
        + destruct Hs as [->| ->]; [apply Forall_nil|].
          apply Forall_cons; [|apply Forall_nil].
          apply Hin. simpl. tauto.
        + destruct Hx as [->| ->]; [apply Forall_nil|].
          apply Forall_cons; [|apply Forall_nil].
          apply Hin. simpl. tauto.
        + destruct Hj as [->| ->]; [apply Forall_nil|].
          apply Forall_cons; [|apply Forall_nil].
          apply Hin. simpl. tauto.
      - destruct (isBulk _); [|apply Forall_nil].
        apply Forall_cons; [|apply Forall_nil].
        apply Hin. simpl. tauto. }
    assert (Hkey :
      existsb (fun f => includes (type f) (js "API_KEY") ||
                        includes (type f) (js "SECRET")) (findings a) =
      Spec.has_type_in Spec.keyTypes (findings a)).
    { apply existsb_agree. eapply Forall_impl; [|exact Hknown].
      intros f Hf. apply known_types_keys. exact Hf. }
    assert (Hinj :
      (0 <? List.length sqlF) || (0 <? List.length xssF) ||
      (0 <? List.length jbF) =
      Spec.has_type_in Spec.injectionTypes (findings a)).
    { rewrite Hfs. unfold Spec.has_type_in. rewrite !existsb_app.
      assert (Hp : existsb (fun f => arr_includes Spec.injectionTypes (type f))
                           piiF = false).
      { clear -Hpii. induction Hpii as [|f l [Hf _] _ IH]; cbn [existsb];
          [reflexivity|].
        rewrite (pii_types_not_injection Hf), IH. reflexivity. }
      rewrite Hp.
      destruct Hs as [->| ->]; destruct Hx as [->| ->];
        destruct Hj as [->| ->];
        destruct (isBulk _); reflexivity. }
    assert (Hne : (0 <? List.length (findings a)) =
                  negb (is_empty (findings a))).
    { destruct (findings a); reflexivity. }
    rewrite Hkey, Hinj, Hne. reflexivity.
Qed.

(** The theorem applied to a text with an SSN, in a state left dirty by an
    earlier call. *)
Lemma analyzeText_scoring_witness :
  program_state
    (mkPatterns PII_PATTERNS (map (fun p => set_lastIndex p 7)
                                  SQL_INJECTION_PATTERNS)
                XSS_PATTERNS JAILBREAK_PATTERNS) /\
  exists a g',
    analyzeText ascii_lower
      (mkPatterns PII_PATTERNS (map (fun p => set_lastIndex p 7)
                                    SQL_INJECTION_PATTERNS)
                  XSS_PATTERNS JAILBREAK_PATTERNS) text_jane = Some (a, g') /\
    anomalyScore a =
      Spec.anomalyScore (List.length (findings a))
        (Spec.highRiskFindingCount (findings a))
        (Spec.distinctCategories (findings a)) (List.length text_jane) /\
    riskLevel a =
      Spec.riskLevel
        (Spec.has_type_in Spec.injectionTypes (findings a))
        (Spec.has_type_in Spec.keyTypes (findings a))
        (negb (is_empty (findings a)))
        (isBulk (detectBulkData ascii_lower text_jane))
        (anomalyScore a).
Proof.
  split.
  - reflexivity.
  - apply (@analyzeText_scoring ascii_lower
             (mkPatterns PII_PATTERNS (map (fun p => set_lastIndex p 7)
                                           SQL_INJECTION_PATTERNS)
                         XSS_PATTERNS JAILBREAK_PATTERNS) text_jane).
    reflexivity.
Defined.

(* ===================================================================== *)
(** ** The worked example: detect, decide, anonymize *)
(* ===================================================================== *)

Lemma analyzeText_lower_ext : forall (f h : jsstring -> jsstring) g text,
  f text = h text -> analyzeText f g text = analyzeText h g text.
Proof.
  intros f h g text H. unfold analyzeText, detectBulkData.
  rewrite H. reflexivity.
Qed.

Lemma jane_analysis :
  option_map fst (analyzeText ascii_lower loaded text_jane) =
  Some (mkAnalysis MEDIUM [finding_jane_email; finding_jane_ssn] 35).
Proof. vm_compute. reflexivity. Qed.

(** The anonymizer of the HTTP layer, a sibling of the module's, turns the
    same text into "My email is [EMAIL] and SSN [SSN]", nothing after the
    last placeholder. *)
Lemma api_anonymizeText_jane :
  Api.sanitizedText
    (Api.anonymizeText text_jane [finding_jane_email; finding_jane_ssn]) =
  js "My email is [EMAIL] and SSN [SSN]".
Proof. vm_compute. reflexivity. Qed.

(** C2.  For "My email is jane@firm.com and SSN 123-45-6789" the Detector
    returns the findings EMAIL (12..25) and SSN (34..45) with riskLevel
    MEDIUM and the Policy Engine decides WARN_AND_SANITIZE for an employee,
    as expected; the Anonymizer however produces "My email is [EMAIL] and
    SSN [SSN] ", with a space after the last placeholder, which is not the
    expected "My email is [EMAIL] and SSN [SSN]". *)
Theorem jane_example :
  forall toLowerCase : jsstring -> jsstring,
    toLowerCase text_jane = ascii_lower text_jane ->
    exists a g',
      analyzeText toLowerCase loaded text_jane = Some (a, g') /\
      findings a = [finding_jane_email; finding_jane_ssn] /\
      riskLevel a = MEDIUM /\
      PolicyEngine.decision (PolicyEngine.makeDecision a employee) =
        PolicyEngine.WARN_AND_SANITIZE /\
      Anonymizer.sanitizedText
        (fst (Anonymizer.anonymizeText text_jane (findings a))) =
        js "My email is [EMAIL] and SSN [SSN] " /\
      Anonymizer.sanitizedText
        (fst (Anonymizer.anonymizeText text_jane (findings a))) <>
        js "My email is [EMAIL] and SSN [SSN]".
Proof.
  intros toLowerCase Hlower.
  rewrite (analyzeText_lower_ext toLowerCase ascii_lower loaded text_jane
             Hlower).
  pose proof jane_analysis as H.
  destruct (analyzeText ascii_lower loaded text_jane) as [[a g']|];
    [|discriminate].
  simpl in H. injection H as ->.
  exists (mkAnalysis MEDIUM [finding_jane_email; finding_jane_ssn] 35), g'.
  split; [reflexivity|]. split; [reflexivity|]. split; [reflexivity|].
  split; [vm_compute; reflexivity|].
  split; [vm_compute; reflexivity|].
  vm_compute. discriminate.
Qed.

Lemma jane_example_witness :
  ascii_lower text_jane = ascii_lower text_jane /\
  exists a g',
    analyzeText ascii_lower loaded text_jane = Some (a, g') /\
    findings a = [finding_jane_email; finding_jane_ssn] /\
    riskLevel a = MEDIUM /\
    PolicyEngine.decision (PolicyEngine.makeDecision a employee) =
      PolicyEngine.WARN_AND_SANITIZE /\
    Anonymizer.sanitizedText
      (fst (Anonymizer.anonymizeText text_jane (findings a))) =
      js "My email is [EMAIL] and SSN [SSN] " /\
    Anonymizer.sanitizedText
      (fst (Anonymizer.anonymizeText text_jane (findings a))) <>
      js "My email is [EMAIL] and SSN [SSN]".
Proof.
  split.
  - reflexivity.
  - apply (jane_example ascii_lower). reflexivity.
Defined.

(** C8.  anonymizeText sorts the caller's array in place: called with the
    findings of the example in detection order, EMAIL then SSN, it leaves
    the array holding SSN then EMAIL. *)
Theorem anonymizeText_reorders_findings :
  snd (Anonymizer.anonymizeText text_jane
         [finding_jane_email; finding_jane_ssn]) =
  [finding_jane_ssn; finding_jane_email] /\
  [finding_jane_ssn; finding_jane_email] <>
  [finding_jane_email; finding_jane_ssn].
Proof.
  split.
  - vm_compute. reflexivity.
  - discriminate.
Qed.

(** The reordering reaches the entity mapper: the telemetry service hands
    the same array first to anonymizeText and then to buildEntityMap, which
    therefore numbers the values from the end of the text backwards. *)
Lemma buildEntityMap_after_anonymizeText :
  option_map
    (fun fs =>
       (map (fun f => value f) fs,
        map (fun kv => (fst kv, Telemetry.originalValue (snd kv)))
            (Telemetry.buildEntityMap
               (snd (Anonymizer.anonymizeText (js "a@x.io b@y.io") fs)))))
    (detected ascii_lower loaded (js "a@x.io b@y.io")) =
  Some ([Some (js "a@x.io"); Some (js "b@y.io")],
        [(js "DATA_1", Some (js "b@y.io"));
         (js "DATA_2", Some (js "a@x.io"))]).
Proof. vm_compute. reflexivity. Qed.

(* ===================================================================== *)
(** ** Entity mapper *)
(* ===================================================================== *)

(** C1.  Two findings with the same value get two placeholders: the guard
    [!entityMap[value]] looks the value up among the placeholders, the keys
    of the map, where it is not found.  With an EMAIL category the value
    is recorded under EMAIL_1 and EMAIL_2; for the Detector's own findings,
    which carry no category, under DATA_1 and DATA_2. *)
Theorem buildEntityMap_repeats_value :
  Telemetry.placeholders_of
    (Telemetry.buildEntityMap
       [mkFinding (js "EMAIL") 0 7 (Some (js "a@b.com")) None
                  (Some (js "EMAIL"));
        mkFinding (js "EMAIL") 8 15 (Some (js "a@b.com")) None
                  (Some (js "EMAIL"))])
    (js "a@b.com") = [js "EMAIL_1"; js "EMAIL_2"] /\
  option_map
    (fun fs => Telemetry.placeholders_of (Telemetry.buildEntityMap fs)
                 (js "a@b.com"))
    (detected ascii_lower loaded (js "a@b.com a@b.com")) =
  Some [js "DATA_1"; js "DATA_2"].
Proof. split; vm_compute; reflexivity. Qed.

(* ===================================================================== *)
(** ** Policy engine *)
(* ===================================================================== *)

Lemma find_type_includes : forall (fs : list Finding) t f,
  find (fun f => str_eqb (type f) t) fs = Some f ->
  arr_includes (map type fs) t = true.
Proof.
  intros fs t f H. apply find_some in H. destruct H as [Hin Ht].
  apply arr_includes_In. apply str_eqb_eq in Ht. subst t.
  apply in_map. exact Hin.
Qed.

Lemma has_type_in_types : forall types (fs : list Finding),
  existsb (fun t => arr_includes types t) (map type fs) =
  Spec.has_type_in types fs.
Proof.
  intros types fs. unfold Spec.has_type_in.
  induction fs as [|f fs IH]; simpl; [reflexivity|].
  rewrite IH. reflexivity.
Qed.

Lemma has_type_in_false : forall types (fs : list Finding) t,
  In t types -> Spec.has_type_in types fs = false ->
  arr_includes (map type fs) t = false.
Proof.
  intros types fs t Ht H.
  destruct (arr_includes (map type fs) t) eqn:E; [|reflexivity].
  apply arr_includes_In in E. apply in_map_iff in E.
  destruct E as [f [Hf Hin]].
  unfold Spec.has_type_in in H.
  assert (Hex : existsb (fun f => arr_includes types (type f)) fs = true).
  { apply existsb_exists. exists f. split; [exact Hin|].
    apply arr_includes_In. rewrite Hf. exact Ht. }
  congruence.
Qed.

Lemma no_blocking_types : forall (fs : list Finding),
  Spec.has_type_in [js "EXFIL_ATTEMPT"; js "JAILBREAK_PATTERN"] fs = false ->
  forall t, In t [js "EXFIL_ATTEMPT"; js "JAILBREAK_PATTERN"] ->
            arr_includes (map type fs) t = false.
Proof.
  intros fs H t Ht. eapply has_type_in_false; eassumption.
Qed.

(** The rule the engine does implement: PII of its own seven categories,
    no bulk finding, nothing that blocks. *)
Lemma makeDecision_engine_pii : forall a ctx,
  Spec.has_type_in PolicyEngine.piiTypes (findings a) = true ->
  arr_includes (map type (findings a)) (js "BULK_DATA") = false ->
  Spec.has_type_in [js "EXFIL_ATTEMPT"; js "JAILBREAK_PATTERN"]
                   (findings a) = false ->
  riskLevel a <> HIGH ->
  PolicyEngine.makeDecision a ctx =
  PolicyEngine.pii_decision
    (match PolicyEngine.userRole ctx with
     | Some r => r
     | None => js "employee"
     end).
Proof.
  intros a ctx Hpii Hbulk Hblock Hrisk. unfold PolicyEngine.makeDecision.
  rewrite has_type_in_types, Hpii, Hbulk.
  rewrite (@no_blocking_types (findings a) Hblock (js "EXFIL_ATTEMPT")) by (simpl; tauto).
  rewrite (@no_blocking_types (findings a) Hblock (js "JAILBREAK_PATTERN"))
    by (simpl; tauto).
  destruct (riskLevel a); try reflexivity. congruence.
Qed.

(** What the engine does with a lone finding of one of the five Detector
    PII categories missing from its list, at riskLevel MEDIUM. *)
Lemma makeDecision_missing_categories : forall t f ctx score,
  In t (map js ["PASSPORT"; "DRIVERS_LICENSE"; "MEDICAL_ID"; "TAX_ID";
                "VAT_NUMBER"]%string) ->
  type f = t ->
  In t Spec.detectorPiiTypes /\
  PolicyEngine.makeDecision (mkAnalysis MEDIUM [f] score) ctx =
  PolicyEngine.mkDecision PolicyEngine.WARN_AND_ALLOW [js "MEDIUM_RISK"]
                          None PolicyEngine.msg_medium.
Proof.
  intros t [ty os oe v d c] ctx score Ht Hf. cbn [type] in Hf. subst ty.
  cbn [map In] in Ht.
  destruct Ht as [<-|[<-|[<-|[<-|[<-|[]]]]]];
    (split; [apply arr_includes_In; vm_compute; reflexivity|reflexivity]).
Qed.

(** C4.  A finding of a Detector PII category outside the engine's list is
    not treated as PII.  For "12-3456789" the Detector reports one TAX_ID
    finding, no bulk, riskLevel MEDIUM; for an employee the engine answers
    WARN_AND_ALLOW with reason MEDIUM_RISK, not WARN_AND_SANITIZE with
    PII_DETECTED.  TAX_ID is one of the Detector's PII categories and not
    one of the engine's. *)
Theorem makeDecision_tax_id_not_sanitized :
  In (js "TAX_ID") Spec.detectorPiiTypes /\
  ~ In (js "TAX_ID") PolicyEngine.piiTypes /\
  exists a g',
    analyzeText ascii_lower loaded (js "12-3456789") = Some (a, g') /\
    map type (findings a) = [js "TAX_ID"] /\
    riskLevel a = MEDIUM /\
    PolicyEngine.makeDecision a employee =
    PolicyEngine.mkDecision PolicyEngine.WARN_AND_ALLOW [js "MEDIUM_RISK"]
                            None PolicyEngine.msg_medium.
Proof.
  split; [|split].
  - apply arr_includes_In. vm_compute. reflexivity.
  - intros H. apply arr_includes_In in H. vm_compute in H. discriminate.
  - destruct (analyzeText ascii_lower loaded (js "12-3456789"))
      as [[a g']|] eqn:E; [|vm_compute in E; discriminate].
    exists a, g'. split; [reflexivity|].
    assert (Ha : a = fst (a, g')) by reflexivity.
    assert (Hv : option_map fst (analyzeText ascii_lower loaded
                                   (js "12-3456789")) = Some a)
      by (rewrite E; reflexivity).
    vm_compute in Hv. injection Hv as <-.
    repeat split; vm_compute; reflexivity.
Qed.

Lemma pii_types_not_bulk : forall t,
  In t (map fst PII_PATTERNS) -> str_eqb t (js "BULK_DATA") = false.
Proof.
  assert (H : forallb (fun t => negb (str_eqb t (js "BULK_DATA")))
                      (map fst PII_PATTERNS) = true)
    by (vm_compute; reflexivity).
  intros t Ht. rewrite forallb_forall in H. apply H in Ht.
  apply negb_true_iff in Ht. exact Ht.
Qed.

(** An analysis of the Detector holds at most one BULK_DATA finding, so
    "the" BULK_DATA finding of an analysis is the one [find] returns. *)
Lemma detected_one_bulk : forall toLowerCase g text fs,
  program_state g ->
  detected toLowerCase g text = Some fs ->
  List.length (filter (fun f => str_eqb (type f) (js "BULK_DATA")) fs) <= 1.
Proof.
  intros toLowerCase g text fs Hg Hdet.
  destruct (analyzeText_returns toLowerCase text Hg)
    as [piiF [sqlF [xssF [jbF [a [g' [Ha [_ [Hpii [Hs [Hx [Hj
        [Hfs _]]]]]]]]]]]]].
  unfold detected in Hdet. rewrite Ha in Hdet. simpl in Hdet.
  injection Hdet as <-. rewrite Hfs, !filter_app, !length_app.
  assert (Hp : filter (fun f => str_eqb (type f) (js "BULK_DATA")) piiF = []).
  { clear -Hpii. induction Hpii as [|f l [Hf _] _ IH]; cbn [filter];
      [reflexivity|]. rewrite (pii_types_not_bulk Hf). exact IH. }
  rewrite Hp.
  destruct Hs as [->| ->]; destruct Hx as [->| ->]; destruct Hj as [->| ->];
    destruct (isBulk _); cbn; lia.
Qed.

Lemma find_the_bulk : forall (fs : list Finding) bulk,
  In bulk fs ->
  type bulk = js "BULK_DATA" ->
  List.length (filter (fun f => str_eqb (type f) (js "BULK_DATA")) fs) <= 1 ->
  find (fun f => str_eqb (type f) (js "BULK_DATA")) fs = Some bulk.
Proof.
  induction fs as [|f fs IH]; intros bulk Hin Hty Hone; [contradiction|].
  cbn [find filter] in *.
  destruct (str_eqb (type f) (js "BULK_DATA")) eqn:E.
  - destruct Hin as [->|Hin]; [reflexivity|].
    exfalso. cbn [List.length] in Hone.
    assert (Hb : In bulk (filter (fun f => str_eqb (type f) (js "BULK_DATA"))
                                 fs)).
    { apply filter_In. split; [exact Hin|].
      apply str_eqb_eq. exact Hty. }
    destruct (filter (fun f => str_eqb (type f) (js "BULK_DATA")) fs);
      [contradiction|]. cbn [List.length] in Hone. lia.
  - destruct Hin as [->|Hin].
    + apply str_eqb_eq in Hty. congruence.
    + apply IH; assumption.
Qed.

(** C10.  When the BULK_DATA finding of the analysis (the one the engine
    consults with [find]; an analysis of the Detector holds at most one,
    and then every BULK_DATA finding it includes is that one) has a
    rowCount of at most 10, no finding has one of the engine's PII
    categories, there is no exfiltration or jailbreak finding and the
    riskLevel is not HIGH, makeDecision returns ALLOW with no reason code
    and an empty message. *)
Theorem makeDecision_small_bulk_allows :
  forall (a : Analysis) (ctx : PolicyEngine.Context) (bulk : Finding)
         (n : nat),
    find (fun f => str_eqb (type f) (js "BULK_DATA")) (findings a)
      = Some bulk ->
    details bulk = Some n ->
    n <= 10 ->
    Spec.has_type_in PolicyEngine.piiTypes (findings a) = false ->
    Spec.has_type_in [js "EXFIL_ATTEMPT"; js "JAILBREAK_PATTERN"]
                     (findings a) = false ->
    riskLevel a <> HIGH ->
    PolicyEngine.makeDecision a ctx =
    PolicyEngine.mkDecision PolicyEngine.ALLOW [] None [].
Proof.
  intros a ctx bulk n Hfind Hdetails Hn Hpii Hblock Hrisk.
  unfold PolicyEngine.makeDecision.
  rewrite has_type_in_types, Hpii, (@find_type_includes _ _ _ Hfind), Hfind,
    Hdetails.
  rewrite (@no_blocking_types (findings a) Hblock (js "EXFIL_ATTEMPT")) by (simpl; tauto).
  rewrite (@no_blocking_types (findings a) Hblock (js "JAILBREAK_PATTERN"))
    by (simpl; tauto).
  assert (Hsmall : (10 <? n) = false) by (apply Nat.ltb_ge; exact Hn).
  rewrite Hsmall.
  destruct (riskLevel a); try reflexivity. congruence.
Qed.

(** The analysis of "list of things": one BULK_DATA finding counting one
    row, riskLevel MEDIUM, and the engine allows it without a warning. *)
Lemma makeDecision_small_bulk_allows_witness :
  detected ascii_lower loaded (js "list of things") =
    Some [mkFinding (js "BULK_DATA") 0 14 None (Some 1) None] /\
  PolicyEngine.makeDecision
    (mkAnalysis MEDIUM [mkFinding (js "BULK_DATA") 0 14 None (Some 1) None] 5)
    employee =
  PolicyEngine.mkDecision PolicyEngine.ALLOW [] None [].
Proof.
  split.
  - vm_compute. reflexivity.
  - apply (@makeDecision_small_bulk_allows
             (mkAnalysis MEDIUM
                [mkFinding (js "BULK_DATA") 0 14 None (Some 1) None] 5)
             employee
             (mkFinding (js "BULK_DATA") 0 14 None (Some 1) None) 1).
    + reflexivity.
    + reflexivity.
    + lia.
    + reflexivity.
    + reflexivity.
    + discriminate.
Defined.

(* ===================================================================== *)
(** ** Output filter *)
(* ===================================================================== *)

Section FilterFacts.
Variable toLowerCase : jsstring -> jsstring.
Variable replace_gi : jsstring -> jsstring -> jsstring -> jsstring.

(** Findings without a value leave the text as it is. *)
Lemma mask_valueless : forall patterns masked,
  forallb no_value patterns = true ->
  fold_left (OutputFilter.mask_pattern replace_gi) patterns masked = masked.
Proof.
  induction patterns as [|f fs IH]; intros masked H; simpl in *.
  - reflexivity.
  - apply andb_true_iff in H. destruct H as [Hf Hfs].
    unfold OutputFilter.mask_pattern at 2. unfold no_value in Hf.
    destruct (value f); [discriminate|]. apply IH. exact Hfs.
Qed.
End FilterFacts.

Lemma pii_types_carry_value : forall t,
  In t (map fst PII_PATTERNS) ->
  arr_includes (Spec.injectionTypes ++ [js "BULK_DATA"]) t = false.
Proof.
  assert (H : forallb (fun t => negb (arr_includes
                         (Spec.injectionTypes ++ [js "BULK_DATA"]) t))
                      (map fst PII_PATTERNS) = true)
    by (vm_compute; reflexivity).
  intros t Ht. rewrite forallb_forall in H. apply H in Ht.
  apply negb_true_iff in Ht. exact Ht.
Qed.

(** Among the findings the Detector reports, those without a value are
    exactly the SQL_INJECTION, XSS_ATTEMPT, JAILBREAK_PATTERN and BULK_DATA
    findings. *)
Lemma detected_valueless : forall toLowerCase g text fs,
  program_state g ->
  detected toLowerCase g text = Some fs ->
  Forall (fun f => no_value f =
                   arr_includes (Spec.injectionTypes ++ [js "BULK_DATA"])
                                (type f)) fs.
Proof.
  intros toLowerCase g text fs Hg Hdet.
  destruct (analyzeText_returns toLowerCase text Hg)
    as [piiF [sqlF [xssF [jbF [a [g' [Ha [_ [Hpii [Hs [Hx [Hj
        [Hfs _]]]]]]]]]]]]].
  unfold detected in Hdet. rewrite Ha in Hdet. simpl in Hdet.
  injection Hdet as <-. rewrite Hfs.
  apply Forall_app; split; [apply Forall_app; split|].
  - eapply Forall_impl; [|exact Hpii]. intros f [Hf Hv].
    rewrite Hv, (pii_types_carry_value Hf). reflexivity.
  - apply Forall_app; split; [|apply Forall_app; split].
    + destruct Hs as [->| ->]; repeat constructor.
    + destruct Hx as [->| ->]; repeat constructor.
    + destruct Hj as [->| ->]; repeat constructor.
  - destruct (isBulk _); repeat constructor.
Qed.

(** C3.  With an entity-map entry that is an object, as buildEntityMap
    stores them, scanOutput does not return a result: reading
    [original.toLowerCase] on the entry throws a TypeError and the promise
    is rejected, whatever the entry holds. *)
Theorem scanOutput_object_entry_throws :
  forall (toLowerCase : jsstring -> jsstring)
         (replace_gi : jsstring -> jsstring -> jsstring -> jsstring)
         (entry : Telemetry.Entry),
  exists g',
    OutputFilter.scanOutput toLowerCase replace_gi loaded
      (js "Contact john@example.com")
      [(js "EMAIL_1", OutputFilter.Obj entry)] =
    Some (OutputFilter.Throw
            (js "TypeError: original.toLowerCase is not a function"), g').
Proof.
  intros toLowerCase replace_gi entry.
  assert (H0 : program_state loaded) by reflexivity.
  destruct (analyzeText_total toLowerCase (js "Contact john@example.com") H0)
    as [a [g' [Ha _]]].
  exists g'. unfold OutputFilter.scanOutput. rewrite Ha. reflexivity.
Qed.

(** C9.  When the Detector reports findings for an output text and none of
    them carries a value (SQL_INJECTION, XSS_ATTEMPT, JAILBREAK_PATTERN and
    BULK_DATA findings carry none), scanOutput with an empty entity map
    returns safe=false with a maskedText equal to the text: nothing is
    redacted. *)
Theorem scanOutput_valueless_not_masked :
  forall (toLowerCase : jsstring -> jsstring)
         (replace_gi : jsstring -> jsstring -> jsstring -> jsstring)
         (g : Patterns) (text : jsstring) (fs : list Finding),
    detected toLowerCase g text = Some fs ->
    fs <> [] ->
    forallb no_value fs = true ->
    exists r g',
      OutputFilter.scanOutput toLowerCase replace_gi g text [] =
        Some (OutputFilter.Normal r, g') /\
      OutputFilter.safe r = false /\
      OutputFilter.maskedText r = Some text.
Proof.
  intros toLowerCase replace_gi g text fs Hdet Hne Hnov.
  unfold detected in Hdet. unfold OutputFilter.scanOutput.
  destruct (analyzeText toLowerCase g text) as [[a g']|]; [|discriminate].
  simpl in Hdet. injection Hdet as Hfs. rewrite Hfs.
  assert (Hmask : forall rest,
    OutputFilter.maskSensitiveContent replace_gi text
      (OutputFilter.SENSITIVE_IN_OUTPUT fs ::
       match rest with
       | Some sus => [OutputFilter.SUSPICIOUS_PATTERN sus]
       | None => []
       end) = text).
  { intros rest. unfold OutputFilter.maskSensitiveContent.
    cbn [fold_left OutputFilter.mask_finding].
    rewrite mask_valueless by exact Hnov. destruct rest; reflexivity. }
  assert (Hlen : (0 <? List.length fs) = true).
  { destruct fs; [congruence|reflexivity]. }
  rewrite Hlen.
  cbn [OutputFilter.detectReversalAttempts OutputFilter.reversal_loop app].
  change (0 <? List.length (@nil OutputFilter.Attempt)) with false.
  cbv iota.
  destruct (0 <? List.length
              (OutputFilter.detectSuspiciousPatterns toLowerCase text)).
  - eexists _, g'. split; [reflexivity|]. split; [reflexivity|].
    cbn [OutputFilter.maskedText]. f_equal.
    exact (Hmask (Some (OutputFilter.detectSuspiciousPatterns
                          toLowerCase text))).
  - eexists _, g'. split; [reflexivity|]. split; [reflexivity|].
    cbn [OutputFilter.maskedText]. f_equal. exact (Hmask None).
Qed.

(** The theorem on a response with a DROP TABLE, with a replacement
    function that would blank whatever it is applied to. *)
Lemma scanOutput_valueless_not_masked_witness :
  detected ascii_lower loaded (js "DROP TABLE users") =
    Some [whole_text_finding (js "SQL_INJECTION") (js "DROP TABLE users")] /\
  exists r g',
    OutputFilter.scanOutput ascii_lower (fun _ _ _ => []) loaded
      (js "DROP TABLE users") [] = Some (OutputFilter.Normal r, g') /\
    OutputFilter.safe r = false /\
    OutputFilter.maskedText r = Some (js "DROP TABLE users").
Proof.
  assert (H : detected ascii_lower loaded (js "DROP TABLE users") =
    Some [whole_text_finding (js "SQL_INJECTION") (js "DROP TABLE users")])
    by (vm_compute; reflexivity).
  split.
  - exact H.
  - apply (@scanOutput_valueless_not_masked ascii_lower (fun _ _ _ => [])
             loaded (js "DROP TABLE users")
             [whole_text_finding (js "SQL_INJECTION")
                                 (js "DROP TABLE users")]).
    + exact H.
    + discriminate.
    + reflexivity.
Defined.


(* ===================================================================== *)
(** ** Detector: shape of the findings *)
(* ===================================================================== *)

Lemma substring_length : forall (s : jsstring) a b,
  a <= b -> b <= List.length s -> List.length (substring s a b) = b - a.
Proof.
  intros s a b Hab Hb. unfold substring.
  rewrite length_firstn, length_skipn. lia.
Qed.

Lemma StronglySorted_app : forall (A : Type) (R : A -> A -> Prop) l1 l2,
  StronglySorted R l1 -> StronglySorted R l2 ->
  (forall a b, In a l1 -> In b l2 -> R a b) ->
  StronglySorted R (l1 ++ l2).
Proof.
  intros A R l1 l2 H1 H2 Hc. induction H1 as [|x l1 Hs IH Hx]; simpl.
  - exact H2.
  - constructor.
    + apply IH. intros a b Ha Hb. apply Hc; [right; exact Ha|exact Hb].
    + apply Forall_app. split; [exact Hx|].
      apply Forall_forall. intros b Hb. apply Hc; [left; reflexivity|exact Hb].
Qed.

(** The findings one pattern adds: of its category, well formed, without a
    category property, and each starting where the previous one ended or
    later. *)
Lemma exec_loop_findings : forall text ty fuel p acc fs p',
  nullable (source p) = false ->
  exec_loop fuel ty p text acc = Some (fs, p') ->
  exists new,
    fs = acc ++ new /\
    Forall (fun f => type f = ty /\ well_formed text f /\
                     no_value f = false /\ has_no_category f = true /\
                     lastIndex p <= offsetStart f) new /\
    StronglySorted (fun a b => offsetEnd a <= offsetStart b) new.
Proof.
  intros text ty. induction fuel as [|fuel IH]; intros p acc fs p' Hn H.
  - discriminate.
  - cbn [exec_loop] in H. unfold exec in H.
    destruct (search_from (ignoreCase p) text (source p) (lastIndex p))
      as [[i e]|] eqn:E.
    + apply search_from_moves in E; [|exact Hn].
      apply IH in H; [|exact Hn]. destruct H as [new [Hfs [Hall Hsorted]]].
      cbn [lastIndex set_lastIndex] in Hall.
      assert (Hlen : i + List.length (substring text i e) = e).
      { rewrite substring_length; lia. }
      exists (mkFinding ty i (i + List.length (substring text i e))
                        (Some (substring text i e)) None None :: new).
      split; [rewrite Hfs, <- app_assoc; reflexivity|]. split.
      * constructor.
        -- cbn [type offsetStart]. split; [reflexivity|].
           split; [|split; [reflexivity|split; [reflexivity|lia]]].
           unfold well_formed. cbn [offsetStart offsetEnd value].
           rewrite Hlen. repeat split; lia.
        -- eapply Forall_impl; [|exact Hall].
           intros f [H1 [H2 [H3 [H4 H5]]]].
           split; [exact H1|]. split; [exact H2|]. split; [exact H3|].
           split; [exact H4|]. simpl in H5. lia.
      * constructor; [exact Hsorted|].
        eapply Forall_impl; [|exact Hall].
        intros f [_ [_ [_ [_ H5]]]]. simpl in H5. cbn [offsetEnd]. lia.
    + inversion H; subst. exists []. rewrite app_nil_r.
      split; [reflexivity|]. split; constructor.
Qed.

Lemma detectPII_loop_findings : forall text entries acc fs entries',
  Forall (fun e => nullable (source (snd e)) = false) entries ->
  NoDup (map fst entries) ->
  detectPII_loop entries text acc = Some (fs, entries') ->
  exists new,
    fs = acc ++ new /\
    Forall (fun f => In (type f) (map fst entries) /\ well_formed text f /\
                     no_value f = false /\ has_no_category f = true) new /\
    (StronglySorted apart new /\
     StronglySorted (fun a b => rank (map fst entries) (type a) <=
                                rank (map fst entries) (type b)) new).
Proof.
  intros text. induction entries as [|[ty p] rest IH];
    intros acc fs entries' Hn Hnd H; cbn [detectPII_loop] in H.
  - inversion H; subst. exists []. rewrite app_nil_r.
    split; [reflexivity|]. split; [constructor|split; constructor].
  - inversion Hn as [|? ? Hp Hrest]; subst. cbn [snd] in Hp.
    cbn [map fst] in Hnd. inversion Hnd as [|? ? Hfresh Hnd']; subst.
    destruct (exec_loop (S (List.length text)) ty (set_lastIndex p 0) text acc)
      as [[fs1 p1]|] eqn:E1; [|discriminate].
    destruct (detectPII_loop rest text fs1) as [[fs2 rest']|] eqn:E2;
      [|discriminate].
    inversion H; subst fs2 entries'.
    apply exec_loop_findings in E1; [|exact Hp].
    destruct E1 as [new1 [Hfs1 [Hall1 Hs1]]].
    apply IH in E2; [|exact Hrest|exact Hnd'].
    destruct E2 as [new2 [Hfs2 [Hall2 [Hs2 Hr2]]]].
    exists (new1 ++ new2). split; [rewrite Hfs2, Hfs1, app_assoc; reflexivity|].
    split.
    + apply Forall_app. split.
      * eapply Forall_impl; [|exact Hall1].
        intros f [H1 [H2 [H3 [H4 _]]]]. cbn [map fst].
        split; [left; symmetry; exact H1|]. split; [exact H2|].
        split; [exact H3|exact H4].
      * eapply Forall_impl; [|exact Hall2].
        intros f [H1 [H2 [H3 H4]]]. cbn [map fst].
        split; [right; exact H1|]. split; [exact H2|].
        split; [exact H3|exact H4].
    + assert (Hself : str_eqb ty ty = true) by (apply str_eqb_eq; reflexivity).
      assert (Hrank1 : forall a, In a new1 ->
                rank (map fst ((ty, p) :: rest)) (type a) = 0).
      { intros a Ha. rewrite Forall_forall in Hall1.
        destruct (Hall1 a Ha) as [Hta _]. cbn [map fst rank].
        rewrite Hta, Hself. reflexivity. }
      assert (Hrank2 : forall b, In b new2 ->
                rank (map fst ((ty, p) :: rest)) (type b) =
                S (rank (map fst rest) (type b))).
      { intros b Hb. rewrite Forall_forall in Hall2.
        destruct (Hall2 b Hb) as [Htb _]. cbn [map fst rank].
        destruct (str_eqb ty (type b)) eqn:E; [|reflexivity].
        apply str_eqb_eq in E. exfalso. apply Hfresh. rewrite E. exact Htb. }
      split.
      * apply StronglySorted_app.
        -- clear -Hall1 Hs1. induction Hs1 as [|x l Hs IHs Hx]; constructor.
           ++ apply IHs. inversion Hall1; assumption.
           ++ eapply Forall_impl; [|exact Hx]. intros b Hb _. exact Hb.
        -- exact Hs2.
        -- intros a b Ha Hb Hty. exfalso.
           rewrite Forall_forall in Hall1, Hall2.
           destruct (Hall1 a Ha) as [Hta _]. destruct (Hall2 b Hb) as [Htb _].
           apply Hfresh. rewrite <- Hta, Hty. exact Htb.
      * apply StronglySorted_app.
        -- clear -Hrank1. induction new1 as [|x l IHl]; constructor.
           ++ apply IHl. intros a Ha. apply Hrank1. right. exact Ha.
           ++ apply Forall_forall. intros b Hb.
              rewrite (Hrank1 x (or_introl eq_refl)). lia.
        -- clear -Hrank2 Hr2. induction Hr2 as [|x l Hs IHs Hx]; constructor.
           ++ apply IHs. intros b Hb. apply Hrank2. right. exact Hb.
           ++ rewrite Forall_forall in *. intros b Hb.
              rewrite (Hrank2 x (or_introl eq_refl)),
                      (Hrank2 b (or_intror Hb)).
              specialize (Hx b Hb). lia.
        -- intros a b Ha Hb. rewrite (Hrank1 a Ha). lia.
Qed.

Lemma pii_patterns_distinct : NoDup (map fst PII_PATTERNS).
Proof.
  assert (H : nodup str_eq_dec (map fst PII_PATTERNS) = map fst PII_PATTERNS)
    by (vm_compute; reflexivity).
  rewrite <- H. apply NoDup_nodup.
Qed.

Section DetectorShape.
Variable toLowerCase : jsstring -> jsstring.

(** The analysis of a text, piece by piece: the PII findings, at most one
    finding per injection family, at most one BULK_DATA finding, and the
    score and level computed from them. *)
Lemma analysis_parts : forall g text a,
  program_state g ->
  analysis_of toLowerCase g text = Some a ->
  exists piiF sqlF xssF jbF bulkF,
    findings a = piiF ++ sqlF ++ xssF ++ jbF ++ bulkF /\
    Forall (fun f => In (type f) (map fst PII_PATTERNS) /\
                     well_formed text f /\ no_value f = false /\
                     has_no_category f = true) piiF /\
    (StronglySorted apart piiF /\
     StronglySorted (fun a b => rank (map fst PII_PATTERNS) (type a) <=
                                rank (map fst PII_PATTERNS) (type b)) piiF) /\
    (sqlF = [] \/ sqlF = [whole_text_finding (js "SQL_INJECTION") text]) /\
    (xssF = [] \/ xssF = [whole_text_finding (js "XSS_ATTEMPT") text]) /\
    (jbF = [] \/ jbF = [whole_text_finding (js "JAILBREAK_PATTERN") text]) /\
    bulkF =
      (if isBulk (detectBulkData toLowerCase text)
       then [mkFinding (js "BULK_DATA") 0 (List.length text) None
               (Some (rowCount (detectBulkData toLowerCase text))) None]
       else []) /\
    anomalyScore a = calculateAnomalyScore (findings a) text /\
    riskLevel a =
      (if (0 <? List.length sqlF) || (0 <? List.length xssF) ||
          (0 <? List.length jbF) ||
          existsb (fun f => includes (type f) (js "API_KEY") ||
                            includes (type f) (js "SECRET")) (findings a) ||
          (70 <=? anomalyScore a)
       then HIGH
       else if (0 <? List.length (findings a)) ||
               isBulk (detectBulkData toLowerCase text) ||
               (40 <=? anomalyScore a)
       then MEDIUM else LOW).
Proof.
  intros g text a Hg Ha. unfold analysis_of in Ha.
  destruct (analyzeText toLowerCase g text) as [[a0 g']|] eqn:E;
    [|discriminate].
  cbn [option_map fst] in Ha. injection Ha as ->.
  revert E. unfold analyzeText, detectPII.
  rewrite <- detectPII_loop_reset, (program_state_pii Hg).
  destruct (detectPII_loop PII_PATTERNS text []) as [[piiF p']|] eqn:Ep;
    [|discriminate].
  apply detectPII_loop_findings in Ep;
    [|exact pii_patterns_consume|exact pii_patterns_distinct].
  destruct Ep as [new [Hnew [Hall Hsorted]]]. cbn [app] in Hnew. subst new.
  unfold detectSQLInjection, detectXSS, detectJailbreak.
  pose proof (scan_family_one (js "SQL_INJECTION") text (sql g) []) as Hs.
  pose proof (scan_family_one (js "XSS_ATTEMPT") text (xss g) []) as Hx.
  pose proof (scan_family_one (js "JAILBREAK_PATTERN") text
                (jailbreak g) []) as Hj.
  destruct (scan_family (js "SQL_INJECTION") text (sql g) []) as [sqlF s'].
  destruct (scan_family (js "XSS_ATTEMPT") text (xss g) []) as [xssF x'].
  destruct (scan_family (js "JAILBREAK_PATTERN") text (jailbreak g) [])
    as [jbF j'].
  cbn [fst app] in Hs, Hx, Hj.
  intros E. injection E as <- _.
  exists piiF, sqlF, xssF, jbF,
    (if isBulk (detectBulkData toLowerCase text)
     then [mkFinding (js "BULK_DATA") 0 (List.length text) None
             (Some (rowCount (detectBulkData toLowerCase text))) None]
     else []).
  cbn [findings anomalyScore riskLevel].
  assert (Hfs :
    (if isBulk (detectBulkData toLowerCase text)
     then (piiF ++ sqlF ++ xssF ++ jbF) ++
          [mkFinding (js "BULK_DATA") 0 (List.length text) None
             (Some (rowCount (detectBulkData toLowerCase text))) None]
     else piiF ++ sqlF ++ xssF ++ jbF) =
    piiF ++ sqlF ++ xssF ++ jbF ++
    (if isBulk (detectBulkData toLowerCase text)
     then [mkFinding (js "BULK_DATA") 0 (List.length text) None
             (Some (rowCount (detectBulkData toLowerCase text))) None]
     else [])).
  { destruct (isBulk _); [rewrite <- !app_assoc; reflexivity|].
    rewrite app_nil_r. reflexivity. }
  rewrite Hfs.
  split; [reflexivity|]. split; [exact Hall|]. split; [exact Hsorted|].
  split; [exact Hs|]. split; [exact Hx|]. split; [exact Hj|].
  split; [reflexivity|]. split; reflexivity.
Qed.

(** The four findings that span the whole text are well formed, carry
    neither value nor category, and are of pairwise different
    categories, none of them a PII category. *)
Lemma analysis_tail : forall text (sqlF xssF jbF bulkF : list Finding) n,
  (sqlF = [] \/ sqlF = [whole_text_finding (js "SQL_INJECTION") text]) ->
  (xssF = [] \/ xssF = [whole_text_finding (js "XSS_ATTEMPT") text]) ->
  (jbF = [] \/ jbF = [whole_text_finding (js "JAILBREAK_PATTERN") text]) ->
  (bulkF = [] \/
   bulkF = [mkFinding (js "BULK_DATA") 0 (List.length text) None (Some n)
                      None]) ->
  Forall (fun f => well_formed text f /\ has_no_category f = true /\
                   arr_includes (Spec.injectionTypes ++ [js "BULK_DATA"])
                                (type f) = true)
         (sqlF ++ xssF ++ jbF ++ bulkF) /\
  StronglySorted apart (sqlF ++ xssF ++ jbF ++ bulkF).
Proof.
  intros text sqlF xssF jbF bulkF n Hs Hx Hj Hb.
  assert (Hwf : forall ty d,
            well_formed text (mkFinding ty 0 (List.length text) None d None)).
  { intros ty d. unfold well_formed. cbn. repeat split; lia. }
  destruct Hs as [->| ->]; destruct Hx as [->| ->]; destruct Hj as [->| ->];
    destruct Hb as [->| ->]; cbn [app]; split;
    repeat (constructor; try (split; [apply Hwf|split; reflexivity]));
    unfold apart; cbn [type whole_text_finding]; intros Hty;
    try (exfalso; vm_compute in Hty; discriminate Hty).
Qed.
End DetectorShape.

Lemma analysis_of_detected : forall toLowerCase g text a,
  analysis_of toLowerCase g text = Some a ->
  detected toLowerCase g text = Some (findings a).
Proof.
  intros toLowerCase g text a H. unfold analysis_of in H. unfold detected.
  destruct (analyzeText toLowerCase g text) as [[a0 g']|]; [|discriminate].
  cbn in *. injection H as ->. reflexivity.
Qed.

Lemma has_type_in_app : forall types (l1 l2 : list Finding),
  Spec.has_type_in types (l1 ++ l2) =
  Spec.has_type_in types l1 || Spec.has_type_in types l2.
Proof. intros. unfold Spec.has_type_in. apply existsb_app. Qed.

Lemma arr_includes_app : forall l1 l2 x,
  arr_includes (l1 ++ l2) x = arr_includes l1 x || arr_includes l2 x.
Proof. intros. unfold arr_includes. apply existsb_app. Qed.

Lemma has_type_in_union : forall t1 t2 (fs : list Finding),
  Spec.has_type_in (t1 ++ t2) fs =
  Spec.has_type_in t1 fs || Spec.has_type_in t2 fs.
Proof.
  intros t1 t2 fs. unfold Spec.has_type_in.
  induction fs as [|f fs IH]; cbn [existsb]; [reflexivity|].
  rewrite IH, arr_includes_app.
  destruct (arr_includes t1 (type f)), (arr_includes t2 (type f)),
    (existsb (fun f => arr_includes t1 (type f)) fs),
    (existsb (fun f => arr_includes t2 (type f)) fs); reflexivity.
Qed.

Section DetectorRisk.
Variable toLowerCase : jsstring -> jsstring.

Lemma analysis_known_types : forall g text a,
  program_state g ->
  analysis_of toLowerCase g text = Some a ->
  Forall (fun f => In (type f) knownTypes) (findings a).
Proof.
  intros g text a Hg Ha.
  destruct (@analysis_parts toLowerCase g text a Hg Ha)
    as [piiF [sqlF [xssF [jbF [bulkF [Hfs [Hpii [_ [Hs [Hx [Hj [Hb _]]]]]]]]]]]].
  rewrite Hfs. apply Forall_app. split.
  - eapply Forall_impl; [|exact Hpii]. intros f [Hf _].
    apply in_or_app. left. exact Hf.
  - assert (Hb' : bulkF = [] \/
                  bulkF = [mkFinding (js "BULK_DATA") 0 (List.length text)
                             None (Some (rowCount (detectBulkData toLowerCase
                                                     text))) None]).
    { rewrite Hb. destruct (isBulk _); [right|left]; reflexivity. }
    destruct (@analysis_tail text sqlF xssF jbF bulkF _ Hs Hx Hj Hb') as [Htail _].
    eapply Forall_impl; [|exact Htail]. intros f [_ [_ Hf]].
    apply arr_includes_In in Hf. apply in_or_app. right. exact Hf.
Qed.

(** The level of an analysis, from its findings alone. *)
Lemma analysis_risk : forall g text a,
  program_state g ->
  analysis_of toLowerCase g text = Some a ->
  riskLevel a =
  Spec.riskLevel (Spec.has_type_in Spec.injectionTypes (findings a))
                 (Spec.has_type_in Spec.keyTypes (findings a))
                 (negb (is_empty (findings a)))
                 (isBulk (detectBulkData toLowerCase text))
                 (anomalyScore a).
Proof.
  intros g text a Hg Ha.
  pose proof (@analysis_known_types g text a Hg Ha) as Hknown.
  destruct (@analysis_parts toLowerCase g text a Hg Ha)
    as [piiF [sqlF [xssF [jbF [bulkF [Hfs [Hpii [_ [Hs [Hx [Hj [Hb
        [_ Hrisk]]]]]]]]]]]]].
  rewrite Hrisk. unfold Spec.riskLevel.
  assert (Hkey :
    existsb (fun f => includes (type f) (js "API_KEY") ||
                      includes (type f) (js "SECRET")) (findings a) =
    Spec.has_type_in Spec.keyTypes (findings a)).
  { apply existsb_agree. eapply Forall_impl; [|exact Hknown].
    intros f Hf. apply known_types_keys. exact Hf. }
  assert (Hinj :
    (0 <? List.length sqlF) || (0 <? List.length xssF) ||
    (0 <? List.length jbF) =
    Spec.has_type_in Spec.injectionTypes (findings a)).
  { rewrite Hfs, !has_type_in_app.
    assert (Hp : Spec.has_type_in Spec.injectionTypes piiF = false).
    { clear -Hpii. unfold Spec.has_type_in.
      induction Hpii as [|f l [Hf _] _ IH]; cbn [existsb]; [reflexivity|].
      rewrite (pii_types_not_injection Hf), IH. reflexivity. }
    rewrite Hp, Hb.
    destruct Hs as [->| ->]; destruct Hx as [->| ->];
      destruct Hj as [->| ->]; destruct (isBulk _); reflexivity. }
  assert (Hne : (0 <? List.length (findings a)) =
                negb (is_empty (findings a))).
  { destruct (findings a); reflexivity. }
  rewrite Hkey, Hinj, Hne. reflexivity.
Qed.
End DetectorRisk.

(** X1.  Every finding of an analysis lies inside the analysed text
    (offsetStart <= offsetEnd <= text.length), and a finding with a value
    carries exactly the text of its span, which is not empty. *)
Theorem findings_well_formed :
  forall (toLowerCase : jsstring -> jsstring) (g : Patterns)
         (text : jsstring) (a : Analysis),
    program_state g ->
    analysis_of toLowerCase g text = Some a ->
    Forall (well_formed text) (findings a).
Proof.
  intros toLowerCase g text a Hg Ha.
  destruct (@analysis_parts toLowerCase g text a Hg Ha)
    as [piiF [sqlF [xssF [jbF [bulkF [Hfs [Hpii [_ [Hs [Hx [Hj [Hb _]]]]]]]]]]]].
  assert (Hb' : bulkF = [] \/
                bulkF = [mkFinding (js "BULK_DATA") 0 (List.length text)
                           None (Some (rowCount (detectBulkData toLowerCase
                                                   text))) None]).
  { rewrite Hb. destruct (isBulk _); [right|left]; reflexivity. }
  destruct (@analysis_tail text sqlF xssF jbF bulkF _ Hs Hx Hj Hb') as [Htail _].
  rewrite Hfs. apply Forall_app. split.
  - eapply Forall_impl; [|exact Hpii]. intros f [_ [Hf _]]. exact Hf.
  - eapply Forall_impl; [|exact Htail]. intros f [Hf _]. exact Hf.
Qed.

Lemma findings_well_formed_witness :
  program_state loaded /\
  analysis_of ascii_lower loaded text_jane =
    Some (mkAnalysis MEDIUM [finding_jane_email; finding_jane_ssn] 35) /\
  Forall (well_formed text_jane) [finding_jane_email; finding_jane_ssn].
Proof.
  assert (H : analysis_of ascii_lower loaded text_jane =
              Some (mkAnalysis MEDIUM [finding_jane_email; finding_jane_ssn]
                               35)) by (vm_compute; reflexivity).
  split; [reflexivity|]. split; [exact H|].
  exact (@findings_well_formed ascii_lower loaded text_jane _ eq_refl H).
Defined.

(** X2.  Findings of one category never overlap and are listed from left
    to right: of two findings with the same category, the one listed
    first ends where the other starts, or before. *)
Theorem same_category_findings_apart :
  forall (toLowerCase : jsstring -> jsstring) (g : Patterns)
         (text : jsstring) (a : Analysis),
    program_state g ->
    analysis_of toLowerCase g text = Some a ->
    StronglySorted apart (findings a).
Proof.
  intros toLowerCase g text a Hg Ha.
  destruct (@analysis_parts toLowerCase g text a Hg Ha)
    as [piiF [sqlF [xssF [jbF [bulkF [Hfs [Hpii [Hsorted [Hs [Hx [Hj
        [Hb _]]]]]]]]]]]].
  assert (Hb' : bulkF = [] \/
                bulkF = [mkFinding (js "BULK_DATA") 0 (List.length text)
                           None (Some (rowCount (detectBulkData toLowerCase
                                                   text))) None]).
  { rewrite Hb. destruct (isBulk _); [right|left]; reflexivity. }
  destruct (@analysis_tail text sqlF xssF jbF bulkF _ Hs Hx Hj Hb') as [Htail Htsorted].
  rewrite Hfs.
  apply StronglySorted_app; [exact (proj1 Hsorted)|exact Htsorted|].
  intros x y Hx' Hy' Hty. exfalso.
  rewrite Forall_forall in Hpii, Htail.
  destruct (Hpii x Hx') as [Hpx _]. destruct (Htail y Hy') as [_ [_ Hty']].
  rewrite <- Hty, (pii_types_carry_value Hpx) in Hty'. discriminate.
Qed.

Lemma same_category_findings_apart_witness :
  program_state loaded /\
  analysis_of ascii_lower loaded (js "a@x.io b@y.io") =
    Some (mkAnalysis MEDIUM
            [mkFinding (js "EMAIL") 0 6 (Some (js "a@x.io")) None None;
             mkFinding (js "EMAIL") 7 13 (Some (js "b@y.io")) None None] 10) /\
  StronglySorted apart
    [mkFinding (js "EMAIL") 0 6 (Some (js "a@x.io")) None None;
     mkFinding (js "EMAIL") 7 13 (Some (js "b@y.io")) None None].
Proof.
  assert (H : analysis_of ascii_lower loaded (js "a@x.io b@y.io") =
    Some (mkAnalysis MEDIUM
            [mkFinding (js "EMAIL") 0 6 (Some (js "a@x.io")) None None;
             mkFinding (js "EMAIL") 7 13 (Some (js "b@y.io")) None None] 10))
    by (vm_compute; reflexivity).
  split; [reflexivity|]. split; [exact H|].
  exact (@same_category_findings_apart ascii_lower loaded _ _ eq_refl H).
Defined.

(** An analysis without findings, and only such an analysis, is LOW. *)
Lemma analysis_low :
  forall (toLowerCase : jsstring -> jsstring) (g : Patterns)
         (text : jsstring) (a : Analysis),
    program_state g ->
    analysis_of toLowerCase g text = Some a ->
    (riskLevel a = LOW <-> findings a = []) /\
    (findings a = [] -> anomalyScore a = 0).
Proof.
  intros toLowerCase g text a Hg Ha.
  destruct (@analysis_parts toLowerCase g text a Hg Ha)
    as [piiF [sqlF [xssF [jbF [bulkF [Hfs [_ [_ [_ [_ [_ [Hb
        [Hscore Hrisk]]]]]]]]]]]]].
  assert (Hzero : findings a = [] -> anomalyScore a = 0).
  { intros He. rewrite Hscore, He. unfold calculateAnomalyScore.
    cbn [List.length map filter set_of].
    destruct (1000 <? List.length text); reflexivity. }
  split; [|exact Hzero]. split.
  - intros Hlow. rewrite Hrisk in Hlow.
    destruct (findings a) as [|f fs]; [reflexivity|]. exfalso.
    cbn [List.length Nat.ltb Nat.leb orb] in Hlow.
    destruct (_ || _ || _ || _ || _); discriminate.
  - intros He. rewrite Hrisk.
    assert (Hnil : sqlF = [] /\ xssF = [] /\ jbF = [] /\ bulkF = []).
    { rewrite He in Hfs. symmetry in Hfs.
      apply app_eq_nil in Hfs. destruct Hfs as [_ Hfs].
      apply app_eq_nil in Hfs. destruct Hfs as [H1 Hfs].
      apply app_eq_nil in Hfs. destruct Hfs as [H2 Hfs].
      apply app_eq_nil in Hfs. tauto. }
    destruct Hnil as [-> [-> [-> Hbn]]].
    rewrite (Hzero He), He.
    destruct (isBulk (detectBulkData toLowerCase text));
      [rewrite Hbn in Hb; discriminate|reflexivity].
Qed.


(** X3.  An analysis is LOW exactly when it has no finding, and then its
    anomalyScore is 0: any finding at all raises the level to MEDIUM or
    HIGH. *)
Theorem low_risk_iff_no_findings :
  forall (toLowerCase : jsstring -> jsstring) (g : Patterns)
         (text : jsstring) (a : Analysis),
    program_state g ->
    analysis_of toLowerCase g text = Some a ->
    (riskLevel a = LOW <-> findings a = []) /\
    (findings a = [] -> anomalyScore a = 0).
Proof.
  intros toLowerCase g text a Hg Ha.
  exact (@analysis_low toLowerCase g text a Hg Ha).
Qed.

Lemma low_risk_iff_no_findings_witness :
  program_state loaded /\
  analysis_of ascii_lower loaded (js "hello world") =
    Some (mkAnalysis LOW [] 0) /\
  (riskLevel (mkAnalysis LOW [] 0) = LOW <->
   findings (mkAnalysis LOW [] 0) = []) /\
  (findings (mkAnalysis LOW [] 0) = [] ->
   anomalyScore (mkAnalysis LOW [] 0) = 0).
Proof.
  assert (H : analysis_of ascii_lower loaded (js "hello world") =
              Some (mkAnalysis LOW [] 0)) by (vm_compute; reflexivity).
  split; [reflexivity|]. split; [exact H|].
  exact (@low_risk_iff_no_findings ascii_lower loaded _ _ eq_refl H).
Defined.

(** X4.  A text in which the Detector finds SQL, XSS or jailbreak syntax,
    or an API key or secret, is blocked whatever the role of the user and
    whatever else the text contains. *)
Theorem injection_or_key_is_blocked :
  forall (toLowerCase : jsstring -> jsstring) (g : Patterns)
         (text : jsstring) (a : Analysis) (ctx : PolicyEngine.Context),
    program_state g ->
    analysis_of toLowerCase g text = Some a ->
    Spec.has_type_in (Spec.injectionTypes ++ Spec.keyTypes) (findings a)
      = true ->
    PolicyEngine.decision (PolicyEngine.makeDecision a ctx) =
    PolicyEngine.BLOCK.
Proof.
  intros toLowerCase g text a ctx Hg Ha Hhas.
  pose proof (@analysis_risk toLowerCase g text a Hg Ha) as Hrisk.
  rewrite has_type_in_union in Hhas. unfold Spec.riskLevel in Hrisk.
  rewrite Hhas in Hrisk. cbn [orb] in Hrisk.
  unfold PolicyEngine.makeDecision. rewrite Hrisk. reflexivity.
Qed.

Lemma injection_or_key_is_blocked_witness :
  program_state loaded /\
  analysis_of ascii_lower loaded (js "DROP TABLE users; mail a@x.io") =
    Some (mkAnalysis HIGH
            [mkFinding (js "EMAIL") 23 29 (Some (js "a@x.io")) None None;
             whole_text_finding (js "SQL_INJECTION")
                                (js "DROP TABLE users; mail a@x.io")] 35) /\
  PolicyEngine.decision
    (PolicyEngine.makeDecision
       (mkAnalysis HIGH
          [mkFinding (js "EMAIL") 23 29 (Some (js "a@x.io")) None None;
           whole_text_finding (js "SQL_INJECTION")
                              (js "DROP TABLE users; mail a@x.io")] 35)
       (PolicyEngine.mkContext (Some (js "manager")))) =
  PolicyEngine.BLOCK.
Proof.
  assert (H : analysis_of ascii_lower loaded
                (js "DROP TABLE users; mail a@x.io") =
    Some (mkAnalysis HIGH
            [mkFinding (js "EMAIL") 23 29 (Some (js "a@x.io")) None None;
             whole_text_finding (js "SQL_INJECTION")
                                (js "DROP TABLE users; mail a@x.io")] 35))
    by (vm_compute; reflexivity).
  split; [reflexivity|]. split; [exact H|].
  apply (@injection_or_key_is_blocked ascii_lower loaded _ _ _ eq_refl H).
  vm_compute. reflexivity.
Defined.

(** X5.  A jailbreak finding of the Detector always yields BLOCK with the
    single reason JAILBREAK_PATTERN and the jailbreak message: the engine's
    EXFIL_ATTEMPT reason, which would take precedence, is never reached,
    because the Detector reports no finding of that category. *)
Theorem jailbreak_reason :
  forall (toLowerCase : jsstring -> jsstring) (g : Patterns)
         (text : jsstring) (a : Analysis) (ctx : PolicyEngine.Context),
    program_state g ->
    analysis_of toLowerCase g text = Some a ->
    arr_includes (map type (findings a)) (js "JAILBREAK_PATTERN") = true ->
    PolicyEngine.makeDecision a ctx =
    PolicyEngine.mkDecision PolicyEngine.BLOCK [js "JAILBREAK_PATTERN"] None
                            PolicyEngine.msg_jailbreak.
Proof.
  intros toLowerCase g text a ctx Hg Ha Hjb.
  pose proof (@analysis_known_types toLowerCase g text a Hg Ha) as Hknown.
  assert (Hex : arr_includes (map type (findings a)) (js "EXFIL_ATTEMPT")
                = false).
  { destruct (arr_includes (map type (findings a)) (js "EXFIL_ATTEMPT"))
      eqn:E; [|reflexivity]. exfalso.
    apply arr_includes_In in E. apply in_map_iff in E.
    destruct E as [f [Hf Hin]].
    rewrite Forall_forall in Hknown. apply Hknown in Hin.
    rewrite Hf in Hin. apply arr_includes_In in Hin.
    vm_compute in Hin. discriminate. }
  unfold PolicyEngine.makeDecision. rewrite Hex, Hjb.
  rewrite orb_true_r. reflexivity.
Qed.

Lemma jailbreak_reason_witness :
  program_state loaded /\
  analysis_of ascii_lower loaded (js "sudo mail a@x.io") =
    Some (mkAnalysis HIGH
            [mkFinding (js "EMAIL") 10 16 (Some (js "a@x.io")) None None;
             whole_text_finding (js "JAILBREAK_PATTERN")
                                (js "sudo mail a@x.io")] 35) /\
  PolicyEngine.makeDecision
    (mkAnalysis HIGH
       [mkFinding (js "EMAIL") 10 16 (Some (js "a@x.io")) None None;
        whole_text_finding (js "JAILBREAK_PATTERN") (js "sudo mail a@x.io")]
       35) employee =
  PolicyEngine.mkDecision PolicyEngine.BLOCK [js "JAILBREAK_PATTERN"] None
                          PolicyEngine.msg_jailbreak.
Proof.
  assert (H : analysis_of ascii_lower loaded (js "sudo mail a@x.io") =
    Some (mkAnalysis HIGH
            [mkFinding (js "EMAIL") 10 16 (Some (js "a@x.io")) None None;
             whole_text_finding (js "JAILBREAK_PATTERN")
                                (js "sudo mail a@x.io")] 35))
    by (vm_compute; reflexivity).
  split; [reflexivity|]. split; [exact H|].
  apply (@jailbreak_reason ascii_lower loaded _ _ employee eq_refl H).
  vm_compute. reflexivity.
Defined.

(** X6.  A text with a BULK_DATA finding counting more than 10 rows is
    blocked for every role, with or without PII in it. *)
Theorem large_bulk_is_blocked :
  forall (toLowerCase : jsstring -> jsstring) (g : Patterns)
         (text : jsstring) (a : Analysis) (ctx : PolicyEngine.Context)
         (bulk : Finding) (n : nat),
    program_state g ->
    analysis_of toLowerCase g text = Some a ->
    In bulk (findings a) ->
    type bulk = js "BULK_DATA" ->
    details bulk = Some n ->
    10 < n ->
    PolicyEngine.decision (PolicyEngine.makeDecision a ctx) =
    PolicyEngine.BLOCK.
Proof.
  intros toLowerCase g text a ctx bulk n Hg Ha Hin Hty Hd Hn.
  pose proof (@detected_one_bulk toLowerCase g text (findings a) Hg
                (analysis_of_detected _ _ _ Ha)) as Hone.
  pose proof (find_the_bulk _ _ Hin Hty Hone) as Hfind.
  unfold PolicyEngine.makeDecision.
  destruct (PolicyEngine.is_high (riskLevel a) || _ || _); [reflexivity|].
  rewrite (@find_type_includes _ _ _ Hfind), Hfind, Hd.
  assert (Hl : (10 <? n) = true) by (apply Nat.ltb_lt; exact Hn).
  rewrite Hl. reflexivity.
Qed.

Lemma large_bulk_is_blocked_witness :
  program_state loaded /\
  analysis_of ascii_lower loaded table_text =
    Some (mkAnalysis MEDIUM
            [mkFinding (js "BULK_DATA") 0 88 None (Some 11) None] 5) /\
  PolicyEngine.decision
    (PolicyEngine.makeDecision
       (mkAnalysis MEDIUM
          [mkFinding (js "BULK_DATA") 0 88 None (Some 11) None] 5)
       (PolicyEngine.mkContext (Some (js "manager")))) =
  PolicyEngine.BLOCK.
Proof.
  assert (H : analysis_of ascii_lower loaded table_text =
    Some (mkAnalysis MEDIUM
            [mkFinding (js "BULK_DATA") 0 88 None (Some 11) None] 5))
    by (vm_compute; reflexivity).
  split; [reflexivity|]. split; [exact H|].
  apply (@large_bulk_is_blocked ascii_lower loaded _ _
           (PolicyEngine.mkContext (Some (js "manager")))
           (mkFinding (js "BULK_DATA") 0 88 None (Some 11) None) 11 eq_refl H).
  - left. reflexivity.
  - reflexivity.
  - reflexivity.
  - lia.
Defined.

(** X7.  detectBulkData reports bulk for one of three reasons only: more
    than 10 table-like lines or more than 50 lines, and then the row count
    it reports exceeds 10, or one of the phrases list of, all clients,
    all customers, full list in the lower-cased text.  A bulk finding
    with at most 10 rows can only come from a phrase. *)
Theorem bulk_reasons :
  forall (toLowerCase : jsstring -> jsstring) (text : jsstring),
    isBulk (detectBulkData toLowerCase text) = true ->
    10 < rowCount (detectBulkData toLowerCase text) \/
    existsb (fun indicator => includes (toLowerCase text) indicator)
            bulkIndicators = true.
Proof.
  intros toLowerCase text. unfold detectBulkData.
  destruct (10 <? List.length (filter looks_like_row (split_on 10%N text)))
    eqn:Et.
  - intros _. left. cbn [rowCount]. apply Nat.ltb_lt. exact Et.
  - cbn [isBulk rowCount]. intros H. apply orb_true_iff in H.
    destruct H as [H|H]; [right; exact H|].
    left. apply Nat.ltb_lt in H. lia.
Qed.

Lemma bulk_reasons_witness :
  isBulk (detectBulkData ascii_lower (js "Full list attached")) = true /\
  (10 < rowCount (detectBulkData ascii_lower (js "Full list attached")) \/
   existsb (fun indicator =>
              includes (ascii_lower (js "Full list attached")) indicator)
           bulkIndicators = true).
Proof.
  split.
  - vm_compute. reflexivity.
  - apply (bulk_reasons ascii_lower (js "Full list attached")).
    vm_compute. reflexivity.
Defined.

(* ===================================================================== *)
(** ** Anonymizer: what a call changes and what it leaves alone *)
(* ===================================================================== *)

Lemma sort_insert_perm : forall x l,
  Permutation (x :: l) (Anonymizer.sort_insert x l).
Proof.
  intros x. induction l as [|y l IH]; cbn [Anonymizer.sort_insert].
  - apply Permutation_refl.
  - destruct (0 <? Anonymizer.compareFn y x)%Z.
    + apply Permutation_refl.
    + eapply Permutation_trans; [apply perm_swap|].
      apply perm_skip. exact IH.
Qed.

Lemma sort_insert_sorted : forall x l,
  StronglySorted starts_not_before l ->
  StronglySorted starts_not_before (Anonymizer.sort_insert x l).
Proof.
  intros x. induction l as [|y l IH]; intros Hs;
    cbn [Anonymizer.sort_insert].
  - repeat constructor.
  - inversion Hs as [|? ? Hl Hy]; subst.
    destruct (0 <? Anonymizer.compareFn y x)%Z eqn:E.
    + apply Z.ltb_lt in E. unfold Anonymizer.compareFn in E.
      constructor; [exact Hs|]. constructor.
      * unfold starts_not_before. lia.
      * eapply Forall_impl; [|exact Hy]. unfold starts_not_before.
        intros z Hz. lia.
    + apply Z.ltb_ge in E. unfold Anonymizer.compareFn in E.
      constructor; [apply IH; exact Hl|].
      eapply Permutation_Forall; [apply sort_insert_perm|].
      constructor; [unfold starts_not_before; lia|exact Hy].
Qed.

Lemma array_sort_spec : forall arr,
  Permutation arr (Anonymizer.array_sort arr) /\
  StronglySorted starts_not_before (Anonymizer.array_sort arr).
Proof.
  intros arr. unfold Anonymizer.array_sort.
  assert (H : forall l acc,
    StronglySorted starts_not_before acc ->
    Permutation (acc ++ l)
      (fold_left (fun sorted x => Anonymizer.sort_insert x sorted) l acc) /\
    StronglySorted starts_not_before
      (fold_left (fun sorted x => Anonymizer.sort_insert x sorted) l acc)).
  { induction l as [|x l IH]; intros acc Hacc; cbn [fold_left].
    - rewrite app_nil_r. split; [apply Permutation_refl|exact Hacc].
    - destruct (IH (Anonymizer.sort_insert x acc)
                   (sort_insert_sorted x Hacc)) as [Hp Hs].
      split; [|exact Hs].
      eapply Permutation_trans; [|exact Hp].
      apply Permutation_trans with ((x :: acc) ++ l).
      + apply Permutation_sym. apply Permutation_middle.
      + apply Permutation_app_tail. apply sort_insert_perm. }
  apply (H arr []). constructor.
Qed.

(** X8.  anonymizeText leaves the caller's array holding the same findings,
    reordered by descending offsetStart. *)
Theorem anonymizeText_sorts_argument :
  forall (text : jsstring) (findings : list Finding),
    Permutation findings (snd (Anonymizer.anonymizeText text findings)) /\
    StronglySorted starts_not_before
      (snd (Anonymizer.anonymizeText text findings)).
Proof.
  intros text findings.
  change (snd (Anonymizer.anonymizeText text findings))
    with (Anonymizer.array_sort findings).
  apply array_sort_spec.
Qed.

Lemma replacement_not_empty : forall ty,
  fst (Anonymizer.replacement_of ty) <> [].
Proof.
  intros ty. unfold Anonymizer.replacement_of.
  repeat match goal with
         | |- context [if ?c then _ else _] => destruct c
         end; cbn; discriminate.
Qed.

Lemma set_add_not_empty : forall set x,
  is_empty (Anonymizer.set_add set x) = false.
Proof.
  intros set x. unfold Anonymizer.set_add.
  destruct (arr_includes set x) eqn:E.
  - destruct set; [discriminate|reflexivity].
  - destruct set; reflexivity.
Qed.

(** What one round of the loop does to the loop variables. *)
Lemma anonymize_step_effect : forall st f,
  let st' := Anonymizer.anonymize_step st f in
  Anonymizer.st_changed st' = Anonymizer.st_changed st || substituted f /\
  is_empty (Anonymizer.st_removedTypes st') =
    is_empty (Anonymizer.st_removedTypes st) && negb (substituted f) /\
  Anonymizer.st_bulkDataHandled st' =
    Anonymizer.st_bulkDataHandled st || is_bulk f /\
  (substituted f = false ->
   Anonymizer.st_sanitizedText st' = Anonymizer.st_sanitizedText st).
Proof.
  intros st f. unfold Anonymizer.anonymize_step, substituted, is_bulk.
  destruct (str_eqb (type f) (js "BULK_DATA")) eqn:Eb.
  - cbn. rewrite !orb_false_r, orb_true_r, andb_true_r. auto.
  - destruct (Anonymizer.is_security_type (type f)) eqn:Es.
    + cbn. rewrite !orb_false_r, andb_true_r. auto.
    + pose proof (replacement_not_empty (type f)) as Hne.
      destruct (Anonymizer.replacement_of (type f)) as [r tag].
      cbn [fst] in Hne. destruct r as [|c r]; [congruence|].
      cbn. rewrite orb_true_r, orb_false_r, andb_false_r.
      split; [reflexivity|]. split; [apply set_add_not_empty|].
      split; [reflexivity|discriminate].
Qed.

Lemma anonymize_loop_effect : forall l st,
  let st' := fold_left Anonymizer.anonymize_step l st in
  Anonymizer.st_changed st' =
    Anonymizer.st_changed st || existsb substituted l /\
  is_empty (Anonymizer.st_removedTypes st') =
    is_empty (Anonymizer.st_removedTypes st) &&
    negb (existsb substituted l) /\
  Anonymizer.st_bulkDataHandled st' =
    Anonymizer.st_bulkDataHandled st || existsb is_bulk l /\
  (existsb substituted l = false ->
   Anonymizer.st_sanitizedText st' = Anonymizer.st_sanitizedText st).
Proof.
  induction l as [|f l IH]; intros st; cbn [fold_left existsb].
  - cbn. rewrite !orb_false_r, andb_true_r. auto.
  - destruct (anonymize_step_effect st f) as [H1 [H2 [H3 H4]]].
    destruct (IH (Anonymizer.anonymize_step st f)) as [I1 [I2 [I3 I4]]].
    cbv zeta in *. rewrite I1, I2, I3, H1, H2, H3.
    rewrite negb_orb, !orb_assoc, andb_assoc. repeat split.
    intros H. apply orb_false_iff in H. destruct H as [Hf Hl].
    rewrite (I4 Hl). apply H4. exact Hf.
Qed.

Lemma existsb_perm : forall (A : Type) (f : A -> bool) l1 l2,
  Permutation l1 l2 -> existsb f l1 = existsb f l2.
Proof.
  intros A f l1 l2 H. induction H; cbn [existsb].
  - reflexivity.
  - rewrite IHPermutation. reflexivity.
  - destruct (f x), (f y); reflexivity.
  - congruence.
Qed.


(** X10.  [bulkDataHandled] is set exactly when the findings include a
    BULK_DATA finding, whatever its row count: the test on rowCount > 10
    after the loop never changes the answer. *)
Theorem anonymizeText_bulkDataHandled :
  forall (text : jsstring) (findings : list Finding),
    Anonymizer.bulkDataHandled
      (Anonymizer.summary (fst (Anonymizer.anonymizeText text findings))) =
    existsb is_bulk findings.
Proof.
  intros text findings.
  destruct (array_sort_spec findings) as [Hperm _].
  destruct (anonymize_loop_effect (Anonymizer.array_sort findings)
              (Anonymizer.mkState text false [] false))
    as [_ [_ [H3 _]]].
  cbv zeta in H3. cbn [Anonymizer.st_bulkDataHandled orb] in H3.
  rewrite <- (existsb_perm is_bulk Hperm) in H3.
  unfold Anonymizer.anonymizeText.
  cbn [fst Anonymizer.summary Anonymizer.bulkDataHandled].
  destruct (find (fun f => str_eqb (type f) (js "BULK_DATA"))
                 (Anonymizer.array_sort findings)) as [b|] eqn:Ef;
    [|exact H3].
  destruct (details b) as [n|]; [|exact H3].
  destruct (10 <? n); [|exact H3].
  symmetry. rewrite (existsb_perm is_bulk Hperm).
  apply existsb_exists. apply find_some in Ef. exists b. exact Ef.
Qed.

Lemma anonymize_step_prefix : forall k text st f,
  k <= offsetStart f ->
  k <= List.length (Anonymizer.st_sanitizedText st) ->
  firstn k (Anonymizer.st_sanitizedText st) = firstn k text ->
  k <= List.length
         (Anonymizer.st_sanitizedText (Anonymizer.anonymize_step st f)) /\
  firstn k (Anonymizer.st_sanitizedText (Anonymizer.anonymize_step st f)) =
  firstn k text.
Proof.
  intros k text st f Hk Hlen Hpre. unfold Anonymizer.anonymize_step.
  destruct (str_eqb (type f) (js "BULK_DATA")); [split; assumption|].
  destruct (Anonymizer.is_security_type (type f)); [split; assumption|].
  destruct (Anonymizer.replacement_of (type f)) as [r tag].
  destruct r as [|c r]; [split; assumption|].
  cbn [Anonymizer.st_sanitizedText]. unfold substring.
  cbn [skipn]. rewrite Nat.sub_0_r.
  set (s := Anonymizer.st_sanitizedText st) in *.
  assert (Hl : k <= List.length (firstn (offsetStart f) s)).
  { rewrite length_firstn. lia. }
  split.
  - rewrite length_app. lia.
  - rewrite firstn_app.
    replace (k - List.length (firstn (offsetStart f) s)) with 0 by lia.
    rewrite firstn_0, app_nil_r, firstn_firstn.
    replace (Nat.min k (offsetStart f)) with k by lia. exact Hpre.
Qed.

(** X11.  The text in front of the leftmost finding is never touched: the
    sanitized text starts with the same [k] characters as the text when
    every finding starts at [k] or later. *)
Theorem anonymizeText_keeps_prefix :
  forall (text : jsstring) (findings : list Finding) (k : nat),
    k <= List.length text ->
    Forall (fun f => k <= offsetStart f) findings ->
    firstn k (Anonymizer.sanitizedText
                (fst (Anonymizer.anonymizeText text findings))) =
    firstn k text.
Proof.
  intros text findings k Hk Hall.
  destruct (array_sort_spec findings) as [Hperm _].
  apply (Permutation_Forall Hperm) in Hall.
  unfold Anonymizer.anonymizeText. cbn [fst Anonymizer.sanitizedText].
  assert (H : forall l st,
    Forall (fun f => k <= offsetStart f) l ->
    k <= List.length (Anonymizer.st_sanitizedText st) ->
    firstn k (Anonymizer.st_sanitizedText st) = firstn k text ->
    firstn k (Anonymizer.st_sanitizedText
                (fold_left Anonymizer.anonymize_step l st)) = firstn k text).
  { induction l as [|f l IH]; intros st Hl Hlen Hpre; cbn [fold_left].
    - exact Hpre.
    - inversion Hl as [|? ? Hf Hl']; subst.
      destruct (@anonymize_step_prefix k text st f Hf Hlen Hpre) as [H1 H2].
      apply IH; assumption. }
  apply H; [exact Hall|exact Hk|reflexivity].
Qed.

Lemma anonymizeText_keeps_prefix_witness :
  12 <= List.length text_jane /\
  Forall (fun f => 12 <= offsetStart f)
         [finding_jane_email; finding_jane_ssn] /\
  firstn 12 (Anonymizer.sanitizedText
               (fst (Anonymizer.anonymizeText text_jane
                       [finding_jane_email; finding_jane_ssn]))) =
  firstn 12 text_jane.
Proof.
  assert (H1 : 12 <= List.length text_jane) by (vm_compute; lia).
  assert (H2 : Forall (fun f => 12 <= offsetStart f)
                      [finding_jane_email; finding_jane_ssn]).
  { repeat constructor; cbn; lia. }
  split; [exact H1|]. split; [exact H2|].
  exact (@anonymizeText_keeps_prefix text_jane _ 12 H1 H2).
Defined.

(* ===================================================================== *)
(** ** Policy engine: shape of every decision *)
(* ===================================================================== *)

Ltac policy_cases :=
  unfold PolicyEngine.makeDecision, PolicyEngine.pii_decision;
  repeat match goal with
         | |- context [if ?c then _ else _] => destruct c eqn:?
         | |- context [match ?c with Some _ => _ | None => _ end] =>
             destruct c eqn:?
         end.

(** X12.  Every decision carries at most one reason code, carries none
    exactly when it is ALLOW, and never carries a sanitized text. *)
Theorem makeDecision_reason_codes :
  forall (a : Analysis) (ctx : PolicyEngine.Context),
    let d := PolicyEngine.makeDecision a ctx in
    List.length (PolicyEngine.reasonCodes d) <= 1 /\
    (PolicyEngine.decision d = PolicyEngine.ALLOW <->
     PolicyEngine.reasonCodes d = []) /\
    PolicyEngine.sanitizedText d = None.
Proof.
  intros a ctx. cbv zeta. policy_cases; cbn;
    (split; [lia|]); (split; [|reflexivity]);
    split; intros H; try reflexivity; discriminate H.
Qed.

(** X13.  The role of the user matters only where PII is the reason: two
    contexts get the same decision for an analysis unless both decisions
    carry the reason PII_DETECTED, and WARN_AND_SANITIZE is only ever
    decided for the role employee or an absent role. *)
Theorem makeDecision_role :
  forall (a : Analysis) (c1 c2 : PolicyEngine.Context),
    (PolicyEngine.makeDecision a c1 = PolicyEngine.makeDecision a c2 \/
     (PolicyEngine.reasonCodes (PolicyEngine.makeDecision a c1) =
        [js "PII_DETECTED"] /\
      PolicyEngine.reasonCodes (PolicyEngine.makeDecision a c2) =
        [js "PII_DETECTED"])) /\
    (PolicyEngine.decision (PolicyEngine.makeDecision a c1) =
       PolicyEngine.WARN_AND_SANITIZE ->
     PolicyEngine.userRole c1 = None \/
     PolicyEngine.userRole c1 = Some (js "employee")).
Proof.
  intros a [r1] [r2]. split.
  - unfold PolicyEngine.makeDecision. cbn [PolicyEngine.userRole].
    destruct (PolicyEngine.is_high (riskLevel a) || _ || _);
      [left; reflexivity|].
    destruct (arr_includes (map type (findings a)) (js "BULK_DATA")).
    + destruct (match find _ (findings a) with Some _ => _ | None => _ end);
        [left; reflexivity|].
      destruct (existsb _ _); [right; split; reflexivity|left; reflexivity].
    + destruct (existsb _ _); [right; split; reflexivity|].
      left. reflexivity.
  - unfold PolicyEngine.makeDecision, PolicyEngine.pii_decision.
    cbn [PolicyEngine.userRole].
    assert (Hrole : forall x,
      (if str_eqb match r1 with Some r => r | None => js "employee" end
                  (js "employee")
       then PolicyEngine.WARN_AND_SANITIZE else PolicyEngine.WARN_AND_ALLOW)
      = PolicyEngine.WARN_AND_SANITIZE ->
      x = true -> r1 = None \/ r1 = Some (js "employee")).
    { intros x H _. destruct r1 as [r|]; [|left; reflexivity].
      destruct (str_eqb r (js "employee")) eqn:E; [|discriminate].
      apply str_eqb_eq in E. right. congruence. }
    repeat match goal with
           | |- context [if ?c then _ else _] =>
               lazymatch c with
               | str_eqb _ (js "employee") => fail
               | _ => destruct c eqn:?
               end
           | |- context [match ?c with Some _ => _ | None => _ end] =>
               lazymatch c with
               | r1 => fail
               | _ => destruct c eqn:?
               end
           end; cbn [PolicyEngine.decision]; intros H;
      try discriminate H; eapply Hrole; eauto.
Qed.

(** X14.  When a finding has one of the engine's seven PII categories
    (EMAIL, PHONE, SSN, ID_NUMBER, CREDIT_CARD, IBAN, ADDRESS), there is no
    BULK_DATA, exfiltration or jailbreak finding and the level is not HIGH,
    the decision is WARN_AND_SANITIZE for the role employee (or no role)
    and WARN_AND_ALLOW for any other role, with the reason PII_DETECTED. *)
Theorem engine_pii_rule :
  forall (a : Analysis) (ctx : PolicyEngine.Context),
    Spec.has_type_in PolicyEngine.piiTypes (findings a) = true ->
    arr_includes (map type (findings a)) (js "BULK_DATA") = false ->
    Spec.has_type_in [js "EXFIL_ATTEMPT"; js "JAILBREAK_PATTERN"]
                     (findings a) = false ->
    riskLevel a <> HIGH ->
    PolicyEngine.decision (PolicyEngine.makeDecision a ctx) =
      (match PolicyEngine.userRole ctx with
       | None => PolicyEngine.WARN_AND_SANITIZE
       | Some r => if str_eqb r (js "employee")
                   then PolicyEngine.WARN_AND_SANITIZE
                   else PolicyEngine.WARN_AND_ALLOW
       end) /\
    PolicyEngine.reasonCodes (PolicyEngine.makeDecision a ctx) =
      [js "PII_DETECTED"].
Proof.
  intros a ctx Hpii Hbulk Hblock Hrisk.
  rewrite (makeDecision_engine_pii a ctx Hpii Hbulk Hblock Hrisk).
  unfold PolicyEngine.pii_decision.
  destruct (PolicyEngine.userRole ctx); split; reflexivity.
Qed.

Lemma engine_pii_rule_witness :
  Spec.has_type_in PolicyEngine.piiTypes
    [finding_jane_email; finding_jane_ssn] = true /\
  PolicyEngine.decision
    (PolicyEngine.makeDecision
       (mkAnalysis MEDIUM [finding_jane_email; finding_jane_ssn] 35)
       (PolicyEngine.mkContext (Some (js "manager")))) =
  PolicyEngine.WARN_AND_ALLOW /\
  PolicyEngine.reasonCodes
    (PolicyEngine.makeDecision
       (mkAnalysis MEDIUM [finding_jane_email; finding_jane_ssn] 35)
       (PolicyEngine.mkContext (Some (js "manager")))) =
  [js "PII_DETECTED"].
Proof.
  split; [vm_compute; reflexivity|].
  apply (@engine_pii_rule
           (mkAnalysis MEDIUM [finding_jane_email; finding_jane_ssn] 35)
           (PolicyEngine.mkContext (Some (js "manager")))).
  - vm_compute. reflexivity.
  - vm_compute. reflexivity.
  - vm_compute. reflexivity.
  - discriminate.
Defined.

(* ===================================================================== *)
(** ** Entity mapper: numbering *)
(* ===================================================================== *)

Lemma js_inj : forall s1 s2 : string, js s1 = js s2 -> s1 = s2.
Proof.
  intros s1 s2 H. unfold js in H.
  apply (f_equal (map ascii_of_N)) in H. rewrite !map_map in H.
  assert (Hid : forall l : list ascii,
            map (fun x => ascii_of_N (N_of_ascii x)) l = l).
  { induction l as [|x l IH]; cbn [map]; [reflexivity|].
    rewrite ascii_N_embedding, IH. reflexivity. }
  rewrite !Hid in H.
  apply (f_equal string_of_list_ascii) in H.
  rewrite !string_of_list_ascii_of_string in H. exact H.
Qed.

Lemma nat_to_js_inj : forall a b, nat_to_js a = nat_to_js b -> a = b.
Proof.
  intros a b H. unfold nat_to_js in H. apply js_inj in H.
  apply (f_equal NilEmpty.uint_of_string) in H.
  rewrite !NilEmpty.usu in H. injection H as H.
  apply (f_equal Nat.of_uint) in H. rewrite !Unsigned.of_to in H. exact H.
Qed.

Lemma startsWith_app : forall p s, startsWith (p ++ s) p = true.
Proof.
  induction p as [|c p IH]; intros s.
  - destruct s; reflexivity.
  - cbn [startsWith app]. rewrite N.eqb_refl. apply IH.
Qed.

Lemma own_absent : forall (A : Type) (o : list (jsstring * A)) k,
  Forall (fun kv => fst kv <> k) o -> Telemetry.own o k = None.
Proof.
  intros A o k H. induction H as [|[k' v] o Hk _ IH]; cbn [Telemetry.own].
  - reflexivity.
  - destruct (str_eqb k' k) eqn:E; [|exact IH].
    apply str_eqb_eq in E. cbn in Hk. congruence.
Qed.

Lemma put_absent : forall (A : Type) (o : list (jsstring * A)) k v,
  Telemetry.own o k = None -> Telemetry.put o k v = o ++ [(k, v)].
Proof.
  intros A o k v. induction o as [|[k' v'] o IH];
    cbn [Telemetry.own Telemetry.put app]; intros H.
  - reflexivity.
  - destruct (str_eqb k' k); [discriminate|]. rewrite (IH H). reflexivity.
Qed.

(** The state of the loop after [k] findings have been recorded under
    DATA placeholders. *)
Lemma build_numbered : forall fs k (entityMap : Telemetry.EntityMap),
  forallb has_no_category fs = true ->
  forallb fresh_value fs = true ->
  Forall (fun kv => exists j, j <= k /\
                              fst kv = js "DATA_" ++ nat_to_js j) entityMap ->
  fst (fold_left Telemetry.build_step fs
         (entityMap, match k with 0 => [] | S _ => [(js "DATA", k)] end)) =
  entityMap ++ numbered k fs.
Proof.
  induction fs as [|f fs IH]; intros k entityMap Hcat Hfresh Hkeys;
    cbn [fold_left numbered forallb] in *.
  - rewrite app_nil_r. reflexivity.
  - apply andb_true_iff in Hcat. destruct Hcat as [Hc Hcat].
    apply andb_true_iff in Hfresh. destruct Hfresh as [Hf Hfresh].
    unfold fresh_value in Hf. apply andb_true_iff in Hf.
    destruct Hf as [Hinh Hshape].
    apply negb_true_iff in Hinh. apply negb_true_iff in Hshape.
    unfold has_no_category in Hc.
    destruct (category f) eqn:Ecat; [discriminate|].
    assert (Hown : Telemetry.own entityMap (Telemetry.key_of (value f))
                   = None).
    { apply own_absent. eapply Forall_impl; [|exact Hkeys].
      intros kv [j [_ Hj]] Heq.
      pose proof (eq_trans (eq_sym Hj) Heq) as Hk. rewrite <- Hk in Hshape.
      rewrite startsWith_app in Hshape. discriminate. }
    assert (Hnew : Telemetry.own entityMap (js "DATA_" ++ nat_to_js (S k))
                   = None).
    { apply own_absent. eapply Forall_impl; [|exact Hkeys].
      intros kv [j [Hle Hj]] Heq.
      pose proof (eq_trans (eq_sym Hj) Heq) as Hk.
      apply app_inv_head in Hk. apply nat_to_js_inj in Hk. lia. }
    assert (Hstep :
      Telemetry.build_step
        (entityMap, match k with 0 => [] | S _ => [(js "DATA", k)] end) f =
      (entityMap ++ [(js "DATA_" ++ nat_to_js (S k),
                      Telemetry.mkEntry (value f) (js "PII"))],
       [(js "DATA", S k)])).
    { unfold Telemetry.build_step, Telemetry.truthy_at.
      rewrite Ecat, Hown, Hinh. cbn [negb].
      change (Telemetry.getCategoryPrefix (js "PII")) with (js "DATA").
      assert (Hn : (match Telemetry.own
                            match k with 0 => [] | S _ => [(js "DATA", k)] end
                            (js "DATA") with
                    | Some n => n | None => 0 end) + 1 = S k).
      { destruct k; cbn; lia. }
      rewrite Hn.
      change (js "DATA" ++ js "_" ++ nat_to_js (S k))
        with (js "DATA_" ++ nat_to_js (S k)).
      rewrite (put_absent _ _ _ Hnew). f_equal.
      destruct k; reflexivity. }
    rewrite Hstep.
    rewrite (IH (S k)); [|exact Hcat|exact Hfresh|].
    + rewrite <- app_assoc. reflexivity.
    + apply Forall_app. split.
      * eapply Forall_impl; [|exact Hkeys].
        intros kv [j [Hle Hj]]. exists j. split; [lia|exact Hj].
      * constructor; [|constructor]. exists (S k). split; [lia|reflexivity].
Qed.

(** X15.  For findings without a category, as the Detector produces them,
    whose values are no inherited member names and are not shaped like a
    DATA placeholder, buildEntityMap records the k-th finding under DATA_k
    with category PII, one entry per finding, in order: equal values
    included. *)
Theorem buildEntityMap_numbers_findings :
  forall fs : list Finding,
    forallb has_no_category fs = true ->
    forallb fresh_value fs = true ->
    Telemetry.buildEntityMap fs = numbered 0 fs.
Proof.
  intros fs Hcat Hfresh. unfold Telemetry.buildEntityMap.
  apply (@build_numbered fs 0 [] Hcat Hfresh). constructor.
Qed.

Lemma buildEntityMap_numbers_findings_witness :
  forallb has_no_category [finding_jane_email; finding_jane_ssn] = true /\
  forallb fresh_value [finding_jane_email; finding_jane_ssn] = true /\
  Telemetry.buildEntityMap [finding_jane_email; finding_jane_ssn] =
  [(js "DATA_1", Telemetry.mkEntry (Some (js "jane@firm.com")) (js "PII"));
   (js "DATA_2", Telemetry.mkEntry (Some (js "123-45-6789")) (js "PII"))].
Proof.
  split; [vm_compute; reflexivity|]. split; [vm_compute; reflexivity|].
  apply (@buildEntityMap_numbers_findings
           [finding_jane_email; finding_jane_ssn]);
    vm_compute; reflexivity.
Defined.



(* ===================================================================== *)
(** ** Output filter: faults, safe results, context windows *)
(* ===================================================================== *)

Section FilterMore.
Variable toLowerCase : jsstring -> jsstring.
Variable replace_gi : jsstring -> jsstring -> jsstring -> jsstring.

Lemma reversal_loop_throws : forall text entries attempts,
  is_throw (OutputFilter.reversal_loop toLowerCase text entries attempts) =
  existsb is_obj entries.
Proof.
  intros text. induction entries as [|[placeholder original] rest IH];
    intros attempts; cbn [OutputFilter.reversal_loop existsb].
  - reflexivity.
  - unfold is_obj at 1. cbn [snd].
    destruct original as [s|e]; cbn [OutputFilter.reversal_step].
    + destruct (OutputFilter.findPartialMatch toLowerCase text s)
        as [[|c cs]|]; cbn [orb]; apply IH.
    + reflexivity.
Qed.

Lemma getContext_length : forall text match_ radius,
  List.length (OutputFilter.getContext toLowerCase text match_ radius) <=
  6 + List.length match_ + 2 * radius.
Proof.
  intros text match_ radius. unfold OutputFilter.getContext.
  destruct (indexOf (toLowerCase text) (toLowerCase match_)) as [index|];
    [|cbn; lia].
  rewrite !length_app. unfold substring.
  rewrite length_firstn, length_skipn.
  change (List.length (js "...")) with 3. lia.
Qed.
End FilterMore.

(** X17.  detectReversalAttempts throws exactly when the entity map holds
    an entry that is an object rather than a string; on a map of strings
    it always returns its list of attempts. *)
Theorem detectReversalAttempts_throws_iff_object :
  forall (toLowerCase : jsstring -> jsstring) (text : jsstring)
         (entityMap : list (jsstring * OutputFilter.MapValue)),
    is_throw (OutputFilter.detectReversalAttempts toLowerCase text entityMap)
    = existsb is_obj entityMap.
Proof.
  intros toLowerCase text entityMap.
  unfold OutputFilter.detectReversalAttempts. apply reversal_loop_throws.
Qed.

(** X18.  The context string getContext builds is never longer than the
    match plus the radius on both sides plus the two ellipses: at most
    [match.length + 2 * radius + 6] code units. *)
Theorem getContext_bounded :
  forall (toLowerCase : jsstring -> jsstring) (text match_ : jsstring)
         (radius : nat),
    List.length (OutputFilter.getContext toLowerCase text match_ radius) <=
    List.length match_ + 2 * radius + 6.
Proof.
  intros toLowerCase text match_ radius.
  pose proof (getContext_length toLowerCase text match_ radius). lia.
Qed.

(** X19.  scanOutput answers safe only for a text in which the Detector
    finds nothing and no anonymization keyword occurs, and then hands the
    text back unchanged. *)
Theorem scanOutput_safe_result :
  forall (toLowerCase : jsstring -> jsstring)
         (replace_gi : jsstring -> jsstring -> jsstring -> jsstring)
         (g : Patterns) (text : jsstring)
         (entityMap : list (jsstring * OutputFilter.MapValue))
         (t : jsstring),
    option_map fst
      (OutputFilter.scanOutput toLowerCase replace_gi g text entityMap) =
      Some (OutputFilter.Normal (OutputFilter.Safe t)) ->
    t = text /\
    detected toLowerCase g text = Some [] /\
    OutputFilter.detectSuspiciousPatterns toLowerCase text = [].
Proof.
  intros toLowerCase replace_gi g text entityMap t.
  unfold OutputFilter.scanOutput, detected.
  destruct (analyzeText toLowerCase g text) as [[a g']|]; [|discriminate].
  cbn [option_map fst].
  destruct (OutputFilter.detectReversalAttempts toLowerCase text entityMap)
    as [attempts|e]; [|discriminate].
  destruct (findings a) as [|f fs];
    destruct attempts as [|at1 ats];
    destruct (OutputFilter.detectSuspiciousPatterns toLowerCase text)
      as [|s1 ss]; cbn; intros H; try discriminate H.
  injection H as <-. repeat split.
Qed.

Lemma scanOutput_safe_result_witness :
  option_map fst
    (OutputFilter.scanOutput ascii_lower (fun s _ _ => s) loaded
       (js "The weather is fine.") []) =
    Some (OutputFilter.Normal (OutputFilter.Safe (js "The weather is fine.")))
  /\
  js "The weather is fine." = js "The weather is fine." /\
  detected ascii_lower loaded (js "The weather is fine.") = Some [] /\
  OutputFilter.detectSuspiciousPatterns ascii_lower
    (js "The weather is fine.") = [].
Proof.
  assert (H : option_map fst
    (OutputFilter.scanOutput ascii_lower (fun s _ _ => s) loaded
       (js "The weather is fine.") []) =
    Some (OutputFilter.Normal (OutputFilter.Safe (js "The weather is fine."))))
    by (vm_compute; reflexivity).
  split; [exact H|].
  exact (@scanOutput_safe_result ascii_lower (fun s _ _ => s) loaded
           (js "The weather is fine.") [] (js "The weather is fine.") H).
Defined.

(* ===================================================================== *)
(** ** Inline check handler: the decision by category *)
(* ===================================================================== *)

Lemma decide_loop_from_warn : forall policies cats,
  InlineCheck.decide_loop policies cats InlineCheck.WARN <>
  InlineCheck.ALLOW.
Proof.
  intros policies. induction cats as [|c cats IH];
    cbn [InlineCheck.decide_loop].
  - discriminate.
  - destruct (InlineCheck.is_stored _ "BLOCK"); [discriminate|].
    rewrite andb_false_r. exact IH.
Qed.

Lemma decide_loop_block : forall policies cats d,
  d <> InlineCheck.BLOCK ->
  (InlineCheck.decide_loop policies cats d = InlineCheck.BLOCK <->
   existsb (fun c => InlineCheck.is_stored
                       (InlineCheck.policy_of policies c) "BLOCK") cats
   = true).
Proof.
  intros policies. induction cats as [|c cats IH]; intros d Hd;
    cbn [InlineCheck.decide_loop existsb].
  - split; [intros H; congruence|discriminate].
  - destruct (InlineCheck.is_stored (InlineCheck.policy_of policies c)
                                    "BLOCK").
    + split; reflexivity.
    + cbn [orb].
      destruct (InlineCheck.is_stored _ "WARN" && _);
        apply IH; [discriminate|exact Hd].
Qed.

(** X20.  The handler's loop over the detected categories answers BLOCK
    exactly when the tenant blocks one of them, and ALLOW exactly when the
    tenant has stored, for every one of them, a decision other than BLOCK
    and WARN; a category without a stored decision counts as WARN. *)
Theorem inline_check_decision :
  forall (policies : list (jsstring * jsstring)) (cats : list jsstring),
    (InlineCheck.decide_loop policies cats InlineCheck.ALLOW =
       InlineCheck.BLOCK <->
     existsb (fun c => InlineCheck.is_stored
                         (InlineCheck.policy_of policies c) "BLOCK") cats
     = true) /\
    (InlineCheck.decide_loop policies cats InlineCheck.ALLOW =
       InlineCheck.ALLOW <->
     forallb (fun c =>
                negb (InlineCheck.is_stored
                        (InlineCheck.policy_of policies c) "BLOCK") &&
                negb (InlineCheck.is_stored
                        (InlineCheck.policy_of policies c) "WARN")) cats
     = true).
Proof.
  intros policies cats. split.
  - apply decide_loop_block. discriminate.
  - induction cats as [|c cats IH]; cbn [InlineCheck.decide_loop forallb].
    + split; reflexivity.
    + destruct (InlineCheck.is_stored (InlineCheck.policy_of policies c)
                                      "BLOCK"); cbn [negb andb].
      * split; discriminate.
      * destruct (InlineCheck.is_stored (InlineCheck.policy_of policies c)
                                        "WARN"); cbn [negb andb].
        -- split; [|discriminate]. intros H. exfalso.
           exact (decide_loop_from_warn policies cats H).
        -- exact IH.
Qed.

Lemma set_of_constant : forall (x : jsstring) xs,
  Forall (fun y => y = x) xs ->
  set_of xs [x] = [x].
Proof.
  intros x xs H. induction H as [|y xs Hy _ IH]; cbn [set_of].
  - reflexivity.
  - subst y. unfold arr_includes at 1. cbn [existsb].
    assert (E : str_eqb x x = true) by (apply str_eqb_eq; reflexivity).
    rewrite E. cbn [orb]. exact IH.
Qed.

Lemma detectedCategories_plain : forall fs : list Finding,
  forallb has_no_category fs = true ->
  InlineCheck.detectedCategories fs =
  if is_empty fs then [] else [js "PII_BASIC"].
Proof.
  intros fs H. unfold InlineCheck.detectedCategories.
  assert (Hall : Forall (fun y => y = js "PII_BASIC")
                   (map (fun f => match category f with
                                  | Some (c :: cs) => c :: cs
                                  | _ => js "PII_BASIC"
                                  end) fs)).
  { induction fs as [|f fs IH]; cbn [map forallb] in *; constructor.
    - apply andb_true_iff in H. destruct H as [Hf _].
      unfold has_no_category in Hf. destruct (category f);
        [discriminate|reflexivity].
    - apply IH. apply andb_true_iff in H. tauto. }
  destruct fs as [|f fs]; [reflexivity|].
  cbn [map is_empty] in *. inversion Hall as [|? ? Hx Hrest]; subst.
  rewrite Hx. cbn [set_of arr_includes existsb app].
  apply set_of_constant. exact Hrest.
Qed.

Lemma detector_findings_plain : forall toLowerCase g text a,
  program_state g ->
  analysis_of toLowerCase g text = Some a ->
  forallb has_no_category (findings a) = true.
Proof.
  intros toLowerCase g text a Hg Ha.
  destruct (@analysis_parts toLowerCase g text a Hg Ha)
    as [piiF [sqlF [xssF [jbF [bulkF [Hfs [Hpii [_ [Hs [Hx [Hj [Hb _]]]]]]]]]]]].
  assert (Hb' : bulkF = [] \/
                bulkF = [mkFinding (js "BULK_DATA") 0 (List.length text)
                           None (Some (rowCount (detectBulkData toLowerCase
                                                   text))) None]).
  { rewrite Hb. destruct (isBulk _); [right|left]; reflexivity. }
  destruct (@analysis_tail text sqlF xssF jbF bulkF _ Hs Hx Hj Hb')
    as [Htail _].
  apply forallb_forall. intros f Hin. rewrite Hfs in Hin.
  apply in_app_or in Hin. destruct Hin as [Hin|Hin].
  - rewrite Forall_forall in Hpii. apply Hpii in Hin. tauto.
  - rewrite Forall_forall in Htail. apply Htail in Hin. tauto.
Qed.

(** X21.  For an analysis of the Detector the handler files every finding
    under the one category PII_BASIC, since findings carry a type and no
    category: the decision is ALLOW without findings and otherwise what
    the tenant stored for PII_BASIC, whatever was found and whatever the
    riskLevel.  With no stored policy a text with findings gets WARN,
    never BLOCK. *)
Theorem inline_check_on_detector_findings :
  forall (toLowerCase : jsstring -> jsstring) (g : Patterns)
         (text : jsstring) (a : Analysis)
         (rows : list (jsstring * jsstring)),
    program_state g ->
    analysis_of toLowerCase g text = Some a ->
    InlineCheck.categories (InlineCheck.respond rows text a) =
      (if is_empty (findings a) then [] else [js "PII_BASIC"]) /\
    InlineCheck.decision (InlineCheck.respond rows text a) =
      (if is_empty (findings a) then InlineCheck.ALLOW
       else InlineCheck.decide_loop (InlineCheck.build_policies rows)
                                    [js "PII_BASIC"] InlineCheck.ALLOW) /\
    (rows = [] -> findings a <> [] ->
     InlineCheck.decision (InlineCheck.respond rows text a) =
     InlineCheck.WARN).
Proof.
  intros toLowerCase g text a rows Hg Ha.
  pose proof (@detector_findings_plain toLowerCase g text a Hg Ha) as Hplain.
  pose proof (@detectedCategories_plain (findings a) Hplain) as Hcats.
  unfold InlineCheck.respond.
  cbn [InlineCheck.categories InlineCheck.decision]. rewrite Hcats.
  split; [reflexivity|]. split.
  - destruct (findings a); reflexivity.
  - intros -> Hne. destruct (findings a); [congruence|]. reflexivity.
Qed.

Lemma inline_check_on_detector_findings_witness :
  program_state loaded /\
  analysis_of ascii_lower loaded (js "sudo mail a@x.io") =
    Some (mkAnalysis HIGH
            [mkFinding (js "EMAIL") 10 16 (Some (js "a@x.io")) None None;
             whole_text_finding (js "JAILBREAK_PATTERN")
                                (js "sudo mail a@x.io")] 35) /\
  InlineCheck.decision
    (InlineCheck.respond [] (js "sudo mail a@x.io")
       (mkAnalysis HIGH
          [mkFinding (js "EMAIL") 10 16 (Some (js "a@x.io")) None None;
           whole_text_finding (js "JAILBREAK_PATTERN")
                              (js "sudo mail a@x.io")] 35)) =
  InlineCheck.WARN.
Proof.
  assert (H : analysis_of ascii_lower loaded (js "sudo mail a@x.io") =
    Some (mkAnalysis HIGH
            [mkFinding (js "EMAIL") 10 16 (Some (js "a@x.io")) None None;
             whole_text_finding (js "JAILBREAK_PATTERN")
                                (js "sudo mail a@x.io")] 35))
    by (vm_compute; reflexivity).
  split; [reflexivity|]. split; [exact H|].
  destruct (@inline_check_on_detector_findings ascii_lower loaded
              (js "sudo mail a@x.io") _ [] eq_refl H) as [_ [_ Hwarn]].
  apply Hwarn; [reflexivity|discriminate].
Defined.

Lemma rank_app_in : forall (l1 l2 : list jsstring) (t : jsstring),
  In t l1 -> rank (l1 ++ l2) t = rank l1 t.
Proof.
  induction l1 as [|k ks IH]; intros l2 t Hin; [destruct Hin|].
  cbn [app rank]. destruct (str_eqb k t) eqn:E; [reflexivity|].
  f_equal. apply IH. destruct Hin as [->|Hin]; [|exact Hin].
  assert (Hs : str_eqb t t = true) by (apply str_eqb_eq; reflexivity).
  congruence.
Qed.

Lemma rank_in_lt : forall (l : list jsstring) (t : jsstring),
  In t l -> rank l t < List.length l.
Proof.
  induction l as [|k ks IH]; intros t Hin; [destruct Hin|].
  cbn [rank List.length]. destruct (str_eqb k t) eqn:E; [lia|].
  destruct Hin as [->|Hin].
  - assert (Hs : str_eqb t t = true) by (apply str_eqb_eq; reflexivity).
    congruence.
  - specialize (IH t Hin). lia.
Qed.

(** X22.  The findings of an analysis are listed in scan order: the PII
    findings grouped by category in the order of the pattern table, then
    the SQL_INJECTION, XSS_ATTEMPT, JAILBREAK_PATTERN and BULK_DATA
    findings, in this order. *)
Theorem findings_in_scan_order :
  forall (toLowerCase : jsstring -> jsstring) (g : Patterns)
         (text : jsstring) (a : Analysis),
    program_state g ->
    analysis_of toLowerCase g text = Some a ->
    StronglySorted scan_order (findings a).
Proof.
  intros toLowerCase g text a Hg Ha.
  destruct (@analysis_parts toLowerCase g text a Hg Ha)
    as [piiF [sqlF [xssF [jbF [bulkF [Hfs [Hpii [[_ Hrank] [Hs [Hx [Hj [Hb
        _]]]]]]]]]]]].
  rewrite Hfs. apply StronglySorted_app.
  - clear -Hpii Hrank.
    induction Hrank as [|x l Hl IH Hx]; constructor.
    + apply IH. inversion Hpii; assumption.
    + inversion Hpii as [|? ? [Hxin _] Hrest]; subst.
      rewrite Forall_forall in *. intros b Hb.
      destruct (Hrest b Hb) as [Hbin _]. unfold scan_order, knownTypes.
      rewrite (@rank_app_in _ _ (type x) Hxin),
              (@rank_app_in _ _ (type b) Hbin).
      exact (Hx b Hb).
  - rewrite Hb.
    destruct Hs as [->| ->]; destruct Hx as [->| ->];
      destruct Hj as [->| ->];
      destruct (isBulk (detectBulkData toLowerCase text));
      cbn [app];
      repeat first [apply SSorted_nil | apply SSorted_cons
                   | apply Forall_nil | apply Forall_cons];
      unfold scan_order; cbn [type whole_text_finding];
      apply Nat.leb_le; vm_compute; reflexivity.
  - intros x y Hxin Hyin. rewrite Forall_forall in Hpii.
    destruct (Hpii x Hxin) as [Hxt _]. unfold scan_order, knownTypes.
    rewrite (@rank_app_in _ [js "SQL_INJECTION"; js "XSS_ATTEMPT";
                             js "JAILBREAK_PATTERN"; js "BULK_DATA"]
                          (type x) Hxt).
    pose proof (@rank_in_lt _ (type x) Hxt) as Hlt.
    assert (Hy : List.length (map fst PII_PATTERNS) <=
                 rank (map fst PII_PATTERNS ++
                       [js "SQL_INJECTION"; js "XSS_ATTEMPT";
                        js "JAILBREAK_PATTERN"; js "BULK_DATA"]) (type y)).
    { rewrite Hb in Hyin.
      destruct Hs as [->| ->]; destruct Hx as [->| ->];
        destruct Hj as [->| ->];
        destruct (isBulk (detectBulkData toLowerCase text));
        cbn [app In] in Hyin;
        repeat (destruct Hyin as [<-|Hyin];
                [cbn [type whole_text_finding]; apply Nat.leb_le;
                 vm_compute; reflexivity|]);
        destruct Hyin. }
    lia.
Qed.

Lemma findings_in_scan_order_witness :
  program_state loaded /\
  analysis_of ascii_lower loaded (js "sudo mail a@x.io") =
    Some (mkAnalysis HIGH
            [mkFinding (js "EMAIL") 10 16 (Some (js "a@x.io")) None None;
             whole_text_finding (js "JAILBREAK_PATTERN")
                                (js "sudo mail a@x.io")] 35) /\
  StronglySorted scan_order
    [mkFinding (js "EMAIL") 10 16 (Some (js "a@x.io")) None None;
     whole_text_finding (js "JAILBREAK_PATTERN") (js "sudo mail a@x.io")].
Proof.
  assert (H : analysis_of ascii_lower loaded (js "sudo mail a@x.io") =
    Some (mkAnalysis HIGH
            [mkFinding (js "EMAIL") 10 16 (Some (js "a@x.io")) None None;
             whole_text_finding (js "JAILBREAK_PATTERN")
                                (js "sudo mail a@x.io")] 35))
    by (vm_compute; reflexivity).
  split; [reflexivity|]. split; [exact H|].
  exact (@findings_in_scan_order ascii_lower loaded _ _ eq_refl H).
Defined.

(** X23.  A text is approved with the message Content approved for sending
    exactly when the Detector finds nothing in it, and the decision is
    then ALLOW without reason codes, for every role. *)
Theorem clean_text_is_approved :
  forall (toLowerCase : jsstring -> jsstring) (g : Patterns)
         (text : jsstring) (a : Analysis) (ctx : PolicyEngine.Context),
    program_state g ->
    analysis_of toLowerCase g text = Some a ->
    (PolicyEngine.userMessage (PolicyEngine.makeDecision a ctx) =
       PolicyEngine.msg_low <-> findings a = []) /\
    (findings a = [] ->
     PolicyEngine.makeDecision a ctx =
     PolicyEngine.mkDecision PolicyEngine.ALLOW [] None
                             PolicyEngine.msg_low).
Proof.
  intros toLowerCase g text a ctx Hg Ha.
  destruct (@analysis_low toLowerCase g text a Hg Ha) as [Hlow _].
  assert (Hclean : findings a = [] ->
    PolicyEngine.makeDecision a ctx =
    PolicyEngine.mkDecision PolicyEngine.ALLOW [] None
                            PolicyEngine.msg_low).
  { intros He. apply Hlow in He as Hl. clear -He Hl.
    destruct a as [r fs sc]. cbn [findings riskLevel] in *. subst.
    reflexivity. }
  split; [|exact Hclean]. split.
  - intros Hmsg. apply Hlow. revert Hmsg. policy_cases;
      cbn [PolicyEngine.userMessage]; intros Hmsg;
      try (vm_compute in Hmsg; discriminate Hmsg).
    match goal with
    | H : PolicyEngine.is_low (riskLevel a) = true |- _ =>
        destruct (riskLevel a); [reflexivity|discriminate H|discriminate H]
    end.
  - intros He. rewrite (Hclean He). reflexivity.
Qed.

Lemma clean_text_is_approved_witness :
  program_state loaded /\
  analysis_of ascii_lower loaded (js "hello world") =
    Some (mkAnalysis LOW [] 0) /\
  PolicyEngine.makeDecision (mkAnalysis LOW [] 0)
    (PolicyEngine.mkContext (Some (js "contractor"))) =
  PolicyEngine.mkDecision PolicyEngine.ALLOW [] None PolicyEngine.msg_low.
Proof.
  assert (H : analysis_of ascii_lower loaded (js "hello world") =
              Some (mkAnalysis LOW [] 0)) by (vm_compute; reflexivity).
  split; [reflexivity|]. split; [exact H|].
  destruct (@clean_text_is_approved ascii_lower loaded _ _
              (PolicyEngine.mkContext (Some (js "contractor"))) eq_refl H)
    as [_ Hclean].
  apply Hclean. reflexivity.
Defined.
